(** * fake-switches: the switch configuration model and the Brocade
      virtual-interface command processor

    A shallow embedding of [fake_switches/switch_configuration.py] and
    [fake_switches/brocade/command_processor/config_virtual_interface.py].

    Python objects live in a store and are named by references, so that the
    port a command processor edits and the port the switch configuration
    lists are one object.  Handlers run in a state-and-exception monad over
    that store: a Python exception that escapes a handler keeps the
    mutations done before it was raised. *)

From Stdlib Require Import ZArith Ascii String List Bool Lia.
From stdpp Require Import base option list strings gmap.

Local Open Scope Z_scope.

(* ===================================================================== *)
(** * Python strings *)
(* ===================================================================== *)

(** Strings are byte strings (Python 2 [str]): one [ascii] per character. *)
Module PyStr.

(** [s.startswith(p)] *)
Fixpoint startswith (s p : string) : bool :=
  match p with
  | EmptyString => true
  | String c p' =>
      match s with
      | EmptyString => false
      | String d s' => Ascii.eqb c d && startswith s' p'
      end
  end.

Definition rev (s : string) : string :=
  string_of_list_ascii (List.rev (list_ascii_of_string s)).

(** [s.endswith(p)] *)
Definition endswith (s p : string) : bool := startswith (rev s) (rev p).

Definition is_upper (c : ascii) : bool :=
  let n := nat_of_ascii c in (Nat.leb 65 n && Nat.leb n 90)%bool.

(** The character class [\d] on a byte string: ['0'] to ['9']. *)
Definition is_digit (c : ascii) : bool :=
  let n := nat_of_ascii c in (Nat.leb 48 n && Nat.leb n 57)%bool.

(** [string.whitespace]: space, tab, line feed, vertical tab, form feed,
    carriage return. *)
Definition is_space (c : ascii) : bool :=
  let n := nat_of_ascii c in (Nat.eqb n 32 || (Nat.leb 9 n && Nat.leb n 13))%bool.

Definition lower_char (c : ascii) : ascii :=
  if is_upper c then ascii_of_nat (nat_of_ascii c + 32) else c.

(** [s.lower()] *)
Fixpoint lower (s : string) : string :=
  match s with
  | EmptyString => EmptyString
  | String c r => String (lower_char c) (lower r)
  end.

(** [s.lstrip()] *)
Fixpoint lstrip (s : string) : string :=
  match s with
  | EmptyString => EmptyString
  | String c r => if is_space c then lstrip r else s
  end.

(** [s.strip()] *)
Definition strip (s : string) : string := rev (lstrip (rev (lstrip s))).

(** [re.compile('\d').search(s)]: the start of the leftmost digit, [None]
    when the string has no digit. *)
Fixpoint search_digit (s : string) : option nat :=
  match s with
  | EmptyString => None
  | String c r =>
      if is_digit c then Some O
      else match search_digit r with
           | Some k => Some (S k)
           | None => None
           end
  end.

(** Whether some character of [s] is a decimal digit. *)
Fixpoint has_digit (s : string) : bool :=
  match s with
  | EmptyString => false
  | String c r => is_digit c || has_digit r
  end.

(** [s[:k]] and [s[k:]] *)
Fixpoint take (k : nat) (s : string) : string :=
  match k, s with
  | S k', String c r => String c (take k' r)
  | _, _ => EmptyString
  end.

Fixpoint drop (k : nat) (s : string) : string :=
  match k, s with
  | S k', String _ r => drop k' r
  | _, _ => s
  end.

(** [s.split(sep)] for a one-character separator. *)
Fixpoint split_on (sep : ascii) (s : string) : list string :=
  match s with
  | EmptyString => [EmptyString]
  | String c r =>
      if Ascii.eqb c sep then EmptyString :: split_on sep r
      else match split_on sep r with
           | w :: ws => String c w :: ws
           | [] => [String c EmptyString]
           end
  end.

(** A non-empty run of decimal digits read as a number. *)
Fixpoint digits_value (acc : Z) (s : string) : option Z :=
  match s with
  | EmptyString => Some acc
  | String c r =>
      if is_digit c
      then digits_value (10 * acc + (Z.of_nat (nat_of_ascii c) - 48)) r
      else None
  end.

Definition parse_decimal (s : string) : option Z :=
  match s with
  | EmptyString => None
  | _ => digits_value 0 s
  end.

End PyStr.

(* ===================================================================== *)
(** * The netaddr library *)
(* ===================================================================== *)

(** Modelled from the netaddr library, which the command processor imports
    and which is not part of this repository: IPv4 networks only.  An
    [IPNetwork] keeps the address it was built from, host bits included,
    next to the prefix length. *)
Module netaddr.

Definition width : Z := 32.

(** An [IPAddress] is its 32-bit value. *)
Definition IPAddress := Z.

Record IPNetwork := mkIPNetwork {
  value : Z;
  prefixlen : Z
}.

(** [net.ip] *)
Definition ip (n : IPNetwork) : IPAddress := value n.

(** [IPAddress.__eq__]: the same value. *)
Definition address_eqb (a b : IPAddress) : bool := Z.eqb a b.

Definition shiftwidth (n : IPNetwork) : Z := width - prefixlen n.

(** The network bits of [n]: its value without the host bits. *)
Definition net_bits (n : IPNetwork) : Z := Z.shiftr (value n) (shiftwidth n).

(** [addr in net] for an [IPAddress]. *)
Definition contains_address (n : IPNetwork) (a : IPAddress) : bool :=
  Z.eqb (Z.shiftr a (shiftwidth n)) (net_bits n).

(** [other in net] for an [IPNetwork]: [other] lies within the bounds
    of [net]. *)
Definition contains_network (n other : IPNetwork) : bool :=
  Z.eqb (Z.shiftr (value other) (shiftwidth n)) (net_bits n)
  && Z.leb (prefixlen n) (prefixlen other).

(** [IPNetwork.__eq__] compares the boundaries of the two networks, not
    the addresses they were built from: [10.0.0.5/24 == 10.0.0.6/24]. *)
Definition network_eqb (n m : IPNetwork) : bool :=
  Z.eqb (prefixlen n) (prefixlen m) && Z.eqb (net_bits n) (net_bits m).

Definition parse_octet (s : string) : option Z :=
  match PyStr.parse_decimal s with
  | Some v => if Z.leb v 255 then Some v else None
  | None => None
  end.

(** Dotted-quad notation, four decimal octets. *)
Definition parse_address (s : string) : option IPAddress :=
  match List.map parse_octet (PyStr.split_on "."%char s) with
  | [Some a; Some b; Some c; Some d] =>
      Some (Z.lor (Z.shiftl a 24) (Z.lor (Z.shiftl b 16) (Z.lor (Z.shiftl c 8) d)))
  | _ => None
  end.

(** [IPNetwork(addr)] for ["a.b.c.d"] and ["a.b.c.d/len"]; [None] stands
    for the [AddrFormatError] raised on anything else. *)
Definition IPNetwork_of_string (addr : string) : option IPNetwork :=
  match PyStr.split_on "/"%char addr with
  | [a] =>
      match parse_address a with
      | Some v => Some (mkIPNetwork v width)
      | None => None
      end
  | [a; p] =>
      match parse_address a, PyStr.parse_decimal p with
      | Some v, Some len =>
          if Z.leb len width then Some (mkIPNetwork v len) else None
      | _, _ => None
      end
  | _ => None
  end.

End netaddr.

(* ===================================================================== *)
(** * switch_configuration.py: the entities *)
(* ===================================================================== *)

(** A reference to an object of the store: its position there. *)
Abbreviation ref := nat (only parsing).

Module VRF.
Record t := init { name : string }.
End VRF.

Module Vlan.
(** [switch_configuration] is the back-reference to the owning
    configuration: the store holds one configuration, so the field says
    whether it is set. *)
Record t := mk {
  number : option Z;
  name : option string;
  description : option string;
  switch_configuration : bool
}.

Definition init (number : option Z) (name description : option string)
    (switch_configuration : bool) : t :=
  mk number name description switch_configuration.
End Vlan.

Module Port.
(** A VRF object holds nothing but its name and is never mutated, so the
    [vrf] field keeps the VRF itself. *)
Record t := mk {
  name : string;
  switch_configuration : bool;
  description : option string;
  mode : option string;
  access_vlan : option Z;
  trunk_vlans : option (list Z);
  trunk_native_vlan : option Z;
  trunk_encapsulation_mode : option string;
  shutdown : option bool;
  vrf : option VRF.t;
  speed : option string;
  auto_negotiation : option bool;
  aggregation_membership : option string;
  vendor_specific : gmap string string
}.

(** [Port.__init__] *)
Definition init (name : string) : t :=
  {| name := name;
     switch_configuration := false;
     description := None;
     mode := None;
     access_vlan := None;
     trunk_vlans := None;
     trunk_native_vlan := None;
     trunk_encapsulation_mode := None;
     shutdown := None;
     vrf := None;
     speed := None;
     auto_negotiation := None;
     aggregation_membership := None;
     vendor_specific := ∅ |}.

(** [Port.reset]: the fields the method does not assign keep their
    value. *)
Definition reset (self : t) : t :=
  {| name := name self;
     switch_configuration := switch_configuration self;
     description := None;
     mode := None;
     access_vlan := None;
     trunk_vlans := None;
     trunk_native_vlan := None;
     trunk_encapsulation_mode := trunk_encapsulation_mode self;
     shutdown := None;
     vrf := None;
     speed := None;
     auto_negotiation := None;
     aggregation_membership := None;
     vendor_specific := ∅ |}.

Definition set_vrf (self : t) (v : option VRF.t) : t :=
  {| name := name self;
     switch_configuration := switch_configuration self;
     description := description self;
     mode := mode self;
     access_vlan := access_vlan self;
     trunk_vlans := trunk_vlans self;
     trunk_native_vlan := trunk_native_vlan self;
     trunk_encapsulation_mode := trunk_encapsulation_mode self;
     shutdown := shutdown self;
     vrf := v;
     speed := speed self;
     auto_negotiation := auto_negotiation self;
     aggregation_membership := aggregation_membership self;
     vendor_specific := vendor_specific self |}.

Definition set_switch_configuration (self : t) (b : bool) : t :=
  {| name := name self;
     switch_configuration := b;
     description := description self;
     mode := mode self;
     access_vlan := access_vlan self;
     trunk_vlans := trunk_vlans self;
     trunk_native_vlan := trunk_native_vlan self;
     trunk_encapsulation_mode := trunk_encapsulation_mode self;
     shutdown := shutdown self;
     vrf := vrf self;
     speed := speed self;
     auto_negotiation := auto_negotiation self;
     aggregation_membership := aggregation_membership self;
     vendor_specific := vendor_specific self |}.

Definition set_trunk_encapsulation_mode (self : t) (m : option string) : t :=
  {| name := name self;
     switch_configuration := switch_configuration self;
     description := description self;
     mode := mode self;
     access_vlan := access_vlan self;
     trunk_vlans := trunk_vlans self;
     trunk_native_vlan := trunk_native_vlan self;
     trunk_encapsulation_mode := m;
     shutdown := shutdown self;
     vrf := vrf self;
     speed := speed self;
     auto_negotiation := auto_negotiation self;
     aggregation_membership := aggregation_membership self;
     vendor_specific := vendor_specific self |}.
End Port.

Module VRRP.
(** [timers_hold] starts as [False], every other optional field as
    [None]. *)
Inductive hold := HoldFalse | Hold (seconds : Z).

Record t := mk {
  group_id : string;
  ip_addresses : option (list netaddr.IPAddress);
  description : option string;
  authentication : option string;
  timers_hello : option Z;
  timers_hold : hold;
  priority : option Z;
  track : gmap string string;
  preempt : bool;
  preempt_delay_minimum : option Z;
  activated : option bool;
  advertising : option bool
}.

(** [VRRP.__init__] *)
Definition init (group_id : string) : t :=
  {| group_id := group_id;
     ip_addresses := None;
     description := None;
     authentication := None;
     timers_hello := None;
     timers_hold := HoldFalse;
     priority := None;
     track := ∅;
     preempt := true;
     preempt_delay_minimum := None;
     activated := None;
     advertising := None |}.
End VRRP.

(** Python's [next((x for x in l if f x), default)] is [List.find]. *)

(** [l.index(x)] under an equality test: the first position that holds an
    element equal to [x]. *)
Fixpoint list_index {A} (eqb : A -> A -> bool) (x : A) (l : list A) : option nat :=
  match l with
  | [] => None
  | y :: r =>
      if eqb y x then Some O
      else match list_index eqb x r with
           | Some i => Some (S i)
           | None => None
           end
  end.

(** The list without its first element that satisfies [f]; the list itself
    when there is none. *)
Fixpoint remove_first {A} (f : A -> bool) (l : list A) : list A :=
  match l with
  | [] => []
  | y :: r => if f y then r else y :: remove_first f r
  end.

(** [l.remove(x)] under an equality test: [None] stands for the
    [ValueError] raised when no element equals [x]. *)
Definition list_remove {A} (eqb : A -> A -> bool) (x : A) (l : list A) : option (list A) :=
  if existsb (fun y => eqb y x) l then Some (remove_first (fun y => eqb y x) l)
  else None.

Module VlanPort.
(** The fields [VlanPort.__init__] adds to those of [Port]. *)
Record t := mk {
  vlan_id : Z;
  access_group_in : option string;
  access_group_out : option string;
  ips : list netaddr.IPNetwork;
  secondary_ips : list netaddr.IPNetwork;
  vrrp_common_authentication : option string;
  vrrps : list ref
}.

Definition init (vlan_id : Z) : t :=
  {| vlan_id := vlan_id;
     access_group_in := None;
     access_group_out := None;
     ips := [];
     secondary_ips := [];
     vrrp_common_authentication := None;
     vrrps := [] |}.

Definition set_access_group_in (self : t) (g : option string) : t :=
  mk (vlan_id self) g (access_group_out self) (ips self) (secondary_ips self)
     (vrrp_common_authentication self) (vrrps self).

Definition set_access_group_out (self : t) (g : option string) : t :=
  mk (vlan_id self) (access_group_in self) g (ips self) (secondary_ips self)
     (vrrp_common_authentication self) (vrrps self).

Definition set_ips (self : t) (l : list netaddr.IPNetwork) : t :=
  mk (vlan_id self) (access_group_in self) (access_group_out self) l
     (secondary_ips self) (vrrp_common_authentication self) (vrrps self).

Definition set_secondary_ips (self : t) (l : list netaddr.IPNetwork) : t :=
  mk (vlan_id self) (access_group_in self) (access_group_out self) (ips self)
     l (vrrp_common_authentication self) (vrrps self).

Definition set_vrrp_common_authentication (self : t) (a : option string) : t :=
  mk (vlan_id self) (access_group_in self) (access_group_out self) (ips self)
     (secondary_ips self) a (vrrps self).

Definition set_vrrps (self : t) (l : list ref) : t :=
  mk (vlan_id self) (access_group_in self) (access_group_out self) (ips self)
     (secondary_ips self) (vrrp_common_authentication self) l.

Definition same_address (n : netaddr.IPNetwork) (ip : netaddr.IPNetwork) : bool :=
  netaddr.address_eqb (netaddr.ip ip) (netaddr.ip n).

(** [vrrp.group_id == group] for the VRRP object behind a reference. *)
Definition has_group_id (vrrp_objects : list VRRP.t) (group : string)
    (vrrp : ref) : bool :=
  match vrrp_objects !! vrrp with
  | Some v => String.eqb (VRRP.group_id v) group
  | None => false
  end.

(** [VlanPort.get_vrrp_group]: the first reference of [vrrps] whose
    object has the group id. *)
Definition get_vrrp_group (vrrp_objects : list VRRP.t) (self : t)
    (group : string) : option ref :=
  List.find (has_group_id vrrp_objects group) (vrrps self).

(** [VlanPort.add_ip]; [None] stands for the [ValueError] of
    [list.index]. *)
Definition add_ip (self : t) (ip_network : netaddr.IPNetwork) : option t :=
  match List.find (same_address ip_network) (ips self) with
  | Some existing_ip =>
      match list_index netaddr.network_eqb existing_ip (ips self) with
      | Some i => Some (set_ips self (<[i := ip_network]> (ips self)))
      | None => None
      end
  | None => Some (set_ips self (ips self ++ [ip_network]))
  end.

(** [VlanPort.add_secondary_ip] *)
Definition add_secondary_ip (self : t) (ip_network : netaddr.IPNetwork) : t :=
  set_secondary_ips self (secondary_ips self ++ [ip_network]).

(** [VlanPort.remove_ip]: pops the first primary with the address. *)
Definition remove_ip (self : t) (ip_network : netaddr.IPNetwork) : t :=
  set_ips self (remove_first (same_address ip_network) (ips self)).

(** [VlanPort.remove_secondary_ip]; [None] stands for the [ValueError]
    of [list.remove]. *)
Definition remove_secondary_ip (self : t) (deleting_ip : netaddr.IPNetwork) : option t :=
  match List.find (same_address deleting_ip) (secondary_ips self) with
  | Some ip =>
      match list_remove netaddr.network_eqb ip (secondary_ips self) with
      | Some l => Some (set_secondary_ips self l)
      | None => None
      end
  | None => Some self
  end.
End VlanPort.

Module AggregatedPort.
Record t := mk {
  lacp_active : bool;
  lacp_periodic : option bool
}.

Definition init : t := mk false None.
End AggregatedPort.

(** A port object with its class: [Port], or one of its two subclasses
    with the fields the subclass adds. *)
Inductive PortObject :=
| PortInstance (base : Port.t)
| VlanPortInstance (base : Port.t) (ext : VlanPort.t)
| AggregatedPortInstance (base : Port.t) (ext : AggregatedPort.t).

Definition base_of (o : PortObject) : Port.t :=
  match o with
  | PortInstance b | VlanPortInstance b _ | AggregatedPortInstance b _ => b
  end.

Definition with_base (o : PortObject) (b : Port.t) : PortObject :=
  match o with
  | PortInstance _ => PortInstance b
  | VlanPortInstance _ e => VlanPortInstance b e
  | AggregatedPortInstance _ e => AggregatedPortInstance b e
  end.

(** [isinstance(o, VlanPort)], with the VlanPort fields. *)
Definition as_vlan_port (o : PortObject) : option VlanPort.t :=
  match o with
  | VlanPortInstance _ e => Some e
  | _ => None
  end.

Definition with_vlan_port (o : PortObject) (e : VlanPort.t) : PortObject :=
  match o with
  | VlanPortInstance b _ => VlanPortInstance b e
  | _ => o
  end.

(* ===================================================================== *)
(** * The store and the monad of handlers *)
(* ===================================================================== *)

Module SwitchConfiguration.
(** The fields of [SwitchConfiguration]; [ports] lists references into
    the store.  [objects_factory] is the default one: [new("VRRP", g)]
    builds a [VRRP]. *)
Record t := mk {
  ip : string;
  name : string;
  privileged_passwords : list string;
  auto_enabled : bool;
  vlans : list Vlan.t;
  ports : list ref;
  vrfs : list VRF.t;
  locked : bool
}.

Definition set_vlans (self : t) (l : list Vlan.t) : t :=
  mk (ip self) (name self) (privileged_passwords self) (auto_enabled self)
     l (ports self) (vrfs self) (locked self).

Definition set_ports (self : t) (l : list ref) : t :=
  mk (ip self) (name self) (privileged_passwords self) (auto_enabled self)
     (vlans self) l (vrfs self) (locked self).

Definition set_vrfs (self : t) (l : list VRF.t) : t :=
  mk (ip self) (name self) (privileged_passwords self) (auto_enabled self)
     (vlans self) (ports self) l (locked self).
End SwitchConfiguration.

(** The mode a processor moved to with [move_to]: the VRRP sub-mode of a
    port, editing one VRRP object. *)
Inductive SubProcessor :=
| ConfigVirtualInterfaceVrrpCommandProcessor (port : ref) (vrrp : ref).

(** Everything a handler can read or change: the port and VRRP objects,
    the switch configuration, the lines written to the terminal (oldest
    first) and the sub-mode entered. *)
Record World := mkWorld {
  port_objects : list PortObject;
  vrrp_objects : list VRRP.t;
  switch_configuration : SwitchConfiguration.t;
  written : list string;
  sub_processor : option SubProcessor
}.

Definition set_port_objects (w : World) (l : list PortObject) : World :=
  mkWorld l (vrrp_objects w) (switch_configuration w) (written w) (sub_processor w).

Definition set_vrrp_objects (w : World) (l : list VRRP.t) : World :=
  mkWorld (port_objects w) l (switch_configuration w) (written w) (sub_processor w).

Definition set_switch_configuration (w : World) (c : SwitchConfiguration.t) : World :=
  mkWorld (port_objects w) (vrrp_objects w) c (written w) (sub_processor w).

Definition set_written (w : World) (l : list string) : World :=
  mkWorld (port_objects w) (vrrp_objects w) (switch_configuration w) l (sub_processor w).

Definition set_sub_processor (w : World) (p : option SubProcessor) : World :=
  mkWorld (port_objects w) (vrrp_objects w) (switch_configuration w) (written w) p.

Inductive Exception :=
| IndexError
| AttributeError
| ValueError
| AddrFormatError.

Inductive Outcome (A : Type) :=
| Return (a : A) (w : World)
| Raise (e : Exception) (w : World).
Arguments Return {A} a w.
Arguments Raise {A} e w.

Definition Py (A : Type) : Type := World -> Outcome A.

Definition ret {A} (a : A) : Py A := fun w => Return a w.

Definition raise {A} (e : Exception) : Py A := fun w => Raise e w.

Definition bind {A B} (m : Py A) (k : A -> Py B) : Py B :=
  fun w =>
    match m w with
    | Return a w' => k a w'
    | Raise e w' => Raise e w'
    end.

Declare Scope py_scope.
Delimit Scope py_scope with py.
Notation "'let*' x := m 'in' k" := (bind m (fun x => k))
  (at level 10, x name, m at level 100, k at level 200) : py_scope.
Notation "m ;;; k" := (bind m (fun _ => k))
  (at level 100, k at level 200, right associativity) : py_scope.
Local Open Scope py_scope.

Definition get_world : Py World := fun w => Return w w.

Definition modify (f : World -> World) : Py unit := fun w => Return tt (f w).

(** An [option] whose [None] is the exception [e]. *)
Definition lift_option {A} (e : Exception) (o : option A) : Py A :=
  match o with
  | Some a => ret a
  | None => raise e
  end.

(** [if b: m] *)
Definition when (b : bool) (m : Py unit) : Py unit :=
  if b then m else ret tt.

(** [args[i]] *)
Definition arg (args : list string) (i : nat) : Py string :=
  lift_option IndexError (args !! i).

(** [write_line] of the base command processor, which is not among the
    sources: the line goes to the terminal. *)
Definition write_line (line : string) : Py unit :=
  modify (fun w => set_written w (written w ++ [line])).

(** [move_to] of the base command processor, which is not among the
    sources: the session enters the sub-mode built from the arguments. *)
Definition move_to (p : SubProcessor) : Py unit :=
  modify (fun w => set_sub_processor w (Some p)).

(** The VlanPort fields of the object behind [port].  The handlers of the
    virtual-interface mode use them on [self.port], which that mode takes
    to be a VlanPort: on a port of another class the read is an
    [AttributeError].  Assigning one of these attributes to such a port,
    which Python would do by creating the attribute, is outside the model
    and raises as well. *)
Definition vlan_port (port : ref) : Py VlanPort.t :=
  let* w := get_world in
  lift_option AttributeError (port_objects w !! port ≫= as_vlan_port).

(** Stores new VlanPort fields in the object behind [port]. *)
Definition update_vlan_port (port : ref) (e : VlanPort.t) : Py unit :=
  modify (fun w =>
    set_port_objects w
      (match port_objects w !! port with
       | Some o => <[port := with_vlan_port o e]> (port_objects w)
       | None => port_objects w
       end)).

(* ===================================================================== *)
(** * switch_configuration.py: the operations *)
(* ===================================================================== *)

(** [split_port_name]: [search] returns [None] on a name without digit,
    and [None.span()] is an [AttributeError]. *)
Definition split_port_name (name : string) : Exception + (string * string) :=
  match PyStr.search_digit name with
  | Some number_start => inr (PyStr.take number_start name, PyStr.drop number_start name)
  | None => inl AttributeError
  end.

(** [Port.get_subname] *)
Definition get_subname (self : Port.t) (length : nat) : Exception + string :=
  match split_port_name (Port.name self) with
  | inr (name, number) => inr (PyStr.take length name +:+ number)
  | inl e => inl e
  end.

Module SwitchConfigurationOps.
Import SwitchConfiguration.

(** [SwitchConfiguration.__init__] before its [vlans] and [ports]
    arguments are added. *)
Definition init (ip name : string) (auto_enabled : bool)
    (privileged_passwords : list string) : t :=
  {| ip := ip;
     name := name;
     privileged_passwords := privileged_passwords;
     auto_enabled := auto_enabled;
     vlans := [];
     ports := [];
     vrfs := [VRF.init "DEFAULT-LAN"];
     locked := false |}.

Definition port_name_is (w : World) (name : string) (r : ref) : bool :=
  match port_objects w !! r with
  | Some o => String.eqb (Port.name (base_of o)) name
  | None => false
  end.

(** [get_port] *)
Definition get_port (w : World) (name : string) : option ref :=
  List.find (port_name_is w name) (ports (switch_configuration w)).

(** [add_port]: appends the port and sets its back-reference. *)
Definition add_port (port : ref) : Py unit :=
  modify (fun w =>
    let c := switch_configuration w in
    let w' := set_switch_configuration w (set_ports c (ports c ++ [port])) in
    set_port_objects w'
      (match port_objects w !! port with
       | Some o =>
           <[port := with_base o (Port.set_switch_configuration (base_of o) true)]>
             (port_objects w)
       | None => port_objects w
       end)).

(** [add_vlan] *)
Definition add_vlan (vlan : Vlan.t) : Py unit :=
  modify (fun w =>
    let c := switch_configuration w in
    set_switch_configuration w
      (set_vlans c
         (vlans c ++ [Vlan.mk (Vlan.number vlan) (Vlan.name vlan)
                        (Vlan.description vlan) true]))).

(** [get_vlan] *)
Definition get_vlan (w : World) (number : Z) : option Vlan.t :=
  List.find
    (fun vlan => match Vlan.number vlan with
                 | Some n => Z.eqb n number
                 | None => false
                 end)
    (vlans (switch_configuration w)).

Definition partial_name_matches (w : World) (partial_name number : string)
    (r : ref) : bool :=
  match port_objects w !! r with
  | Some o =>
      let n := PyStr.lower (Port.name (base_of o)) in
      PyStr.startswith n (PyStr.strip partial_name)
      && PyStr.endswith n (PyStr.strip number)
  | None => false
  end.

(** [get_port_by_partial_name] *)
Definition get_port_by_partial_name (name : string) : Py (option ref) :=
  fun w =>
    match split_port_name (PyStr.lower name) with
    | inr (partial_name, number) =>
        Return
          (List.find (partial_name_matches w partial_name number)
             (ports (switch_configuration w)))
          w
    | inl e => Raise e w
    end.

(** The first network of [ips] that holds the address. *)
Definition find_network (ip_string : netaddr.IPAddress)
    (ips : list netaddr.IPNetwork) : option netaddr.IPNetwork :=
  List.find (fun ip => netaddr.contains_address ip ip_string) ips.

(** The loops of [get_port_and_ip_by_ip] over the ports that are
    instances of [VlanPort] and over their [ips]. *)
Fixpoint scan_ports (objects : list PortObject) (ip_string : netaddr.IPAddress)
    (ports : list ref) : option (ref * netaddr.IPNetwork) :=
  match ports with
  | [] => None
  | port :: rest =>
      match objects !! port ≫= as_vlan_port with
      | Some e =>
          match find_network ip_string (VlanPort.ips e) with
          | Some ip => Some (port, ip)
          | None => scan_ports objects ip_string rest
          end
      | None => scan_ports objects ip_string rest
      end
  end.

(** [get_port_and_ip_by_ip]: [None] for the pair [(None, None)]. *)
Definition get_port_and_ip_by_ip (w : World) (ip_string : netaddr.IPAddress)
    : option (ref * netaddr.IPNetwork) :=
  scan_ports (port_objects w) ip_string (ports (switch_configuration w)).

Definition vrf_named (name : string) (vrf : VRF.t) : bool :=
  String.eqb (VRF.name vrf) name.

(** [get_vrf] *)
Definition get_vrf (c : t) (name : string) : option VRF.t :=
  List.find (vrf_named name) (vrfs c).

(** [add_vrf] *)
Definition add_vrf (vrf : VRF.t) : Py unit :=
  modify (fun w =>
    let c := switch_configuration w in
    match get_vrf c (VRF.name vrf) with
    | Some _ => w
    | None => set_switch_configuration w (set_vrfs c (vrfs c ++ [vrf]))
    end).

(** The body of the loop of [remove_vrf] on one port object. *)
Definition detach_vrf (name : string) (o : PortObject) : PortObject :=
  match Port.vrf (base_of o) with
  | Some v =>
      if String.eqb (VRF.name v) name
      then with_base o (Port.set_vrf (base_of o) None)
      else o
  | None => o
  end.

Fixpoint detach_vrf_all (name : string) (ports : list ref)
    (objects : list PortObject) : list PortObject :=
  match ports with
  | [] => objects
  | port :: rest =>
      detach_vrf_all name rest
        (match objects !! port with
         | Some o => <[port := detach_vrf name o]> objects
         | None => objects
         end)
  end.

(** [remove_vrf].  [get_vrf] returns the first VRF with the name, and
    [list.remove] removes the first occurrence of that object, which is
    at the position where [get_vrf] found it. *)
Definition remove_vrf (name : string) : Py unit :=
  modify (fun w =>
    let c := switch_configuration w in
    match get_vrf c name with
    | Some _ =>
        let w' :=
          set_switch_configuration w
            (set_vrfs c (remove_first (vrf_named name) (vrfs c))) in
        set_port_objects w' (detach_vrf_all name (ports c) (port_objects w))
    | None => w
    end).
(** [remove_port]: the back-reference of the port is cleared first; then
    [list.remove] drops the first occurrence of the object and raises
    [ValueError] when the list does not hold it. *)
Definition remove_port (port : ref) : Py unit :=
  modify (fun w =>
    set_port_objects w
      (match port_objects w !! port with
       | Some o =>
           <[port := with_base o (Port.set_switch_configuration (base_of o) false)]>
             (port_objects w)
       | None => port_objects w
       end)) ;;;
  let* w := get_world in
  let c := switch_configuration w in
  if existsb (Nat.eqb port) (ports c) then
    modify (fun w =>
      set_switch_configuration w
        (set_ports c (remove_first (Nat.eqb port) (ports c))))
  else raise ValueError.

(** [get_vlan_by_name] *)
Definition get_vlan_by_name (w : World) (name : string) : option Vlan.t :=
  List.find
    (fun vlan => match Vlan.name vlan with
                 | Some n => String.eqb n name
                 | None => false
                 end)
    (vlans (switch_configuration w)).
End SwitchConfigurationOps.

(* ===================================================================== *)
(** * config_virtual_interface.py *)
(* ===================================================================== *)

Module ConfigVirtualInterfaceCommandProcessor.
Import SwitchConfigurationOps.

(** The processor holds the port it edits; its switch configuration is
    the one of the world. *)
Record t := mk { port : ref }.

Definition Errno6 : string := "IP/Port: Errno(6) Duplicate ip address".
Definition Errno11 : string :=
  "IP/Port: Errno(11) ip subnet overlap with another interface".
Definition Errno15 : string :=
  "IP/Port: Errno(15) Can only assign one primary ip address per subnet".
Definition Errno18 : string :=
  "IP/Port: Errno(18) Delete secondary address before deleting primary address".
Definition Incomplete : string := "Incomplete command.".

(** [IPNetwork(s)] *)
Definition IPNetwork (s : string) : Py netaddr.IPNetwork :=
  lift_option AddrFormatError (netaddr.IPNetwork_of_string s).

(** [self.port.add_ip(ip)] and the other methods of the port. *)
Definition port_add_ip (self : t) (ip : netaddr.IPNetwork) : Py unit :=
  let* e := vlan_port (port self) in
  let* e' := lift_option ValueError (VlanPort.add_ip e ip) in
  update_vlan_port (port self) e'.

Definition port_add_secondary_ip (self : t) (ip : netaddr.IPNetwork) : Py unit :=
  let* e := vlan_port (port self) in
  update_vlan_port (port self) (VlanPort.add_secondary_ip e ip).

Definition port_remove_ip (self : t) (ip : netaddr.IPNetwork) : Py unit :=
  let* e := vlan_port (port self) in
  update_vlan_port (port self) (VlanPort.remove_ip e ip).

Definition port_remove_secondary_ip (self : t) (ip : netaddr.IPNetwork) : Py unit :=
  let* e := vlan_port (port self) in
  let* e' := lift_option ValueError (VlanPort.remove_secondary_ip e ip) in
  update_vlan_port (port self) e'.

(** [len(args) > 2 and "secondary".startswith(args[2])] *)
Definition asks_secondary (args : list string) : bool :=
  match args !! 2%nat with
  | Some a => PyStr.startswith "secondary" a
  | None => false
  end.

(** The loop [for ip in self.port.ips] of [do_ip] over the primaries
    still to visit: a branch that ends in [break] does not recurse. *)
Fixpoint address_loop (self : t) (args : list string)
    (new_ip : netaddr.IPNetwork) (ips : list netaddr.IPNetwork) : Py unit :=
  match ips with
  | [] => ret tt
  | ip :: rest =>
      if netaddr.address_eqb (netaddr.ip new_ip) (netaddr.ip ip) then
        write_line Errno6
      else if netaddr.contains_address ip (netaddr.ip new_ip) then
        if asks_secondary args then
          let* e := vlan_port (port self) in
          if negb (existsb (VlanPort.same_address new_ip) (VlanPort.secondary_ips e))
          then port_add_secondary_ip self new_ip ;;;
               address_loop self args new_ip rest
          else write_line Errno6
        else write_line Errno15
      else address_loop self args new_ip rest
  end.

(** The branch [if "address".startswith(args[0])] of [do_ip]. *)
Definition do_ip_address (self : t) (args : list string) : Py unit :=
  let* a1 := arg args 1 in
  let* new_ip := IPNetwork a1 in
  let* w := get_world in
  match get_port_and_ip_by_ip w (netaddr.ip new_ip) with
  | None => port_add_ip self new_ip
  | Some (ip_owner, existing_ip) =>
      if Nat.eqb ip_owner (port self) then
        let* e := vlan_port (port self) in
        address_loop self args new_ip (VlanPort.ips e)
      else write_line Errno11
  end.

(** The branch [if "access-group".startswith(args[0])] of [do_ip]. *)
Definition do_ip_access_group (self : t) (args : list string) : Py unit :=
  let* a2 := arg args 2 in
  if PyStr.startswith "in" a2 then
    let* a1 := arg args 1 in
    let* e := vlan_port (port self) in
    update_vlan_port (port self) (VlanPort.set_access_group_in e (Some a1))
  else if PyStr.startswith "out" a2 then
    let* a1 := arg args 1 in
    let* e := vlan_port (port self) in
    update_vlan_port (port self) (VlanPort.set_access_group_out e (Some a1))
  else ret tt.

(** [self.switch_configuration.new("VRRP", group)]: a new VRRP object
    in the store. *)
Definition new_VRRP (group : string) : Py ref :=
  fun w =>
    Return (length (vrrp_objects w))
      (set_vrrp_objects w (vrrp_objects w ++ [VRRP.init group])).

(** [if "vrid".startswith(args[1])] under [vrrp-extended] in [do_ip]. *)
Definition do_ip_vrid (self : t) (args : list string) : Py unit :=
  let* group := arg args 2 in
  let* e := vlan_port (port self) in
  let* w := get_world in
  let* vrrp :=
    match VlanPort.get_vrrp_group (vrrp_objects w) e group with
    | Some vrrp => ret vrrp
    | None =>
        let* vrrp := new_VRRP group in
        let* e := vlan_port (port self) in
        update_vlan_port (port self)
          (VlanPort.set_vrrps e (VlanPort.vrrps e ++ [vrrp])) ;;;
        ret vrrp
    end in
  move_to (ConfigVirtualInterfaceVrrpCommandProcessor (port self) vrrp).

(** [if "auth-type".startswith(args[1])] under [vrrp-extended] in
    [do_ip]. *)
Definition do_ip_auth_type (self : t) (args : list string) : Py unit :=
  let* a2 := arg args 2 in
  if PyStr.startswith "simple-text-auth" a2 then
    let* a3 := arg args 3 in
    let* e := vlan_port (port self) in
    update_vlan_port (port self)
      (VlanPort.set_vrrp_common_authentication e (Some a3))
  else if PyStr.startswith "no-auth" a2 then
    let* e := vlan_port (port self) in
    update_vlan_port (port self)
      (VlanPort.set_vrrp_common_authentication e None)
  else ret tt.

(** The branch [if "vrrp-extended".startswith(args[0])] of [do_ip]. *)
Definition do_ip_vrrp_extended (self : t) (args : list string) : Py unit :=
  let* a1 := arg args 1 in
  when (PyStr.startswith "vrid" a1) (do_ip_vrid self args) ;;;
  when (PyStr.startswith "auth-type" a1) (do_ip_auth_type self args).

(** [do_ip]: three [if]s in a row, not an [if]/[elif] chain, so a first
    token that abbreviates several keywords runs each of their
    branches. *)
Definition do_ip (self : t) (args : list string) : Py unit :=
  let* a0 := arg args 0 in
  when (PyStr.startswith "address" a0) (do_ip_address self args) ;;;
  when (PyStr.startswith "access-group" a0) (do_ip_access_group self args) ;;;
  when (PyStr.startswith "vrrp-extended" a0) (do_ip_vrrp_extended self args).

(** The branch [if "address".startswith(args[0])] of [do_no_ip]. *)
Definition do_no_ip_address (self : t) (args : list string) : Py unit :=
  let* a1 := arg args 1 in
  let* deleting_ip := IPNetwork a1 in
  let* e := vlan_port (port self) in
  if existsb (VlanPort.same_address deleting_ip) (VlanPort.secondary_ips e) then
    port_remove_secondary_ip self deleting_ip
  else if negb (existsb (fun ip => netaddr.contains_network deleting_ip ip)
                  (VlanPort.secondary_ips e)) then
    port_remove_ip self deleting_ip
  else write_line Errno18.

Definition wrong_access_list_name (name : string) : string :=
  "Error: Wrong Access List Name " +:+ name.

(** The branch [if "access-group".startswith(args[0])] of [do_no_ip]. *)
Definition do_no_ip_access_group (self : t) (args : list string) : Py unit :=
  if Nat.ltb (length args) 3 then
    let* a1 := arg args 1 in
    write_line (wrong_access_list_name a1)
  else
    let* a2 := arg args 2 in
    let* a1 := arg args 1 in
    if PyStr.startswith "in" a2 then
      let* e := vlan_port (port self) in
      if bool_decide (VlanPort.access_group_in e = Some a1) then
        update_vlan_port (port self) (VlanPort.set_access_group_in e None)
      else write_line (wrong_access_list_name a1)
    else if PyStr.startswith "out" a2 then
      let* e := vlan_port (port self) in
      if bool_decide (VlanPort.access_group_out e = Some a1) then
        update_vlan_port (port self) (VlanPort.set_access_group_out e None)
      else write_line (wrong_access_list_name a1)
    else ret tt.

(** [if "vrid".startswith(args[1])] under [vrrp-extended] in
    [do_no_ip]: [list.remove] of the group found drops the first
    occurrence of that object. *)
Definition do_no_ip_vrid (self : t) (args : list string) : Py unit :=
  let* group := arg args 2 in
  let* e := vlan_port (port self) in
  let* w := get_world in
  match VlanPort.get_vrrp_group (vrrp_objects w) e group with
  | Some vrrp =>
      update_vlan_port (port self)
        (VlanPort.set_vrrps e (remove_first (Nat.eqb vrrp) (VlanPort.vrrps e)))
  | None => ret tt
  end.

(** [if "auth-type".startswith(args[1])] under [vrrp-extended] in
    [do_no_ip]: [args[2]] is read before the length is looked at. *)
Definition do_no_ip_auth_type (self : t) (args : list string) : Py unit :=
  let* a2 := arg args 2 in
  if PyStr.startswith "simple-text-auth" a2 && Nat.eqb (length args) 4 then
    do_ip self ["vrrp-extended"; "auth-type"; "no-auth"]
  else write_line Incomplete.

(** The branch [if "vrrp-extended".startswith(args[0])] of [do_no_ip]. *)
Definition do_no_ip_vrrp_extended (self : t) (args : list string) : Py unit :=
  let* a1 := arg args 1 in
  when (PyStr.startswith "vrid" a1) (do_no_ip_vrid self args) ;;;
  when (PyStr.startswith "auth-type" a1) (do_no_ip_auth_type self args).

(** [do_no_ip] *)
Definition do_no_ip (self : t) (args : list string) : Py unit :=
  let* a0 := arg args 0 in
  when (PyStr.startswith "address" a0) (do_no_ip_address self args) ;;;
  when (PyStr.startswith "access-group" a0) (do_no_ip_access_group self args) ;;;
  when (PyStr.startswith "vrrp-extended" a0) (do_no_ip_vrrp_extended self args).

(** The keywords [do_ip] tests its first argument against, in the order
    of the tests. *)
Definition ip_keywords : list string :=
  ["address"; "access-group"; "vrrp-extended"].
End ConfigVirtualInterfaceCommandProcessor.

(* ===================================================================== *)
(** * Vocabulary of the properties *)
(* ===================================================================== *)

Import SwitchConfigurationOps.
Import ConfigVirtualInterfaceCommandProcessor.

(** The world a handler leaves behind, whether it returned or raised. *)
Definition world_after {A} (o : Outcome A) : World :=
  match o with
  | Return _ w => w
  | Raise _ w => w
  end.

Inductive VrfOp :=
| AddVrf (vrf : VRF.t)
| RemoveVrf (name : string).

Definition run_vrf_op (op : VrfOp) : Py unit :=
  match op with
  | AddVrf vrf => add_vrf vrf
  | RemoveVrf name => remove_vrf name
  end.

Fixpoint run_vrf_ops (ops : list VrfOp) (w : World) : World :=
  match ops with
  | [] => w
  | op :: rest => run_vrf_ops rest (world_after (run_vrf_op op w))
  end.

Definition has_default_lan (w : World) : Prop :=
  get_vrf (switch_configuration w) "DEFAULT-LAN" = Some (VRF.init "DEFAULT-LAN").

(** A world with a new configuration and no object. *)
Definition new_world : World :=
  mkWorld [] [] (init "127.0.0.1" "my_switch" false []) [] None.


(** The world in which the VlanPort behind [port] has the fields [e]. *)
Definition store_vlan_port (w : World) (port : ref) (base : Port.t)
    (e : VlanPort.t) : World :=
  set_port_objects w (<[port := VlanPortInstance base e]> (port_objects w)).

(** The world with one more line on the terminal. *)
Definition wrote (w : World) (line : string) : World :=
  set_written w (written w ++ [line]).

(** Two virtual interfaces, [ve 1] at reference [0] and [ve 2] at
    reference [1], both ports of a new configuration and both without
    address. *)
Definition two_port_world : World :=
  mkWorld
    [VlanPortInstance (Port.set_switch_configuration (Port.init "ve 1") true)
       (VlanPort.init 1);
     VlanPortInstance (Port.set_switch_configuration (Port.init "ve 2") true)
       (VlanPort.init 2)]
    []
    (SwitchConfiguration.set_ports (init "127.0.0.1" "my_switch" false [])
       [0%nat; 1%nat])
    [] None.

(** The processors of the two interfaces. *)
Definition ve1 : ConfigVirtualInterfaceCommandProcessor.t :=
  ConfigVirtualInterfaceCommandProcessor.mk 0.

Definition ve2 : ConfigVirtualInterfaceCommandProcessor.t :=
  ConfigVirtualInterfaceCommandProcessor.mk 1.

(** The VlanPort fields of the object behind a reference, if it is a
    VlanPort. *)
Definition vlan_fields (w : World) (port : ref) : option VlanPort.t :=
  port_objects w !! port ≫= as_vlan_port.

(** [ve 1] with the primary [10.0.0.1/24] and the secondaries
    [10.0.0.5/24] and [10.0.0.6/24], next to [ve 2] without address. *)
Definition two_secondaries_world : World :=
  mkWorld
    [VlanPortInstance (Port.set_switch_configuration (Port.init "ve 1") true)
       (VlanPort.set_secondary_ips
          (VlanPort.set_ips (VlanPort.init 1) [netaddr.mkIPNetwork 167772161 24])
          [netaddr.mkIPNetwork 167772165 24; netaddr.mkIPNetwork 167772166 24]);
     VlanPortInstance (Port.set_switch_configuration (Port.init "ve 2") true)
       (VlanPort.init 2)]
    []
    (SwitchConfiguration.set_ports (init "127.0.0.1" "my_switch" false [])
       [0%nat; 1%nat])
    [] None.

(** [ve 1] with the primary [10.0.0.1/24] and the one secondary
    [10.0.0.5/24]. *)
Definition one_secondary_world : World :=
  mkWorld
    [VlanPortInstance (Port.set_switch_configuration (Port.init "ve 1") true)
       (VlanPort.set_secondary_ips
          (VlanPort.set_ips (VlanPort.init 1) [netaddr.mkIPNetwork 167772161 24])
          [netaddr.mkIPNetwork 167772165 24]);
     VlanPortInstance (Port.set_switch_configuration (Port.init "ve 2") true)
       (VlanPort.init 2)]
    []
    (SwitchConfiguration.set_ports (init "127.0.0.1" "my_switch" false [])
       [0%nat; 1%nat])
    [] None.

(** The number of entries of the VRRP list of a port whose object has
    the group id. *)
Definition group_count (vrrp_objects : list VRRP.t) (e : VlanPort.t)
    (group : string) : nat :=
  length (List.filter (VlanPort.has_group_id vrrp_objects group) (VlanPort.vrrps e)).

(** The VRRP list of a port refers to objects of the store and holds no
    two entries with one group id. *)
Definition vrrps_well_formed (vrrp_objects : list VRRP.t) (e : VlanPort.t) : Prop :=
  Forall (fun r => (r < length vrrp_objects)%nat) (VlanPort.vrrps e)
  /\ forall group, (group_count vrrp_objects e group <= 1)%nat.

(** A switch with the port [GigabitEthernet0/3] at reference [0]. *)
Definition gigabit_world : World :=
  mkWorld
    [PortInstance (Port.set_switch_configuration (Port.init "GigabitEthernet0/3") true)]
    []
    (SwitchConfiguration.set_ports (init "127.0.0.1" "my_switch" false []) [0%nat])
    [] None.

(** No two VRFs of the configuration have one name. *)
Definition vrf_names_unique (w : World) : Prop :=
  NoDup (List.map VRF.name (SwitchConfiguration.vrfs (switch_configuration w))).

(** The ports of the configuration and the objects behind them. *)
Definition config_ports (w : World) : list nat :=
  SwitchConfiguration.ports (switch_configuration w).

(** A configuration with the VRFs [DEFAULT-LAN] and [SOME-LAN] and the
    port [ethernet 1/1], which is in [SOME-LAN]. *)
Definition vrf_world : World :=
  mkWorld
    [PortInstance
       (Port.set_vrf (Port.set_switch_configuration (Port.init "ethernet 1/1") true)
          (Some (VRF.init "SOME-LAN")))]
    []
    (SwitchConfiguration.set_vrfs
       (SwitchConfiguration.set_ports (init "127.0.0.1" "my_switch" false []) [0%nat])
       [VRF.init "DEFAULT-LAN"; VRF.init "SOME-LAN"])
    [] None.

(** A string without white space at its start and at its end. *)
Definition trimmed (s : string) : Prop :=
  PyStr.lstrip s = s /\ PyStr.lstrip (PyStr.rev s) = PyStr.rev s.

(* ===================================================================== *)
(** * Properties *)
(* ===================================================================== *)

(** ** Strings *)

Lemma lower_char_keeps_digit (c : ascii) :
  PyStr.is_digit (PyStr.lower_char c) = PyStr.is_digit c.
Proof. destruct c as [[] [] [] [] [] [] [] []]; reflexivity. Qed.

Lemma has_digit_lower (s : string) :
  PyStr.has_digit (PyStr.lower s) = PyStr.has_digit s.
Proof.
  induction s as [|c r IH]; simpl; [reflexivity|].
  now rewrite lower_char_keeps_digit, IH.
Qed.

Lemma search_digit_None (s : string) :
  PyStr.search_digit s = None <-> PyStr.has_digit s = false.
Proof.
  induction s as [|c r IH]; simpl; [tauto|].
  destruct (PyStr.is_digit c); simpl.
  - split; discriminate.
  - destruct (PyStr.search_digit r).
    + split; [discriminate|]. intros H. apply IH in H. discriminate.
    + split; [intros _; now apply IH | reflexivity].
Qed.

Lemma split_port_name_digit (s : string) :
  PyStr.has_digit s = true ->
  exists k, PyStr.search_digit s = Some k
            /\ split_port_name s = inr (PyStr.take k s, PyStr.drop k s).
Proof.
  intros H. unfold split_port_name.
  destruct (PyStr.search_digit s) as [k|] eqn:E.
  - now exists k.
  - apply search_digit_None in E. congruence.
Qed.

Lemma split_port_name_no_digit (s : string) :
  PyStr.has_digit s = false -> split_port_name s = inl AttributeError.
Proof.
  intros H. unfold split_port_name.
  now rewrite (proj2 (search_digit_None s) H).
Qed.

(** C10: [get_port_by_partial_name] returns a result, the first matching
    port or the not-found value, exactly when the query holds a decimal
    digit; on a query without digit it raises the [AttributeError] of
    [split_port_name] and returns nothing. *)
Theorem get_port_by_partial_name_needs_digit (w : World) (name : string) :
  ((exists r, get_port_by_partial_name name w = Return r w)
   <-> PyStr.has_digit name = true)
  /\ (get_port_by_partial_name name w = Raise AttributeError w
      <-> PyStr.has_digit name = false).
Proof.
  unfold get_port_by_partial_name.
  destruct (PyStr.has_digit name) eqn:D.
  - destruct (split_port_name_digit (PyStr.lower name)) as (k & _ & ->).
    { now rewrite has_digit_lower. }
    split; split; try discriminate; eauto.
  - rewrite split_port_name_no_digit by now rewrite has_digit_lower.
    split; split; try reflexivity; try discriminate.
    intros [r H]; discriminate.
Qed.

(** ** The keywords of [do_ip] *)

Lemma startswith_nil (t : string) : PyStr.startswith "" t = true -> t = "".
Proof. now destruct t. Qed.

Lemma startswith_cons (c : ascii) (k : string) (d : ascii) (t : string) :
  PyStr.startswith (String c k) (String d t) = true ->
  d = c /\ PyStr.startswith k t = true.
Proof.
  simpl. intros H. apply andb_true_iff in H as [H1 H2].
  apply Ascii.eqb_eq in H1. now split.
Qed.

(** A token that abbreviates both ["address"] and ["access-group"] is
    their common first letter. *)
Lemma address_access_group_prefix (t : string) :
  t <> "" ->
  PyStr.startswith "address" t = true ->
  PyStr.startswith "access-group" t = true ->
  t = "a".
Proof.
  intros Hne H1 H2.
  destruct t as [|c t]; [contradiction|].
  apply startswith_cons in H1 as [-> H1].
  apply startswith_cons in H2 as [_ H2].
  destruct t as [|c t]; [reflexivity|].
  apply startswith_cons in H1 as [-> _].
  apply startswith_cons in H2 as [H2 _]. discriminate.
Qed.

(** No non-empty token abbreviates ["vrrp-extended"] and a keyword that
    starts with an [a]. *)
Lemma vrrp_extended_prefix (t k : string) :
  t <> "" ->
  PyStr.startswith "vrrp-extended" t = true ->
  PyStr.startswith (String "a" k) t = true ->
  False.
Proof.
  intros Hne H1 H2.
  destruct t as [|c t]; [contradiction|].
  apply startswith_cons in H1 as [-> _].
  apply startswith_cons in H2 as [H2 _]. discriminate.
Qed.

(** C5, amended: the one non-empty token that abbreviates two distinct
    keywords of [do_ip] is ["a"], which abbreviates ["address"] and
    ["access-group"]; every other non-empty token selects at most one
    branch. *)
Theorem ip_keywords_ambiguous_only_on_a (t k1 k2 : string) :
  t <> "" ->
  In k1 ip_keywords -> In k2 ip_keywords -> k1 <> k2 ->
  PyStr.startswith k1 t = true -> PyStr.startswith k2 t = true ->
  t = "a"
  /\ ((k1 = "address" /\ k2 = "access-group")
      \/ (k1 = "access-group" /\ k2 = "address")).
Proof.
  intros Hne I1 I2 Hk H1 H2. unfold ip_keywords in I1, I2. simpl in I1, I2.
  destruct I1 as [<-|[<-|[<-|[]]]]; destruct I2 as [<-|[<-|[<-|[]]]];
    try contradiction;
    try (exfalso; eapply vrrp_extended_prefix; eassumption);
    (split; [eapply address_access_group_prefix; eassumption | tauto]).
Qed.

Lemma ip_keywords_ambiguous_only_on_a_witness :
  "a" = "a"
  /\ (("address" = "address" /\ "access-group" = "access-group")
      \/ ("address" = "access-group" /\ "access-group" = "address")).
Proof.
  apply (ip_keywords_ambiguous_only_on_a "a" "address" "access-group").
  - discriminate.
  - simpl; tauto.
  - simpl; tauto.
  - discriminate.
  - reflexivity.
  - reflexivity.
Defined.

(** C5 as stated fails: the non-empty token ["a"] is a prefix of the two
    distinct keywords ["address"] and ["access-group"]. *)
Lemma ip_keywords_not_exclusive :
  "a" <> ""
  /\ In "address" ip_keywords /\ In "access-group" ip_keywords
  /\ "address" <> "access-group"
  /\ PyStr.startswith "address" "a" = true
  /\ PyStr.startswith "access-group" "a" = true.
Proof. repeat split; try discriminate; simpl; tauto. Qed.

(** ** [Port.reset] *)

(** Every field but the name, the back-reference and the trunk
    encapsulation mode is back to its value in a new port. *)
Lemma reset_other_fields (p : Port.t) :
  Port.reset p =
  Port.set_switch_configuration
    (Port.set_trunk_encapsulation_mode (Port.init (Port.name p))
       (Port.trunk_encapsulation_mode p))
    (Port.switch_configuration p).
Proof. reflexivity. Qed.

(** C6 fails on the code: [reset] does not assign
    [trunk_encapsulation_mode], so a port whose mode was set keeps it and
    differs from a new port of the same name. *)
Theorem reset_keeps_trunk_encapsulation_mode :
  let p := Port.set_trunk_encapsulation_mode (Port.init "ethernet 1/1") (Some "dot1q") in
  Port.trunk_encapsulation_mode (Port.reset p) = Some "dot1q"
  /\ Port.trunk_encapsulation_mode (Port.init (Port.name p)) = None
  /\ Port.reset p <> Port.init (Port.name p).
Proof. simpl. repeat split. discriminate. Qed.

(** ** The VRF collection *)

Lemma find_app_Some {A} (f : A -> bool) (l l' : list A) (x : A) :
  List.find f l = Some x -> List.find f (l ++ l') = Some x.
Proof.
  induction l as [|y l IH]; simpl; [discriminate|].
  destruct (f y); auto.
Qed.

Lemma find_app_None {A} (f : A -> bool) (l l' : list A) :
  List.find f l = None -> List.find f (l ++ l') = List.find f l'.
Proof.
  induction l as [|y l IH]; simpl; [reflexivity|].
  destruct (f y); [discriminate|auto].
Qed.

Lemma find_remove_first_other {A} (f g : A -> bool) (l : list A) :
  (forall x, g x = true -> f x = false) ->
  List.find f (remove_first g l) = List.find f l.
Proof.
  intros H. induction l as [|y l IH]; simpl; [reflexivity|].
  destruct (g y) eqn:G; simpl.
  - now rewrite (H y G).
  - now rewrite IH.
Qed.

Lemma add_vrf_keeps_default_lan (vrf : VRF.t) (w : World) :
  has_default_lan w -> has_default_lan (world_after (add_vrf vrf w)).
Proof.
  unfold has_default_lan, add_vrf, modify. simpl. intros H.
  destruct (get_vrf (switch_configuration w) (VRF.name vrf)); simpl; [exact H|].
  unfold get_vrf in *. simpl. now apply find_app_Some.
Qed.

Lemma remove_vrf_keeps_default_lan (name : string) (w : World) :
  name <> "DEFAULT-LAN" ->
  has_default_lan w -> has_default_lan (world_after (remove_vrf name w)).
Proof.
  unfold has_default_lan, remove_vrf, modify. simpl. intros Hn H.
  destruct (get_vrf (switch_configuration w) name); simpl; [|exact H].
  unfold get_vrf in *. simpl.
  rewrite find_remove_first_other; [exact H|].
  intros x Hx. unfold vrf_named in *.
  apply String.eqb_eq in Hx. apply String.eqb_neq. congruence.
Qed.

(** C7, amended: a new configuration holds the VRF ["DEFAULT-LAN"], and
    every sequence of [add_vrf] and [remove_vrf] that does not remove the
    name ["DEFAULT-LAN"] keeps it. *)
Theorem default_lan_kept (ip name : string) (auto_enabled : bool)
    (privileged_passwords : list string) (w : World) (ops : list VrfOp) :
  Forall (fun op => op <> RemoveVrf "DEFAULT-LAN") ops ->
  has_default_lan
    (set_switch_configuration w (init ip name auto_enabled privileged_passwords))
  /\ (has_default_lan w -> has_default_lan (run_vrf_ops ops w)).
Proof.
  intros Hops. split; [reflexivity|].
  revert w. induction Hops as [|op ops Hop _ IH]; intros w Hw; simpl; [exact Hw|].
  apply IH. destruct op as [vrf|n]; simpl.
  - now apply add_vrf_keeps_default_lan.
  - apply remove_vrf_keeps_default_lan; [congruence|exact Hw].
Qed.

Lemma default_lan_kept_witness :
  has_default_lan
    (set_switch_configuration new_world (init "127.0.0.1" "my_switch" false []))
  /\ (has_default_lan new_world ->
      has_default_lan
        (run_vrf_ops [AddVrf (VRF.init "SOME-LAN"); RemoveVrf "SOME-LAN"] new_world)).
Proof.
  apply (default_lan_kept "127.0.0.1" "my_switch" false [] new_world
           [AddVrf (VRF.init "SOME-LAN"); RemoveVrf "SOME-LAN"]).
  repeat constructor; discriminate.
Defined.

(** C7 as stated fails: [remove_vrf] of ["DEFAULT-LAN"] on a new
    configuration leaves the VRF collection empty. *)
Lemma default_lan_removed :
  has_default_lan new_world
  /\ SwitchConfiguration.vrfs
       (switch_configuration (run_vrf_ops [RemoveVrf "DEFAULT-LAN"] new_world)) = []
  /\ get_vrf (switch_configuration (run_vrf_ops [RemoveVrf "DEFAULT-LAN"] new_world))
       "DEFAULT-LAN" = None.
Proof. repeat split. Qed.

(** ** The monad and the store *)

Lemma bind_Return {A B} (m : Py A) (k : A -> Py B) (w w' : World) (a : A) :
  m w = Return a w' -> bind m k w = k a w'.
Proof. unfold bind. now intros ->. Qed.

Lemma bind_Raise {A B} (m : Py A) (k : A -> Py B) (w w' : World) (e : Exception) :
  m w = Raise e w' -> bind m k w = Raise e w'.
Proof. unfold bind. now intros ->. Qed.

Lemma bind_ret_tt (m : Py unit) (w : World) :
  bind m (fun _ => ret tt) w = m w.
Proof. unfold bind, ret. now destruct (m w) as [[] ?|? ?]. Qed.

Lemma vlan_port_eq (w : World) (p : ref) (b : Port.t) (e : VlanPort.t) :
  port_objects w !! p = Some (VlanPortInstance b e) ->
  vlan_port p w = Return e w.
Proof. unfold vlan_port, bind, get_world. now intros ->. Qed.

Lemma update_vlan_port_eq (w : World) (p : ref) (b : Port.t) (e e' : VlanPort.t) :
  port_objects w !! p = Some (VlanPortInstance b e) ->
  update_vlan_port p e' w = Return tt (store_vlan_port w p b e').
Proof. unfold update_vlan_port, modify, store_vlan_port. now intros ->. Qed.

Lemma store_vlan_port_lookup (w : World) (p : ref) (b : Port.t) (e e' : VlanPort.t) :
  port_objects w !! p = Some (VlanPortInstance b e) ->
  port_objects (store_vlan_port w p b e') !! p = Some (VlanPortInstance b e').
Proof.
  intros H. unfold store_vlan_port. simpl.
  apply list_lookup_insert_eq. now apply lookup_lt_Some in H.
Qed.

Lemma wrote_neq (w : World) (line : string) : written (wrote w line) <> written w.
Proof.
  simpl. intros H. apply (f_equal length) in H.
  rewrite length_app in H. simpl in H. lia.
Qed.

(** ** Addresses and networks *)

Lemma contains_own_address (n : netaddr.IPNetwork) :
  netaddr.contains_address n (netaddr.ip n) = true.
Proof. unfold netaddr.contains_address, netaddr.net_bits, netaddr.ip. apply Z.eqb_refl. Qed.

Lemma same_address_contains (n ip : netaddr.IPNetwork) :
  netaddr.address_eqb (netaddr.ip n) (netaddr.ip ip) = true ->
  netaddr.contains_address ip (netaddr.ip n) = true.
Proof.
  unfold netaddr.address_eqb. intros H. apply Z.eqb_eq in H. rewrite H.
  apply contains_own_address.
Qed.

Lemma find_network_None_address (n : netaddr.IPNetwork) (ips : list netaddr.IPNetwork) :
  find_network (netaddr.ip n) ips = None ->
  List.find (VlanPort.same_address n) ips = None.
Proof.
  unfold find_network. induction ips as [|ip ips IH]; simpl; [reflexivity|].
  destruct (netaddr.contains_address ip (netaddr.ip n)) eqn:C; [discriminate|].
  intros H. unfold VlanPort.same_address at 1.
  destruct (netaddr.address_eqb (netaddr.ip ip) (netaddr.ip n)) eqn:E; [|auto].
  unfold netaddr.address_eqb in E. apply Z.eqb_eq in E.
  unfold netaddr.contains_address in C. rewrite <- E in C.
  unfold netaddr.net_bits, netaddr.ip in C. now rewrite Z.eqb_refl in C.
Qed.

(** ** [get_port_and_ip_by_ip] *)

Lemma scan_ports_None (objs : list PortObject) (a : netaddr.IPAddress)
    (ports : list ref) (p : ref) (b : Port.t) (e : VlanPort.t) :
  scan_ports objs a ports = None ->
  In p ports ->
  objs !! p = Some (VlanPortInstance b e) ->
  find_network a (VlanPort.ips e) = None.
Proof.
  intros Hs Hin Hp. induction ports as [|q ports IH]; simpl in *; [contradiction|].
  destruct Hin as [->|Hin].
  - rewrite Hp in Hs. simpl in Hs.
    now destruct (find_network a (VlanPort.ips e)).
  - apply IH; [|exact Hin].
    destruct (objs !! q ≫= as_vlan_port) as [e0|]; [|exact Hs].
    now destruct (find_network a (VlanPort.ips e0)).
Qed.

Lemma scan_ports_Some (objs : list PortObject) (a : netaddr.IPAddress)
    (ports : list ref) (p : ref) (x : netaddr.IPNetwork) :
  scan_ports objs a ports = Some (p, x) ->
  In p ports
  /\ exists b e, objs !! p = Some (VlanPortInstance b e)
                 /\ find_network a (VlanPort.ips e) = Some x.
Proof.
  induction ports as [|q ports IH]; simpl; [discriminate|].
  destruct (objs !! q) as [o|] eqn:Hq; simpl.
  - destruct o as [b|b e|b e]; simpl;
      try (intros H; destruct (IH H) as [? ?]; split; [now right|assumption]).
    destruct (find_network a (VlanPort.ips e)) as [y|] eqn:F.
    + intros H; inversion H; subst. split; [now left|]. now exists b, e.
    + intros H; destruct (IH H) as [? ?]; split; [now right|assumption].
  - intros H; destruct (IH H) as [? ?]; split; [now right|assumption].
Qed.

(** Once a port of the configuration holds a network with the address,
    no port having held one before, the lookup answers that port. *)
Lemma scan_ports_stored (objs : list PortObject) (a : netaddr.IPAddress)
    (ports : list ref) (p : ref) (b : Port.t) (e e' : VlanPort.t)
    (x : netaddr.IPNetwork) :
  scan_ports objs a ports = None ->
  In p ports ->
  objs !! p = Some (VlanPortInstance b e) ->
  find_network a (VlanPort.ips e') = Some x ->
  scan_ports (<[p := VlanPortInstance b e']> objs) a ports = Some (p, x).
Proof.
  intros Hs Hin Hp Hx. induction ports as [|q ports IH]; [contradiction|].
  cbn [scan_ports] in *.
  destruct (decide (q = p)) as [->|Hne].
  - rewrite list_lookup_insert_eq by now apply lookup_lt_Some in Hp.
    simpl. now rewrite Hx.
  - destruct Hin as [?|Hin]; [contradiction|].
    rewrite list_lookup_insert_ne by congruence.
    destruct (objs !! q ≫= as_vlan_port) as [e0|].
    + destruct (find_network a (VlanPort.ips e0)); [discriminate|]. now apply IH.
    + now apply IH.
Qed.

(** ** The loop of [do_ip] over the primaries *)

(** Without the [secondary] keyword the loop writes a line as soon as a
    primary holds the address. *)
Lemma address_loop_writes (self : t) (args : list string)
    (n : netaddr.IPNetwork) (ips : list netaddr.IPNetwork) (w : World)
    (x : netaddr.IPNetwork) :
  asks_secondary args = false ->
  find_network (netaddr.ip n) ips = Some x ->
  exists line, address_loop self args n ips w = Return tt (wrote w line).
Proof.
  intros Ha. unfold find_network.
  induction ips as [|ip ips IH]; simpl; [discriminate|].
  destruct (netaddr.address_eqb (netaddr.ip n) (netaddr.ip ip)) eqn:E.
  - intros _. now exists Errno6.
  - destruct (netaddr.contains_address ip (netaddr.ip n)).
    + intros _. rewrite Ha. now exists Errno15.
    + exact IH.
Qed.

(** The loop skips the primaries that do not hold the address and stops
    with the duplicate error on the primary that has it. *)
Lemma address_loop_duplicate (self : t) (args : list string)
    (n : netaddr.IPNetwork) (old : list netaddr.IPNetwork) (w : World) :
  find_network (netaddr.ip n) old = None ->
  address_loop self args n (old ++ [n]) w = Return tt (wrote w Errno6).
Proof.
  unfold find_network. induction old as [|ip old IH]; simpl.
  - intros _. unfold netaddr.address_eqb. now rewrite Z.eqb_refl.
  - destruct (netaddr.contains_address ip (netaddr.ip n)) eqn:C; [discriminate|].
    destruct (netaddr.address_eqb (netaddr.ip n) (netaddr.ip ip)) eqn:E.
    + apply same_address_contains in E. congruence.
    + exact IH.
Qed.

(** ** [do_ip] on [address] *)

Lemma do_ip_address_only (self : t) (a : string) (rest : list string) (w : World) :
  do_ip self ("address" :: a :: rest) w
  = do_ip_address self ("address" :: a :: rest) w.
Proof.
  unfold do_ip, arg. simpl. unfold bind at 1. simpl.
  unfold when. simpl. unfold bind.
  now destruct (do_ip_address self _ w) as [[] ?|? ?].
Qed.

Lemma do_ip_address_no_owner (self : t) (a : string) (rest : list string)
    (n : netaddr.IPNetwork) (w : World) (b : Port.t) (e : VlanPort.t) :
  netaddr.IPNetwork_of_string a = Some n ->
  port_objects w !! port self = Some (VlanPortInstance b e) ->
  In (port self) (SwitchConfiguration.ports (switch_configuration w)) ->
  get_port_and_ip_by_ip w (netaddr.ip n) = None ->
  do_ip self ("address" :: a :: rest) w
  = Return tt (store_vlan_port w (port self) b
                 (VlanPort.set_ips e (VlanPort.ips e ++ [n]))).
Proof.
  intros Hn Hp Hin Hs. rewrite do_ip_address_only.
  unfold do_ip_address, arg, IPNetwork. simpl. unfold bind at 1. simpl.
  rewrite Hn. unfold bind at 1. simpl. unfold bind at 1. simpl.
  rewrite Hs. unfold port_add_ip.
  rewrite (bind_Return _ _ _ _ _ (vlan_port_eq _ _ _ _ Hp)).
  unfold VlanPort.add_ip.
  rewrite (find_network_None_address n (VlanPort.ips e)).
  - simpl. unfold bind at 1. simpl. now apply update_vlan_port_eq with (e := e).
  - eapply scan_ports_None; eauto.
Qed.

(** An [ip address] command without [secondary] that writes no line found
    no owner for the address and added it to the primaries. *)
Lemma do_ip_address_quiet (self : t) (a : string) (n : netaddr.IPNetwork)
    (w w1 : World) (b : Port.t) (e : VlanPort.t) :
  netaddr.IPNetwork_of_string a = Some n ->
  port_objects w !! port self = Some (VlanPortInstance b e) ->
  In (port self) (SwitchConfiguration.ports (switch_configuration w)) ->
  do_ip self ["address"; a] w = Return tt w1 ->
  written w1 = written w ->
  get_port_and_ip_by_ip w (netaddr.ip n) = None
  /\ w1 = store_vlan_port w (port self) b
            (VlanPort.set_ips e (VlanPort.ips e ++ [n])).
Proof.
  intros Hn Hp Hin Hrun Hq.
  destruct (get_port_and_ip_by_ip w (netaddr.ip n)) as [[owner x]|] eqn:Hs.
  - exfalso. rewrite do_ip_address_only in Hrun.
    unfold do_ip_address, arg, IPNetwork in Hrun. simpl in Hrun.
    unfold bind at 1 in Hrun. simpl in Hrun. rewrite Hn in Hrun.
    unfold bind at 1 in Hrun. simpl in Hrun. unfold bind at 1 in Hrun. simpl in Hrun.
    rewrite Hs in Hrun.
    destruct (Nat.eqb owner (port self)) eqn:Eo.
    + apply Nat.eqb_eq in Eo. subst owner.
      rewrite (bind_Return _ _ _ _ _ (vlan_port_eq _ _ _ _ Hp)) in Hrun.
      apply scan_ports_Some in Hs as (_ & b' & e' & Hp' & Hf).
      rewrite Hp in Hp'. inversion Hp'; subst b' e'.
      destruct (address_loop_writes self ["address"; a] n (VlanPort.ips e) w x
                  eq_refl Hf) as [line Hl].
      rewrite Hl in Hrun. inversion Hrun; subst w1.
      now apply (wrote_neq w line).
    + inversion Hrun; subst w1. now apply (wrote_neq w Errno11).
  - split; [reflexivity|].
    rewrite (do_ip_address_no_owner self a [] n w b e Hn Hp Hin Hs) in Hrun.
    now inversion Hrun.
Qed.

Lemma find_network_own (n : netaddr.IPNetwork) (old : list netaddr.IPNetwork) :
  find_network (netaddr.ip n) old = None ->
  find_network (netaddr.ip n) (old ++ [n]) = Some n.
Proof.
  intros H. unfold find_network in *. rewrite find_app_None by exact H.
  simpl. now rewrite contains_own_address.
Qed.

(** C3: once [ip address A] has gone through on a port of the
    configuration without a line, the same command on the same port
    writes the duplicate error and changes nothing else: the port objects,
    so the primary and secondary lists of the port, are as they were. *)
Theorem duplicate_address_rejected (self : t) (a : string)
    (n : netaddr.IPNetwork) (w w1 : World) (b : Port.t) (e : VlanPort.t) :
  netaddr.IPNetwork_of_string a = Some n ->
  port_objects w !! port self = Some (VlanPortInstance b e) ->
  In (port self) (SwitchConfiguration.ports (switch_configuration w)) ->
  do_ip self ["address"; a] w = Return tt w1 ->
  written w1 = written w ->
  do_ip self ["address"; a] w1 = Return tt (wrote w1 Errno6)
  /\ port_objects (wrote w1 Errno6) = port_objects w1
  /\ written (wrote w1 Errno6) = written w1 ++ ["IP/Port: Errno(6) Duplicate ip address"].
Proof.
  intros Hn Hp Hin Hrun Hq.
  destruct (do_ip_address_quiet self a n w w1 b e Hn Hp Hin Hrun Hq) as [Hs ->].
  split; [|split; reflexivity].
  pose proof (scan_ports_None _ _ _ _ _ _ Hs Hin Hp) as Hold.
  pose proof (store_vlan_port_lookup w (port self) b e
                (VlanPort.set_ips e (VlanPort.ips e ++ [n])) Hp) as Hp1.
  rewrite do_ip_address_only.
  unfold do_ip_address, arg, IPNetwork. simpl. unfold bind at 1. simpl.
  rewrite Hn. unfold bind at 1. simpl. unfold bind at 1. simpl.
  unfold get_port_and_ip_by_ip. simpl.
  rewrite (scan_ports_stored _ _ _ _ b e _ n Hs Hin Hp)
    by (simpl; now apply find_network_own).
  rewrite Nat.eqb_refl.
  rewrite (bind_Return _ _ _ _ _ (vlan_port_eq _ _ _ _ Hp1)).
  simpl. now apply address_loop_duplicate.
Qed.

Lemma duplicate_address_rejected_witness :
  do_ip ve1 ["address"; "10.0.0.1/24"]
    (world_after (do_ip ve1 ["address"; "10.0.0.1/24"] two_port_world))
  = Return tt
      (wrote (world_after (do_ip ve1 ["address"; "10.0.0.1/24"] two_port_world)) Errno6)
  /\ port_objects
       (wrote (world_after (do_ip ve1 ["address"; "10.0.0.1/24"] two_port_world)) Errno6)
     = port_objects (world_after (do_ip ve1 ["address"; "10.0.0.1/24"] two_port_world))
  /\ written
       (wrote (world_after (do_ip ve1 ["address"; "10.0.0.1/24"] two_port_world)) Errno6)
     = written (world_after (do_ip ve1 ["address"; "10.0.0.1/24"] two_port_world))
       ++ ["IP/Port: Errno(6) Duplicate ip address"].
Proof.
  apply (duplicate_address_rejected ve1 "10.0.0.1/24"
           (netaddr.mkIPNetwork 167772161 24) two_port_world
           (world_after (do_ip ve1 ["address"; "10.0.0.1/24"] two_port_world))
           (Port.set_switch_configuration (Port.init "ve 1") true) (VlanPort.init 1)).
  - reflexivity.
  - reflexivity.
  - simpl; tauto.
  - reflexivity.
  - reflexivity.
Defined.

(** C2: once [ip address A] has gone through without a line on a port X
    of the configuration, the same command on another port Y writes the
    subnet overlap error and changes no object, so the lists of Y are as
    they were; the lookup of the address still answers X with the network
    given to it, and every other lookup answers as before. *)
Theorem overlap_rejected (X Y : t) (a : string) (n : netaddr.IPNetwork)
    (w w1 : World) (b : Port.t) (e : VlanPort.t) :
  netaddr.IPNetwork_of_string a = Some n ->
  port_objects w !! port X = Some (VlanPortInstance b e) ->
  In (port X) (SwitchConfiguration.ports (switch_configuration w)) ->
  port X <> port Y ->
  do_ip X ["address"; a] w = Return tt w1 ->
  written w1 = written w ->
  do_ip Y ["address"; a] w1 = Return tt (wrote w1 Errno11)
  /\ written (wrote w1 Errno11)
     = written w1 ++ ["IP/Port: Errno(11) ip subnet overlap with another interface"]
  /\ port_objects (wrote w1 Errno11) = port_objects w1
  /\ get_port_and_ip_by_ip (wrote w1 Errno11) (netaddr.ip n) = Some (port X, n)
  /\ (forall q, get_port_and_ip_by_ip (wrote w1 Errno11) q = get_port_and_ip_by_ip w1 q).
Proof.
  intros Hn Hp Hin Hne Hrun Hq.
  destruct (do_ip_address_quiet X a n w w1 b e Hn Hp Hin Hrun Hq) as [Hs ->].
  pose proof (scan_ports_None _ _ _ _ _ _ Hs Hin Hp) as Hold.
  assert (Hfound : get_port_and_ip_by_ip
                     (store_vlan_port w (port X) b
                        (VlanPort.set_ips e (VlanPort.ips e ++ [n])))
                     (netaddr.ip n) = Some (port X, n)).
  { unfold get_port_and_ip_by_ip. simpl.
    apply (scan_ports_stored _ _ _ _ b e _ n Hs Hin Hp).
    simpl. now apply find_network_own. }
  split; [|repeat split; exact Hfound].
  rewrite do_ip_address_only.
  unfold do_ip_address, arg, IPNetwork. simpl. unfold bind at 1. simpl.
  rewrite Hn. unfold bind at 1. simpl. unfold bind at 1. simpl.
  rewrite Hfound.
  destruct (Nat.eqb (port X) (port Y)) eqn:E; [|reflexivity].
  apply Nat.eqb_eq in E. contradiction.
Qed.

Lemma overlap_rejected_witness :
  let w1 := world_after (do_ip ve1 ["address"; "10.0.0.1/24"] two_port_world) in
  do_ip ve2 ["address"; "10.0.0.1/24"] w1 = Return tt (wrote w1 Errno11)
  /\ written (wrote w1 Errno11)
     = written w1 ++ ["IP/Port: Errno(11) ip subnet overlap with another interface"]
  /\ port_objects (wrote w1 Errno11) = port_objects w1
  /\ get_port_and_ip_by_ip (wrote w1 Errno11)
       (netaddr.ip (netaddr.mkIPNetwork 167772161 24))
     = Some (port ve1, netaddr.mkIPNetwork 167772161 24)
  /\ (forall q, get_port_and_ip_by_ip (wrote w1 Errno11) q = get_port_and_ip_by_ip w1 q).
Proof.
  intros w1.
  apply (overlap_rejected ve1 ve2 "10.0.0.1/24"
           (netaddr.mkIPNetwork 167772161 24) two_port_world w1
           (Port.set_switch_configuration (Port.init "ve 1") true) (VlanPort.init 1)).
  - reflexivity.
  - reflexivity.
  - simpl; tauto.
  - discriminate.
  - reflexivity.
  - reflexivity.
Defined.

(** With the [secondary] keyword the loop skips the primaries that do not
    hold the address and adds it to the secondaries at the primary whose
    network holds it. *)
Lemma address_loop_secondary (self : t) (args : list string)
    (n m : netaddr.IPNetwork) (old : list netaddr.IPNetwork) (w : World)
    (b : Port.t) (e : VlanPort.t) :
  asks_secondary args = true ->
  find_network (netaddr.ip n) old = None ->
  netaddr.address_eqb (netaddr.ip n) (netaddr.ip m) = false ->
  netaddr.contains_address m (netaddr.ip n) = true ->
  port_objects w !! port self = Some (VlanPortInstance b e) ->
  existsb (VlanPort.same_address n) (VlanPort.secondary_ips e) = false ->
  address_loop self args n (old ++ [m]) w
  = Return tt (store_vlan_port w (port self) b (VlanPort.add_secondary_ip e n)).
Proof.
  intros Ha Hold Hne Hin Hp Hsec. unfold find_network in Hold.
  induction old as [|ip old IH]; simpl in *.
  - rewrite Hne, Hin, Ha.
    rewrite (bind_Return _ _ _ _ _ (vlan_port_eq _ _ _ _ Hp)).
    rewrite Hsec. simpl. unfold port_add_secondary_ip.
    unfold bind at 1.
    rewrite (bind_Return _ _ _ _ _ (vlan_port_eq _ _ _ _ Hp)).
    now rewrite (update_vlan_port_eq _ _ _ _ _ Hp).
  - destruct (netaddr.contains_address ip (netaddr.ip n)) eqn:C; [discriminate|].
    destruct (netaddr.address_eqb (netaddr.ip n) (netaddr.ip ip)) eqn:E.
    + apply same_address_contains in E. congruence.
    + now apply IH.
Qed.

(** C1, amended: on a port of the configuration, [ip address A secondary]
    for an address that no port owns writes no line and appends A to the
    primaries of the port, the secondaries left as they are.  Once a
    primary B with another address, whose network holds the address of A,
    has been added to the port, the same command writes no line and
    appends A to the secondaries, provided no secondary has the address
    yet. *)
Theorem secondary_without_primary_is_primary (self : t) (a b' : string)
    (n m : netaddr.IPNetwork) (w : World) (b : Port.t) (e : VlanPort.t) :
  netaddr.IPNetwork_of_string a = Some n ->
  netaddr.IPNetwork_of_string b' = Some m ->
  port_objects w !! port self = Some (VlanPortInstance b e) ->
  In (port self) (SwitchConfiguration.ports (switch_configuration w)) ->
  get_port_and_ip_by_ip w (netaddr.ip n) = None ->
  get_port_and_ip_by_ip w (netaddr.ip m) = None ->
  netaddr.contains_address m (netaddr.ip n) = true ->
  netaddr.address_eqb (netaddr.ip n) (netaddr.ip m) = false ->
  existsb (VlanPort.same_address n) (VlanPort.secondary_ips e) = false ->
  do_ip self ["address"; a; "secondary"] w
  = Return tt (store_vlan_port w (port self) b
                 (VlanPort.set_ips e (VlanPort.ips e ++ [n])))
  /\ exists w1,
       do_ip self ["address"; b'] w = Return tt w1
       /\ w1 = store_vlan_port w (port self) b
                 (VlanPort.set_ips e (VlanPort.ips e ++ [m]))
       /\ do_ip self ["address"; a; "secondary"] w1
          = Return tt
              (store_vlan_port w1 (port self) b
                 (VlanPort.add_secondary_ip
                    (VlanPort.set_ips e (VlanPort.ips e ++ [m])) n)).
Proof.
  intros Hn Hm Hp Hin Hsn Hsm Hc Hne Hsec.
  split; [now apply do_ip_address_no_owner|].
  eexists. split; [now apply (do_ip_address_no_owner self b' [] m w b e)|].
  split; [reflexivity|].
  pose proof (scan_ports_None _ _ _ _ _ _ Hsn Hin Hp) as Hold.
  pose proof (store_vlan_port_lookup w (port self) b e
                (VlanPort.set_ips e (VlanPort.ips e ++ [m])) Hp) as Hp1.
  rewrite do_ip_address_only.
  unfold do_ip_address, arg, IPNetwork. simpl. unfold bind at 1. simpl.
  rewrite Hn. unfold bind at 1. simpl. unfold bind at 1. simpl.
  unfold get_port_and_ip_by_ip. simpl.
  rewrite (scan_ports_stored _ _ _ _ b e _ m Hsn Hin Hp).
  - rewrite Nat.eqb_refl.
    rewrite (bind_Return _ _ _ _ _ (vlan_port_eq _ _ _ _ Hp1)).
    simpl. now apply address_loop_secondary.
  - simpl. unfold find_network in *. rewrite find_app_None by exact Hold.
    simpl. now rewrite Hc.
Qed.

Lemma secondary_without_primary_is_primary_witness :
  do_ip ve1 ["address"; "10.0.0.5/24"; "secondary"] two_port_world
  = Return tt
      (store_vlan_port two_port_world 0
         (Port.set_switch_configuration (Port.init "ve 1") true)
         (VlanPort.set_ips (VlanPort.init 1) [netaddr.mkIPNetwork 167772165 24]))
  /\ exists w1,
       do_ip ve1 ["address"; "10.0.0.1/24"] two_port_world = Return tt w1
       /\ w1 = store_vlan_port two_port_world 0
                 (Port.set_switch_configuration (Port.init "ve 1") true)
                 (VlanPort.set_ips (VlanPort.init 1) [netaddr.mkIPNetwork 167772161 24])
       /\ do_ip ve1 ["address"; "10.0.0.5/24"; "secondary"] w1
          = Return tt
              (store_vlan_port w1 0
                 (Port.set_switch_configuration (Port.init "ve 1") true)
                 (VlanPort.add_secondary_ip
                    (VlanPort.set_ips (VlanPort.init 1)
                       [netaddr.mkIPNetwork 167772161 24])
                    (netaddr.mkIPNetwork 167772165 24))).
Proof.
  apply (secondary_without_primary_is_primary ve1 "10.0.0.5/24" "10.0.0.1/24"
           (netaddr.mkIPNetwork 167772165 24) (netaddr.mkIPNetwork 167772161 24)
           two_port_world
           (Port.set_switch_configuration (Port.init "ve 1") true) (VlanPort.init 1)).
  - reflexivity.
  - reflexivity.
  - reflexivity.
  - simpl; tauto.
  - reflexivity.
  - reflexivity.
  - reflexivity.
  - reflexivity.
  - reflexivity.
Defined.

(** C1 as stated fails: on [ve 1], which has no address while no port
    owns one, [ip address 10.0.0.5/24 secondary] is not rejected: it
    writes no line and the address becomes a primary of the port. *)
Lemma secondary_without_primary_not_rejected :
  vlan_fields two_port_world 0 = Some (VlanPort.init 1)
  /\ get_port_and_ip_by_ip two_port_world 167772165 = None
  /\ exists w1,
       do_ip ve1 ["address"; "10.0.0.5/24"; "secondary"] two_port_world = Return tt w1
       /\ written w1 = written two_port_world
       /\ (VlanPort.ips <$> vlan_fields w1 0) = Some [netaddr.mkIPNetwork 167772165 24]
       /\ (VlanPort.ips <$> vlan_fields w1 0)
          <> (VlanPort.ips <$> vlan_fields two_port_world 0)
       /\ (VlanPort.secondary_ips <$> vlan_fields w1 0) = Some [].
Proof.
  split; [reflexivity|]. split; [reflexivity|].
  eexists. split; [reflexivity|].
  repeat split. discriminate.
Qed.

(** ** [do_no_ip] on [address] *)

Lemma remove_first_middle {A} (f : A -> bool) (l1 l2 : list A) (y : A) :
  existsb f l1 = false -> f y = true ->
  remove_first f (l1 ++ y :: l2) = l1 ++ l2.
Proof.
  intros H Hy. induction l1 as [|x l1 IH]; simpl in *.
  - now rewrite Hy.
  - apply orb_false_iff in H as [Hx H]. rewrite Hx. f_equal. now apply IH.
Qed.

Lemma find_middle {A} (f : A -> bool) (l1 l2 : list A) (y : A) :
  existsb f l1 = false -> f y = true ->
  List.find f (l1 ++ y :: l2) = Some y.
Proof.
  intros H Hy. induction l1 as [|x l1 IH]; simpl in *.
  - now rewrite Hy.
  - apply orb_false_iff in H as [Hx H]. rewrite Hx. now apply IH.
Qed.

Lemma existsb_middle {A} (f : A -> bool) (l1 l2 : list A) (y : A) :
  f y = true -> existsb f (l1 ++ y :: l2) = true.
Proof.
  intros Hy. rewrite existsb_app. simpl. rewrite Hy.
  now rewrite orb_true_r.
Qed.

Lemma existsb_without_middle {A} (f : A -> bool) (l1 l2 : list A) (y : A) :
  existsb f (l1 ++ y :: l2) = false -> existsb f (l1 ++ l2) = false.
Proof.
  rewrite !existsb_app. simpl. intros H.
  apply orb_false_iff in H as [H1 H2]. apply orb_false_iff in H2 as [_ H2].
  now rewrite H1, H2.
Qed.

Lemma same_address_refl (n : netaddr.IPNetwork) : VlanPort.same_address n n = true.
Proof. unfold VlanPort.same_address, netaddr.address_eqb. apply Z.eqb_refl. Qed.

Lemma network_eqb_refl (n : netaddr.IPNetwork) : netaddr.network_eqb n n = true.
Proof. unfold netaddr.network_eqb. now rewrite !Z.eqb_refl. Qed.

(** Two networks that are equal for netaddr lie within the same
    networks. *)
Lemma network_eqb_contains (outer n m : netaddr.IPNetwork) :
  netaddr.network_eqb m n = true ->
  netaddr.contains_network outer n = true ->
  netaddr.contains_network outer m = true.
Proof.
  unfold netaddr.network_eqb, netaddr.contains_network, netaddr.net_bits,
    netaddr.shiftwidth.
  intros H1 H2.
  apply andb_true_iff in H1 as [Hp Hb]. apply andb_true_iff in H2 as [Hv Hle].
  apply Z.eqb_eq in Hp, Hb, Hv. apply Z.leb_le in Hle.
  apply andb_true_iff. split; [|apply Z.leb_le; lia].
  apply Z.eqb_eq. rewrite <- Hv.
  replace (netaddr.width - netaddr.prefixlen outer)
    with ((netaddr.width - netaddr.prefixlen n)
          + (netaddr.prefixlen n - netaddr.prefixlen outer)) by lia.
  rewrite <- !Z.shiftr_shiftr by lia.
  rewrite <- Hb, Hp. reflexivity.
Qed.

Lemma do_no_ip_address_only (self : t) (a : string) (rest : list string) (w : World) :
  do_no_ip self ("address" :: a :: rest) w
  = do_no_ip_address self ("address" :: a :: rest) w.
Proof.
  unfold do_no_ip, arg. simpl. unfold bind at 1. simpl.
  unfold when. simpl. unfold bind.
  now destruct (do_no_ip_address self _ w) as [[] ?|? ?].
Qed.

(** With a secondary inside the network to delete, and none that has the
    address to delete, [no ip address] writes the ordering error. *)
Lemma do_no_ip_primary_refused (self : t) (a : string) (n : netaddr.IPNetwork)
    (w : World) (b : Port.t) (e : VlanPort.t) :
  netaddr.IPNetwork_of_string a = Some n ->
  port_objects w !! port self = Some (VlanPortInstance b e) ->
  existsb (VlanPort.same_address n) (VlanPort.secondary_ips e) = false ->
  existsb (fun ip => netaddr.contains_network n ip) (VlanPort.secondary_ips e) = true ->
  do_no_ip self ["address"; a] w = Return tt (wrote w Errno18).
Proof.
  intros Hn Hp Hs Hc. rewrite do_no_ip_address_only.
  unfold do_no_ip_address, arg, IPNetwork. simpl. unfold bind at 1. simpl.
  rewrite Hn. unfold bind at 1. simpl.
  rewrite (bind_Return _ _ _ _ _ (vlan_port_eq _ _ _ _ Hp)).
  now rewrite Hs, Hc.
Qed.

(** With no secondary inside the network to delete, and none that has
    the address to delete, [no ip address] pops the first primary with
    the address. *)
Lemma do_no_ip_primary_removed (self : t) (a : string) (n : netaddr.IPNetwork)
    (w : World) (b : Port.t) (e : VlanPort.t) :
  netaddr.IPNetwork_of_string a = Some n ->
  port_objects w !! port self = Some (VlanPortInstance b e) ->
  existsb (VlanPort.same_address n) (VlanPort.secondary_ips e) = false ->
  existsb (fun ip => netaddr.contains_network n ip) (VlanPort.secondary_ips e) = false ->
  do_no_ip self ["address"; a] w
  = Return tt (store_vlan_port w (port self) b (VlanPort.remove_ip e n)).
Proof.
  intros Hn Hp Hs Hc. rewrite do_no_ip_address_only.
  unfold do_no_ip_address, arg, IPNetwork. simpl. unfold bind at 1. simpl.
  rewrite Hn. unfold bind at 1. simpl.
  rewrite (bind_Return _ _ _ _ _ (vlan_port_eq _ _ _ _ Hp)).
  rewrite Hs, Hc. simpl. unfold port_remove_ip.
  rewrite (bind_Return _ _ _ _ _ (vlan_port_eq _ _ _ _ Hp)).
  now apply update_vlan_port_eq with (e := e).
Qed.

(** [no ip address] of a secondary that is the first with its address
    and the first of its network drops that secondary. *)
Lemma do_no_ip_secondary_removed (self : t) (a : string) (n : netaddr.IPNetwork)
    (w : World) (b : Port.t) (e : VlanPort.t) (s1 s2 : list netaddr.IPNetwork) :
  netaddr.IPNetwork_of_string a = Some n ->
  port_objects w !! port self = Some (VlanPortInstance b e) ->
  VlanPort.secondary_ips e = s1 ++ n :: s2 ->
  existsb (VlanPort.same_address n) s1 = false ->
  existsb (fun ip => netaddr.network_eqb ip n) s1 = false ->
  do_no_ip self ["address"; a] w
  = Return tt (store_vlan_port w (port self) b
                 (VlanPort.set_secondary_ips e (s1 ++ s2))).
Proof.
  intros Hn Hp He Hs Hq. rewrite do_no_ip_address_only.
  unfold do_no_ip_address, arg, IPNetwork. simpl. unfold bind at 1. simpl.
  rewrite Hn. unfold bind at 1. simpl.
  rewrite (bind_Return _ _ _ _ _ (vlan_port_eq _ _ _ _ Hp)).
  rewrite He, (existsb_middle _ s1 s2 n (same_address_refl n)).
  unfold port_remove_secondary_ip.
  rewrite (bind_Return _ _ _ _ _ (vlan_port_eq _ _ _ _ Hp)).
  unfold VlanPort.remove_secondary_ip, list_remove. rewrite He.
  rewrite (find_middle _ s1 s2 n Hs (same_address_refl n)).
  rewrite (existsb_middle (fun y => netaddr.network_eqb y n) s1 s2 n
             (network_eqb_refl n)).
  rewrite (remove_first_middle (fun y => netaddr.network_eqb y n) s1 s2 n Hq
             (network_eqb_refl n)).
  simpl. unfold bind at 1. simpl.
  now apply update_vlan_port_eq with (e := e).
Qed.

(** A secondary list without network inside [outer], one entry apart,
    has no other entry equal to it for netaddr. *)
Lemma alone_in_network (outer n : netaddr.IPNetwork) (s : list netaddr.IPNetwork) :
  netaddr.contains_network outer n = true ->
  existsb (fun ip => netaddr.contains_network outer ip) s = false ->
  existsb (fun ip => netaddr.network_eqb ip n) s = false.
Proof.
  intros Hn. induction s as [|x s IH]; simpl; [reflexivity|].
  intros H. apply orb_false_iff in H as [Hx H].
  rewrite (IH H), orb_false_r.
  destruct (netaddr.network_eqb x n) eqn:E; [|reflexivity].
  rewrite (network_eqb_contains outer n x E Hn) in Hx. discriminate.
Qed.

(** C4, amended: on a port with the primary A, a secondary B inside the
    network of A and no secondary with the address of A, [no ip address A]
    writes the ordering error and removes nothing.  When B is the only
    secondary inside the network of A and the first secondary with its
    address, [no ip address B] removes B without a line, and
    [no ip address A] then removes A without a line: no secondary of the
    port is left inside the network of A. *)
Theorem secondary_before_primary (self : t) (a b' : string)
    (A B : netaddr.IPNetwork) (w : World) (b : Port.t) (e : VlanPort.t)
    (i1 i2 s1 s2 : list netaddr.IPNetwork) :
  netaddr.IPNetwork_of_string a = Some A ->
  netaddr.IPNetwork_of_string b' = Some B ->
  port_objects w !! port self = Some (VlanPortInstance b e) ->
  VlanPort.ips e = i1 ++ A :: i2 ->
  existsb (VlanPort.same_address A) i1 = false ->
  VlanPort.secondary_ips e = s1 ++ B :: s2 ->
  netaddr.contains_network A B = true ->
  existsb (VlanPort.same_address A) (VlanPort.secondary_ips e) = false ->
  do_no_ip self ["address"; a] w = Return tt (wrote w Errno18)
  /\ port_objects (wrote w Errno18) = port_objects w
  /\ (existsb (fun ip => netaddr.contains_network A ip) (s1 ++ s2) = false ->
      existsb (VlanPort.same_address B) s1 = false ->
      exists w1 w2,
        do_no_ip self ["address"; b'] w = Return tt w1
        /\ do_no_ip self ["address"; a] w1 = Return tt w2
        /\ written w2 = written w
        /\ vlan_fields w2 (port self)
           = Some (VlanPort.set_ips (VlanPort.set_secondary_ips e (s1 ++ s2))
                     (i1 ++ i2))
        /\ existsb (fun ip => netaddr.contains_network A ip) (s1 ++ s2) = false).
Proof.
  intros HA HB Hp Hi Hi1 Hs HAB HsA.
  split; [|split; [reflexivity|]].
  - apply (do_no_ip_primary_refused self a A w b e HA Hp HsA).
    rewrite Hs. now apply existsb_middle.
  - intros Hone HsB.
    pose proof (store_vlan_port_lookup w (port self) b e
                  (VlanPort.set_secondary_ips e (s1 ++ s2)) Hp) as Hp1.
    assert (Hq : existsb (fun ip => netaddr.network_eqb ip B) s1 = false).
    { apply (alone_in_network A B s1 HAB).
      rewrite existsb_app in Hone. now apply orb_false_iff in Hone as [? _]. }
    do 2 eexists.
    split; [now apply (do_no_ip_secondary_removed self b' B w b e s1 s2)|].
    split.
    + apply (do_no_ip_primary_removed self a A _ b _ HA Hp1); simpl.
      * rewrite Hs in HsA. now apply existsb_without_middle in HsA.
      * exact Hone.
    + split; [reflexivity|]. split; [|exact Hone].
      unfold vlan_fields, store_vlan_port. simpl.
      rewrite list_lookup_insert_eq.
      * simpl. unfold VlanPort.remove_ip. simpl. rewrite Hi.
        now rewrite (remove_first_middle _ i1 i2 A Hi1 (same_address_refl A)).
      * rewrite length_insert. now apply lookup_lt_Some in Hp.
Qed.

Lemma secondary_before_primary_witness :
  do_no_ip ve1 ["address"; "10.0.0.1/24"] one_secondary_world
  = Return tt (wrote one_secondary_world Errno18)
  /\ port_objects (wrote one_secondary_world Errno18) = port_objects one_secondary_world
  /\ (existsb (fun ip => netaddr.contains_network (netaddr.mkIPNetwork 167772161 24) ip)
        ([] ++ []) = false ->
      existsb (VlanPort.same_address (netaddr.mkIPNetwork 167772165 24)) [] = false ->
      exists w1 w2,
        do_no_ip ve1 ["address"; "10.0.0.5/24"] one_secondary_world = Return tt w1
        /\ do_no_ip ve1 ["address"; "10.0.0.1/24"] w1 = Return tt w2
        /\ written w2 = written one_secondary_world
        /\ vlan_fields w2 (port ve1)
           = Some (VlanPort.set_ips
                     (VlanPort.set_secondary_ips
                        (VlanPort.set_secondary_ips
                           (VlanPort.set_ips (VlanPort.init 1)
                              [netaddr.mkIPNetwork 167772161 24])
                           [netaddr.mkIPNetwork 167772165 24])
                        ([] ++ []))
                     ([] ++ []))
        /\ existsb (fun ip => netaddr.contains_network (netaddr.mkIPNetwork 167772161 24) ip)
             ([] ++ []) = false).
Proof.
  apply (secondary_before_primary ve1 "10.0.0.1/24" "10.0.0.5/24"
           (netaddr.mkIPNetwork 167772161 24) (netaddr.mkIPNetwork 167772165 24)
           one_secondary_world
           (Port.set_switch_configuration (Port.init "ve 1") true)
           (VlanPort.set_secondary_ips
              (VlanPort.set_ips (VlanPort.init 1) [netaddr.mkIPNetwork 167772161 24])
              [netaddr.mkIPNetwork 167772165 24])
           [] [] [] []).
  - reflexivity.
  - reflexivity.
  - reflexivity.
  - reflexivity.
  - reflexivity.
  - reflexivity.
  - reflexivity.
  - reflexivity.
Defined.

(** The world with two secondaries is the one three commands build from
    the world without address. *)
Example two_secondaries_world_reached :
  world_after
    (do_ip ve1 ["address"; "10.0.0.6/24"; "secondary"]
       (world_after
          (do_ip ve1 ["address"; "10.0.0.5/24"; "secondary"]
             (world_after (do_ip ve1 ["address"; "10.0.0.1/24"] two_port_world)))))
  = two_secondaries_world.
Proof. reflexivity. Qed.

(** C4 as stated fails: [ve 1] holds the primary [10.0.0.1/24] and the
    secondary [10.0.0.5/24] of the same subnet, next to a second secondary
    of that subnet.  After [no ip address 10.0.0.5/24], which removes that
    secondary, [no ip address 10.0.0.1/24] still writes the ordering error
    and the primary stays. *)
Lemma primary_kept_after_one_secondary_removed :
  (VlanPort.ips <$> vlan_fields two_secondaries_world 0)
  = Some [netaddr.mkIPNetwork 167772161 24]
  /\ (VlanPort.secondary_ips <$> vlan_fields two_secondaries_world 0)
     = Some [netaddr.mkIPNetwork 167772165 24; netaddr.mkIPNetwork 167772166 24]
  /\ netaddr.contains_network (netaddr.mkIPNetwork 167772161 24)
       (netaddr.mkIPNetwork 167772165 24) = true
  /\ exists w1,
       do_no_ip ve1 ["address"; "10.0.0.5/24"] two_secondaries_world = Return tt w1
       /\ (VlanPort.secondary_ips <$> vlan_fields w1 0)
          = Some [netaddr.mkIPNetwork 167772166 24]
       /\ do_no_ip ve1 ["address"; "10.0.0.1/24"] w1 = Return tt (wrote w1 Errno18)
       /\ (VlanPort.ips <$> vlan_fields (wrote w1 Errno18) 0)
          = Some [netaddr.mkIPNetwork 167772161 24].
Proof.
  split; [reflexivity|]. split; [reflexivity|]. split; [reflexivity|].
  eexists. split; [reflexivity|]. repeat split.
Qed.

(** ** [no ip vrrp-extended auth-type] *)

(** C9 fails on the code: with the two arguments [vrrp-extended auth-type]
    the handler reads [args[2]] before it looks at the length, so it
    raises [IndexError]; it writes no line and changes nothing. *)
Theorem no_auth_type_without_argument_raises (self : t) (w : World) :
  do_no_ip self ["vrrp-extended"; "auth-type"] w = Raise IndexError w.
Proof. reflexivity. Qed.

(** [ip vrrp-extended auth-type no-auth] clears the authentication
    string. *)
Lemma do_ip_no_auth (self : t) (w : World) (b : Port.t) (e : VlanPort.t) :
  port_objects w !! port self = Some (VlanPortInstance b e) ->
  do_ip self ["vrrp-extended"; "auth-type"; "no-auth"] w
  = Return tt (store_vlan_port w (port self) b
                 (VlanPort.set_vrrp_common_authentication e None)).
Proof.
  intros Hp.
  unfold do_ip, do_ip_vrrp_extended, do_ip_auth_type, arg, when, bind. simpl.
  rewrite (vlan_port_eq _ _ _ _ Hp).
  now rewrite (update_vlan_port_eq _ _ _ _ _ Hp).
Qed.

Lemma do_no_ip_auth_type_only (self : t) (rest : list string) (w : World) :
  do_no_ip self ("vrrp-extended" :: "auth-type" :: rest) w
  = do_no_ip_auth_type self ("vrrp-extended" :: "auth-type" :: rest) w.
Proof.
  unfold do_no_ip, do_no_ip_vrrp_extended, arg, when, bind. simpl.
  now destruct (do_no_ip_auth_type self _ w) as [[] ?|? ?].
Qed.

(** With four arguments, the third an abbreviation of
    [simple-text-auth], the negated command does what
    [ip vrrp-extended auth-type no-auth] does. *)
Lemma no_auth_type_four_arguments (self : t) (a2 secret : string) (w : World) :
  PyStr.startswith "simple-text-auth" a2 = true ->
  do_no_ip self ["vrrp-extended"; "auth-type"; a2; secret] w
  = do_ip self ["vrrp-extended"; "auth-type"; "no-auth"] w.
Proof.
  intros Ha. rewrite do_no_ip_auth_type_only.
  unfold do_no_ip_auth_type, arg, bind. cbn -[PyStr.startswith do_ip].
  now rewrite Ha.
Qed.

(** With three arguments the handler writes [Incomplete command.]. *)
Lemma no_auth_type_three_arguments (self : t) (a2 : string) (w : World) :
  do_no_ip self ["vrrp-extended"; "auth-type"; a2] w
  = Return tt (wrote w Incomplete).
Proof.
  rewrite do_no_ip_auth_type_only.
  unfold do_no_ip_auth_type, arg, bind. cbn -[PyStr.startswith do_ip].
  now rewrite andb_false_r.
Qed.

(** With five arguments or more the handler writes
    [Incomplete command.]. *)
Lemma no_auth_type_five_arguments (self : t) (a2 a3 a4 : string)
    (rest : list string) (w : World) :
  do_no_ip self ("vrrp-extended" :: "auth-type" :: a2 :: a3 :: a4 :: rest) w
  = Return tt (wrote w Incomplete).
Proof.
  rewrite do_no_ip_auth_type_only.
  unfold do_no_ip_auth_type, arg, bind. cbn -[PyStr.startswith do_ip].
  now rewrite andb_false_r.
Qed.

Lemma no_auth_type_accepted (self : t) (a2 secret : string) (w : World)
    (b : Port.t) (e : VlanPort.t) :
  PyStr.startswith "simple-text-auth" a2 = true ->
  port_objects w !! port self = Some (VlanPortInstance b e) ->
  do_no_ip self ["vrrp-extended"; "auth-type"; a2; secret] w
  = Return tt (store_vlan_port w (port self) b
                 (VlanPort.set_vrrp_common_authentication e None)).
Proof.
  intros Ha Hp. rewrite no_auth_type_four_arguments by exact Ha.
  now apply do_ip_no_auth.
Qed.

(** ** [ip vrrp-extended vrid] *)

Lemma filter_find_None {A} (f : A -> bool) (l : list A) :
  List.find f l = None -> List.filter f l = [].
Proof.
  induction l as [|x l IH]; simpl; [reflexivity|].
  destruct (f x); [discriminate|exact IH].
Qed.

Lemma filter_find_Some {A} (f : A -> bool) (l : list A) (x : A) :
  List.find f l = Some x -> (1 <= length (List.filter f l))%nat.
Proof.
  induction l as [|y l IH]; simpl; [discriminate|].
  destruct (f y); simpl; [lia|exact IH].
Qed.

(** A new object at the end of the store changes nothing for the
    references into the store. *)
Lemma has_group_id_alloc (objs : list VRRP.t) (v : VRRP.t) (g : string) (r : nat) :
  (r < length objs)%nat ->
  VlanPort.has_group_id (objs ++ [v]) g r = VlanPort.has_group_id objs g r.
Proof.
  intros H. unfold VlanPort.has_group_id. now rewrite lookup_app_l.
Qed.

Lemma has_group_id_new (objs : list VRRP.t) (g : string) :
  VlanPort.has_group_id (objs ++ [VRRP.init g]) g (length objs) = true.
Proof.
  unfold VlanPort.has_group_id. rewrite list_lookup_middle by reflexivity.
  simpl. apply String.eqb_refl.
Qed.

Lemma find_alloc (objs : list VRRP.t) (v : VRRP.t) (g : string) (l : list nat) :
  Forall (fun r => (r < length objs)%nat) l ->
  List.find (VlanPort.has_group_id (objs ++ [v]) g) l
  = List.find (VlanPort.has_group_id objs g) l.
Proof.
  induction 1 as [|r l Hr _ IH]; simpl; [reflexivity|].
  now rewrite has_group_id_alloc, IH.
Qed.

Lemma filter_alloc (objs : list VRRP.t) (v : VRRP.t) (g : string) (l : list nat) :
  Forall (fun r => (r < length objs)%nat) l ->
  List.filter (VlanPort.has_group_id (objs ++ [v]) g) l
  = List.filter (VlanPort.has_group_id objs g) l.
Proof.
  induction 1 as [|r l Hr _ IH]; simpl; [reflexivity|].
  now rewrite has_group_id_alloc, IH.
Qed.

Lemma do_ip_vrid_only (self : t) (g : string) (w : World) :
  do_ip self ["vrrp-extended"; "vrid"; g] w
  = do_ip_vrid self ["vrrp-extended"; "vrid"; g] w.
Proof.
  unfold do_ip, do_ip_vrrp_extended, arg, when, bind. simpl.
  now destruct (do_ip_vrid self _ w) as [[] ?|? ?].
Qed.

(** The group exists: the command enters its sub-mode. *)
Lemma do_ip_vrid_found (self : t) (g : string) (w : World) (b : Port.t)
    (e : VlanPort.t) (r : nat) :
  port_objects w !! port self = Some (VlanPortInstance b e) ->
  VlanPort.get_vrrp_group (vrrp_objects w) e g = Some r ->
  do_ip self ["vrrp-extended"; "vrid"; g] w
  = Return tt
      (set_sub_processor w
         (Some (ConfigVirtualInterfaceVrrpCommandProcessor (port self) r))).
Proof.
  intros Hp Hg. rewrite do_ip_vrid_only.
  unfold do_ip_vrid, arg. simpl. unfold bind at 1. simpl.
  rewrite (bind_Return _ _ _ _ _ (vlan_port_eq _ _ _ _ Hp)).
  unfold bind at 1. simpl. now rewrite Hg.
Qed.

(** The group does not exist: the command creates its object, appends it
    to the VRRP list of the port and enters its sub-mode. *)
Lemma do_ip_vrid_created (self : t) (g : string) (w : World) (b : Port.t)
    (e : VlanPort.t) :
  port_objects w !! port self = Some (VlanPortInstance b e) ->
  VlanPort.get_vrrp_group (vrrp_objects w) e g = None ->
  do_ip self ["vrrp-extended"; "vrid"; g] w
  = Return tt
      (set_sub_processor
         (store_vlan_port
            (set_vrrp_objects w (vrrp_objects w ++ [VRRP.init g]))
            (port self) b
            (VlanPort.set_vrrps e (VlanPort.vrrps e ++ [length (vrrp_objects w)])))
         (Some (ConfigVirtualInterfaceVrrpCommandProcessor (port self)
                  (length (vrrp_objects w))))).
Proof.
  intros Hp Hg. rewrite do_ip_vrid_only.
  unfold do_ip_vrid, arg. simpl. unfold bind at 1. simpl.
  rewrite (bind_Return _ _ _ _ _ (vlan_port_eq _ _ _ _ Hp)).
  unfold bind at 1. simpl. rewrite Hg.
  unfold bind at 1. unfold bind at 1. unfold new_VRRP.
  assert (Hp' : port_objects (set_vrrp_objects w (vrrp_objects w ++ [VRRP.init g]))
                !! port self = Some (VlanPortInstance b e)) by exact Hp.
  rewrite (bind_Return _ _ _ _ _ (vlan_port_eq _ _ _ _ Hp')).
  unfold bind at 1.
  now rewrite (update_vlan_port_eq _ _ _ _ _ Hp').
Qed.

(** C8: on a port whose VRRP list refers to objects of the store and
    holds at most one entry with the group id g, two
    [ip vrrp-extended vrid g] in a row leave exactly one entry with that
    id.  The second creates no object and changes nothing: before and
    after it [get_vrrp_group] answers the one object, which the first
    created when the port had none, and both commands enter the sub-mode
    of that object. *)
Theorem vrid_twice_one_group (self : t) (g : string) (w : World) (b : Port.t)
    (e : VlanPort.t) :
  port_objects w !! port self = Some (VlanPortInstance b e) ->
  Forall (fun r => (r < length (vrrp_objects w))%nat) (VlanPort.vrrps e) ->
  (group_count (vrrp_objects w) e g <= 1)%nat ->
  exists w1 w2 e1 r,
    do_ip self ["vrrp-extended"; "vrid"; g] w = Return tt w1
    /\ do_ip self ["vrrp-extended"; "vrid"; g] w1 = Return tt w2
    /\ w2 = w1
    /\ vlan_fields w1 (port self) = Some e1
    /\ group_count (vrrp_objects w2) e1 g = 1%nat
    /\ VlanPort.get_vrrp_group (vrrp_objects w1) e1 g = Some r
    /\ VlanPort.get_vrrp_group (vrrp_objects w2) e1 g = Some r
    /\ (VlanPort.get_vrrp_group (vrrp_objects w) e g = None ->
        r = length (vrrp_objects w)
        /\ vrrp_objects w1 = vrrp_objects w ++ [VRRP.init g])
    /\ sub_processor w1
       = Some (ConfigVirtualInterfaceVrrpCommandProcessor (port self) r)
    /\ sub_processor w2
       = Some (ConfigVirtualInterfaceVrrpCommandProcessor (port self) r).
Proof.
  intros Hp Hv Hc.
  destruct (VlanPort.get_vrrp_group (vrrp_objects w) e g) as [r|] eqn:Hg.
  - exists (set_sub_processor w
              (Some (ConfigVirtualInterfaceVrrpCommandProcessor (port self) r))).
    eexists. exists e, r.
    split; [exact (do_ip_vrid_found self g w b e r Hp Hg)|].
    split; [exact (do_ip_vrid_found self g (set_sub_processor w _) b e r Hp Hg)|].
    split; [reflexivity|].
    split; [unfold vlan_fields; simpl; now rewrite Hp|].
    split.
    { simpl. apply filter_find_Some in Hg. unfold group_count in *. lia. }
    repeat split; try assumption; discriminate.
  - set (objs := vrrp_objects w ++ [VRRP.init g]).
    set (e1 := VlanPort.set_vrrps e (VlanPort.vrrps e ++ [length (vrrp_objects w)])).
    set (w1 := set_sub_processor
                 (store_vlan_port (set_vrrp_objects w objs) (port self) b e1)
                 (Some (ConfigVirtualInterfaceVrrpCommandProcessor (port self)
                          (length (vrrp_objects w))))).
    assert (Hp1 : port_objects w1 !! port self = Some (VlanPortInstance b e1)).
    { simpl. apply list_lookup_insert_eq. now apply lookup_lt_Some in Hp. }
    assert (Hg1 : VlanPort.get_vrrp_group (vrrp_objects w1) e1 g
                  = Some (length (vrrp_objects w))).
    { unfold VlanPort.get_vrrp_group. simpl. unfold objs.
      rewrite find_app_None.
      - simpl. now rewrite has_group_id_new.
      - rewrite find_alloc by exact Hv. exact Hg. }
    exists w1, w1, e1, (length (vrrp_objects w)).
    split; [exact (do_ip_vrid_created self g w b e Hp Hg)|].
    split; [now rewrite (do_ip_vrid_found self g w1 b e1 _ Hp1 Hg1)|].
    split; [reflexivity|].
    split; [unfold vlan_fields; now rewrite Hp1|].
    split.
    { unfold group_count. simpl. unfold objs. rewrite List.filter_app.
      rewrite filter_alloc by exact Hv.
      rewrite (filter_find_None _ _ Hg). simpl.
      now rewrite has_group_id_new. }
    repeat split; assumption.
Qed.

Lemma vrid_twice_one_group_witness :
  exists w1 w2 e1 r,
    do_ip ve1 ["vrrp-extended"; "vrid"; "3"] two_port_world = Return tt w1
    /\ do_ip ve1 ["vrrp-extended"; "vrid"; "3"] w1 = Return tt w2
    /\ w2 = w1
    /\ vlan_fields w1 (port ve1) = Some e1
    /\ group_count (vrrp_objects w2) e1 "3" = 1%nat
    /\ VlanPort.get_vrrp_group (vrrp_objects w1) e1 "3" = Some r
    /\ VlanPort.get_vrrp_group (vrrp_objects w2) e1 "3" = Some r
    /\ (VlanPort.get_vrrp_group (vrrp_objects two_port_world) (VlanPort.init 1) "3"
        = None ->
        r = length (vrrp_objects two_port_world)
        /\ vrrp_objects w1 = vrrp_objects two_port_world ++ [VRRP.init "3"])
    /\ sub_processor w1
       = Some (ConfigVirtualInterfaceVrrpCommandProcessor (port ve1) r)
    /\ sub_processor w2
       = Some (ConfigVirtualInterfaceVrrpCommandProcessor (port ve1) r).
Proof.
  apply (vrid_twice_one_group ve1 "3" two_port_world
           (Port.set_switch_configuration (Port.init "ve 1") true) (VlanPort.init 1)).
  - reflexivity.
  - constructor.
  - unfold group_count. simpl. lia.
Defined.

(** A new VlanPort has a well-formed VRRP list, and
    [ip vrrp-extended vrid] keeps the list well formed: the commands
    never make the state that [vrid_twice_one_group] excludes. *)
Lemma new_vlan_port_well_formed (objs : list VRRP.t) (vlan_id : Z) :
  vrrps_well_formed objs (VlanPort.init vlan_id).
Proof. split; [constructor|]. intros g. unfold group_count. simpl. lia. Qed.

Lemma vrid_keeps_well_formed (self : t) (g : string) (w : World) (b : Port.t)
    (e : VlanPort.t) :
  port_objects w !! port self = Some (VlanPortInstance b e) ->
  vrrps_well_formed (vrrp_objects w) e ->
  exists w1 e1,
    do_ip self ["vrrp-extended"; "vrid"; g] w = Return tt w1
    /\ vlan_fields w1 (port self) = Some e1
    /\ vrrps_well_formed (vrrp_objects w1) e1.
Proof.
  intros Hp [Hv Hc].
  destruct (VlanPort.get_vrrp_group (vrrp_objects w) e g) as [r|] eqn:Hg.
  - exists (set_sub_processor w
              (Some (ConfigVirtualInterfaceVrrpCommandProcessor (port self) r))), e.
    split; [exact (do_ip_vrid_found self g w b e r Hp Hg)|].
    split; [unfold vlan_fields; simpl; now rewrite Hp|].
    now split.
  - eexists. eexists.
    split; [exact (do_ip_vrid_created self g w b e Hp Hg)|].
    split.
    { unfold vlan_fields. simpl. rewrite list_lookup_insert_eq; [reflexivity|].
      now apply lookup_lt_Some in Hp. }
    split; simpl.
    + apply Forall_app. split.
      * eapply Forall_impl; [exact Hv|]. intros r Hr. simpl in Hr.
        rewrite length_app. simpl. lia.
      * constructor; [|constructor]. rewrite length_app. simpl. lia.
    + intros g'. unfold group_count. simpl. rewrite List.filter_app.
      rewrite filter_alloc by exact Hv. rewrite length_app. simpl.
      unfold VlanPort.has_group_id at 2.
      rewrite list_lookup_middle by reflexivity. simpl.
      destruct (String.eqb g g') eqn:E; simpl.
      * apply String.eqb_eq in E. subst g'.
        unfold VlanPort.get_vrrp_group in Hg.
        rewrite (filter_find_None _ _ Hg). simpl. lia.
      * specialize (Hc g'). unfold group_count in Hc. lia.
Qed.

(** ** Partial port names *)

(** The abbreviation [gi0/3] resolves to [GigabitEthernet0/3], a query
    whose number no port ends with resolves to nothing, and a query
    without digit raises. *)
Example get_port_by_partial_name_gi :
  split_port_name "gi0/3" = inr ("gi", "0/3")
  /\ get_port_by_partial_name "gi0/3" gigabit_world = Return (Some 0%nat) gigabit_world
  /\ get_port_by_partial_name "Gi0/4" gigabit_world = Return None gigabit_world
  /\ get_port_by_partial_name "gi" gigabit_world = Raise AttributeError gigabit_world.
Proof. repeat split. Qed.

(** ** One token, two branches *)

(** With the first token ["a"], [do_ip] runs the [address] branch and
    the [access-group] branch one after the other: the address becomes a
    primary and the same argument becomes the inbound access group. *)
Example do_ip_a_runs_two_branches :
  exists w1,
    do_ip ve1 ["a"; "10.0.0.6/24"; "in"] two_port_world = Return tt w1
    /\ (VlanPort.ips <$> vlan_fields w1 0) = Some [netaddr.mkIPNetwork 167772166 24]
    /\ (VlanPort.access_group_in <$> vlan_fields w1 0) = Some (Some "10.0.0.6/24").
Proof. eexists. split; [reflexivity|]. split; reflexivity. Qed.

(* ===================================================================== *)
(** * Further properties of switch_configuration.py *)
(* ===================================================================== *)

(** ** [split_port_name] and [get_subname] *)

Lemma take_drop (k : nat) (s : string) : PyStr.take k s +:+ PyStr.drop k s = s.
Proof.
  revert s; induction k as [|k IH]; intros [|c r]; try reflexivity.
  change (String c (PyStr.take k r +:+ PyStr.drop k r) = String c r).
  f_equal. apply IH.
Qed.

Lemma search_digit_take (s : string) (k : nat) :
  PyStr.search_digit s = Some k -> PyStr.has_digit (PyStr.take k s) = false.
Proof.
  revert k; induction s as [|c r IH]; intros k; simpl; [discriminate|].
  destruct (PyStr.is_digit c) eqn:D.
  - intros H; inversion H. reflexivity.
  - destruct (PyStr.search_digit r) as [j|]; [|discriminate].
    intros H; inversion H; subst k. simpl. rewrite D. simpl. now apply IH.
Qed.

Lemma search_digit_drop (s : string) (k : nat) :
  PyStr.search_digit s = Some k ->
  exists c r, PyStr.drop k s = String c r /\ PyStr.is_digit c = true.
Proof.
  revert k; induction s as [|c r IH]; intros k; simpl; [discriminate|].
  destruct (PyStr.is_digit c) eqn:D.
  - intros H; inversion H. simpl. now exists c, r.
  - destruct (PyStr.search_digit r) as [j|]; [|discriminate].
    intros H; inversion H; subst k. simpl. now apply IH.
Qed.

(** X1: the two parts of a split name, put together, are the name; the
    first part has no digit and the second starts with one. *)
Theorem split_port_name_parts (s a b : string) :
  split_port_name s = inr (a, b) ->
  a +:+ b = s
  /\ PyStr.has_digit a = false
  /\ exists c r, b = String c r /\ PyStr.is_digit c = true.
Proof.
  unfold split_port_name.
  destruct (PyStr.search_digit s) as [k|] eqn:E; [|discriminate].
  intros H; inversion H; subst a b.
  split; [apply take_drop|].
  split; [now apply search_digit_take|now apply search_digit_drop].
Qed.

Lemma split_port_name_parts_witness :
  "gi" +:+ "0/3" = "gi0/3"
  /\ PyStr.has_digit "gi" = false
  /\ exists c r, "0/3" = String c r /\ PyStr.is_digit c = true.
Proof. apply (split_port_name_parts "gi0/3" "gi" "0/3"). reflexivity. Defined.

Lemma take_take (n k : nat) (s : string) :
  (k <= n)%nat -> PyStr.take n (PyStr.take k s) = PyStr.take k s.
Proof.
  revert n s; induction k as [|k IH]; intros n s H.
  - destruct n, s; reflexivity.
  - destruct n as [|n]; [lia|]. destruct s as [|c r]; [reflexivity|].
    cbn [PyStr.take]. f_equal. apply IH. lia.
Qed.

(** X2: [get_subname] with a length that covers the part before the
    first digit gives the whole name back; with the length 0 it gives the
    part from the first digit on. *)
Theorem get_subname_long_enough (p : Port.t) (k n : nat) :
  PyStr.search_digit (Port.name p) = Some k ->
  (k <= n)%nat ->
  get_subname p n = inr (Port.name p)
  /\ get_subname p 0 = inr (PyStr.drop k (Port.name p)).
Proof.
  intros Hk Hn. unfold get_subname, split_port_name. rewrite Hk.
  split.
  - rewrite take_take by exact Hn. now rewrite take_drop.
  - destruct (PyStr.take k (Port.name p)); reflexivity.
Qed.

Lemma get_subname_long_enough_witness :
  get_subname (Port.init "GigabitEthernet0/3") 20 = inr "GigabitEthernet0/3"
  /\ get_subname (Port.init "GigabitEthernet0/3") 0 = inr "0/3".
Proof.
  apply (get_subname_long_enough (Port.init "GigabitEthernet0/3") 15 20).
  - reflexivity.
  - lia.
Defined.

(** ** [add_port], [get_port] and [remove_port] *)

Lemma port_name_is_add_port (w : World) (r x : nat) (n : string) :
  port_name_is (world_after (add_port r w)) n x = port_name_is w n x.
Proof.
  unfold port_name_is, add_port, modify. simpl.
  destruct (port_objects w !! r) as [o|] eqn:Hr; [|reflexivity].
  destruct (decide (x = r)) as [->|Hne].
  - rewrite list_lookup_insert_eq by now apply lookup_lt_Some in Hr.
    rewrite Hr. now destruct o.
  - now rewrite list_lookup_insert_ne by congruence.
Qed.

Lemma find_ext {A} (f g : A -> bool) (l : list A) :
  (forall x, f x = g x) -> List.find f l = List.find g l.
Proof.
  intros H. induction l as [|x l IH]; simpl; [reflexivity|].
  now rewrite H, IH.
Qed.

(** X3: [add_port] does not look at names.  A port added under a name
    that no port of the configuration has is what [get_port] answers for
    that name afterwards; under a name that is taken, as under any other
    name, [get_port] keeps the answer it gave before. *)
Theorem add_port_get_port (w : World) (r : nat) (o : PortObject) :
  port_objects w !! r = Some o ->
  (get_port w (Port.name (base_of o)) = None ->
   get_port (world_after (add_port r w)) (Port.name (base_of o)) = Some r)
  /\ (forall n r0, get_port w n = Some r0 ->
                   get_port (world_after (add_port r w)) n = Some r0).
Proof.
  intros Hr.
  assert (Hfind : forall n,
            get_port (world_after (add_port r w)) n
            = List.find (port_name_is w n) (config_ports w ++ [r])).
  { intros n. unfold get_port.
    rewrite (find_ext _ (port_name_is w n)) by (intros; apply port_name_is_add_port).
    reflexivity. }
  split.
  - intros Hn. rewrite Hfind. unfold get_port in Hn.
    unfold config_ports. rewrite find_app_None by exact Hn.
    simpl. unfold port_name_is. rewrite Hr. now rewrite String.eqb_refl.
  - intros n r0 Hn. rewrite Hfind. now apply find_app_Some.
Qed.

Lemma add_port_get_port_witness :
  (get_port new_world (Port.name (base_of (PortInstance (Port.init "ethernet 1/1")))) = None ->
   get_port
     (world_after (add_port 0 (set_port_objects new_world
                                 [PortInstance (Port.init "ethernet 1/1")])))
     (Port.name (base_of (PortInstance (Port.init "ethernet 1/1")))) = Some 0%nat)
  /\ (forall n r0,
        get_port (set_port_objects new_world [PortInstance (Port.init "ethernet 1/1")]) n
        = Some r0 ->
        get_port
          (world_after (add_port 0 (set_port_objects new_world
                                      [PortInstance (Port.init "ethernet 1/1")])))
          n = Some r0).
Proof.
  apply (add_port_get_port
           (set_port_objects new_world [PortInstance (Port.init "ethernet 1/1")])
           0 (PortInstance (Port.init "ethernet 1/1"))).
  reflexivity.
Defined.

Lemma existsb_eqb_In (r : nat) (l : list nat) :
  existsb (Nat.eqb r) l = true <-> In r l.
Proof.
  rewrite existsb_exists. split.
  - intros (x & Hx & E). apply Nat.eqb_eq in E. now subst.
  - intros H. exists r. split; [exact H|apply Nat.eqb_refl].
Qed.

Lemma existsb_eqb_not_In (r : nat) (l : list nat) :
  ~ In r l -> existsb (Nat.eqb r) l = false.
Proof.
  intros H. destruct (existsb (Nat.eqb r) l) eqn:E; [|reflexivity].
  apply existsb_eqb_In in E. contradiction.
Qed.

Lemma remove_first_last (r : nat) (l : list nat) :
  ~ In r l -> remove_first (Nat.eqb r) (l ++ [r]) = l.
Proof.
  induction l as [|x l IH]; simpl; intros H.
  - now rewrite Nat.eqb_refl.
  - destruct (Nat.eqb r x) eqn:E.
    + apply Nat.eqb_eq in E. subst. tauto.
    + f_equal. apply IH. tauto.
Qed.

(** X4: [remove_port] of a port that the configuration does not list
    raises [ValueError], and by then the back-reference of the port is
    already cleared; the list of ports is as it was. *)
Theorem remove_port_absent (w : World) (r : nat) (o : PortObject) :
  port_objects w !! r = Some o ->
  ~ In r (config_ports w) ->
  remove_port r w
  = Raise ValueError
      (set_port_objects w
         (<[r := with_base o (Port.set_switch_configuration (base_of o) false)]>
            (port_objects w))).
Proof.
  intros Hr Hn. unfold remove_port, bind, modify, get_world. simpl.
  rewrite Hr. unfold config_ports in Hn.
  now rewrite (existsb_eqb_not_In r _ Hn).
Qed.

Lemma remove_port_absent_witness :
  remove_port 0 (set_port_objects new_world
                   [PortInstance (Port.set_switch_configuration
                                    (Port.init "ethernet 1/1") true)])
  = Raise ValueError
      (set_port_objects
         (set_port_objects new_world
            [PortInstance (Port.set_switch_configuration
                             (Port.init "ethernet 1/1") true)])
         (<[0%nat := with_base
                   (PortInstance (Port.set_switch_configuration
                                    (Port.init "ethernet 1/1") true))
                   (Port.set_switch_configuration
                      (base_of (PortInstance (Port.set_switch_configuration
                                                (Port.init "ethernet 1/1") true)))
                      false)]>
            (port_objects
               (set_port_objects new_world
                  [PortInstance (Port.set_switch_configuration
                                   (Port.init "ethernet 1/1") true)])))).
Proof.
  apply (remove_port_absent
           (set_port_objects new_world
              [PortInstance (Port.set_switch_configuration
                               (Port.init "ethernet 1/1") true)])
           0
           (PortInstance (Port.set_switch_configuration
                            (Port.init "ethernet 1/1") true))).
  - reflexivity.
  - simpl. tauto.
Defined.

(** X5: [add_port] and then [remove_port] of a port that the
    configuration did not list give the list of ports back; the port ends
    without back-reference and no other object changes. *)
Theorem add_remove_port (w : World) (r : nat) (o : PortObject) :
  port_objects w !! r = Some o ->
  ~ In r (config_ports w) ->
  exists w2,
    remove_port r (world_after (add_port r w)) = Return tt w2
    /\ config_ports w2 = config_ports w
    /\ port_objects w2
       = <[r := with_base o (Port.set_switch_configuration (base_of o) false)]>
           (port_objects w)
    /\ get_port w2 (Port.name (base_of o)) = get_port w (Port.name (base_of o)).
Proof.
  intros Hr Hn. unfold config_ports in *.
  assert (Hlt : (r < length (port_objects w))%nat) by now apply lookup_lt_Some in Hr.
  eexists. split.
  - unfold remove_port, add_port, bind, modify, get_world. simpl.
    rewrite Hr. rewrite list_lookup_insert_eq by exact Hlt.
    rewrite existsb_app. simpl. rewrite Nat.eqb_refl, orb_true_r.
    reflexivity.
  - simpl. split; [now apply remove_first_last|]. split.
    + rewrite list_insert_insert_eq. now destruct o.
    + unfold get_port. simpl. rewrite remove_first_last by exact Hn.
      apply find_ext. intros x. unfold port_name_is. simpl.
      rewrite list_insert_insert_eq.
      destruct (decide (x = r)) as [->|Hne].
      * rewrite list_lookup_insert_eq by exact Hlt. rewrite Hr. now destruct o.
      * now rewrite list_lookup_insert_ne by congruence.
Qed.

Lemma add_remove_port_witness :
  exists w2,
    remove_port 0
      (world_after (add_port 0 (set_port_objects new_world
                                  [PortInstance (Port.init "ethernet 1/1")])))
    = Return tt w2
    /\ config_ports w2
       = config_ports (set_port_objects new_world
                         [PortInstance (Port.init "ethernet 1/1")])
    /\ port_objects w2
       = <[0%nat := with_base (PortInstance (Port.init "ethernet 1/1"))
                   (Port.set_switch_configuration
                      (base_of (PortInstance (Port.init "ethernet 1/1"))) false)]>
           (port_objects (set_port_objects new_world
                            [PortInstance (Port.init "ethernet 1/1")]))
    /\ get_port w2 (Port.name (base_of (PortInstance (Port.init "ethernet 1/1"))))
       = get_port (set_port_objects new_world
                     [PortInstance (Port.init "ethernet 1/1")])
           (Port.name (base_of (PortInstance (Port.init "ethernet 1/1")))).
Proof.
  apply (add_remove_port
           (set_port_objects new_world [PortInstance (Port.init "ethernet 1/1")])
           0 (PortInstance (Port.init "ethernet 1/1"))).
  - reflexivity.
  - simpl. tauto.
Defined.

(** ** The VRF collection, continued *)

Lemma find_vrf_named_None (n : string) (l : list VRF.t) :
  List.find (vrf_named n) l = None <-> ~ In n (List.map VRF.name l).
Proof.
  induction l as [|v l IH]; simpl; [tauto|].
  unfold vrf_named at 1. destruct (String.eqb (VRF.name v) n) eqn:E.
  - apply String.eqb_eq in E. split; [discriminate|tauto].
  - apply String.eqb_neq in E. rewrite IH. tauto.
Qed.

(** X6: [add_vrf] is idempotent, and with a name that the collection
    already has it changes nothing. *)
Theorem add_vrf_idempotent (vrf : VRF.t) (w : World) :
  world_after (add_vrf vrf (world_after (add_vrf vrf w)))
  = world_after (add_vrf vrf w)
  /\ (get_vrf (switch_configuration w) (VRF.name vrf) <> None ->
      world_after (add_vrf vrf w) = w)
  /\ get_vrf (switch_configuration (world_after (add_vrf vrf w))) (VRF.name vrf)
     <> None.
Proof.
  unfold add_vrf, modify. simpl.
  destruct (get_vrf (switch_configuration w) (VRF.name vrf)) as [v|] eqn:E; simpl.
  - rewrite E. repeat split. congruence.
  - assert (H : get_vrf
                  (SwitchConfiguration.set_vrfs (switch_configuration w)
                     (SwitchConfiguration.vrfs (switch_configuration w) ++ [vrf]))
                  (VRF.name vrf) = Some vrf).
    { unfold get_vrf in *. simpl. rewrite find_app_None by exact E.
      simpl. unfold vrf_named. now rewrite String.eqb_refl. }
    rewrite H. split; [reflexivity|]. split; [congruence|discriminate].
Qed.

Lemma NoDup_snoc {A} (l : list A) (x : A) :
  NoDup l -> ~ In x l -> NoDup (l ++ [x]).
Proof.
  intros Hl Hx. apply NoDup_app. split; [exact Hl|]. split.
  - intros y Hy Hin. apply list_elem_of_In in Hy.
    apply list_elem_of_singleton in Hin. now subst.
  - apply NoDup_singleton.
Qed.

Lemma map_remove_first_NoDup {A B} (f : A -> B) (g : A -> bool) (l : list A) :
  NoDup (List.map f l) -> NoDup (List.map f (remove_first g l)).
Proof.
  induction l as [|x l IH]; simpl; [auto|].
  intros H. apply NoDup_cons in H as [Hx Hl].
  destruct (g x); [exact Hl|]. simpl. apply NoDup_cons. split; [|now apply IH].
  intros Hin. apply Hx. clear -Hin.
  induction l as [|y l IH]; simpl in *; [exact Hin|].
  destruct (g y).
  - now right.
  - simpl in Hin. apply list_elem_of_In in Hin. apply list_elem_of_In.
    destruct Hin as [->|Hin]; [now left|right].
    apply list_elem_of_In. apply IH. now apply list_elem_of_In.
Qed.

Lemma add_vrf_keeps_unique (vrf : VRF.t) (w : World) :
  vrf_names_unique w -> vrf_names_unique (world_after (add_vrf vrf w)).
Proof.
  unfold vrf_names_unique, add_vrf, modify. simpl. intros H.
  destruct (get_vrf (switch_configuration w) (VRF.name vrf)) eqn:E; simpl; [exact H|].
  rewrite List.map_app. simpl. apply NoDup_snoc; [exact H|].
  now apply find_vrf_named_None.
Qed.

Lemma remove_vrf_keeps_unique (n : string) (w : World) :
  vrf_names_unique w -> vrf_names_unique (world_after (remove_vrf n w)).
Proof.
  unfold vrf_names_unique, remove_vrf, modify. simpl. intros H.
  destruct (get_vrf (switch_configuration w) n); simpl; [|exact H].
  now apply map_remove_first_NoDup.
Qed.

(** X7: the names of the VRFs of a new configuration are pairwise
    distinct, and every sequence of [add_vrf] and [remove_vrf] keeps them
    so. *)
Theorem vrf_names_stay_unique (ip name : string) (auto_enabled : bool)
    (privileged_passwords : list string) (w : World) (ops : list VrfOp) :
  vrf_names_unique
    (run_vrf_ops ops
       (set_switch_configuration w (init ip name auto_enabled privileged_passwords))).
Proof.
  assert (H0 : vrf_names_unique
                 (set_switch_configuration w
                    (init ip name auto_enabled privileged_passwords))).
  { unfold vrf_names_unique. simpl. apply NoDup_singleton. }
  revert H0. generalize (set_switch_configuration w
                           (init ip name auto_enabled privileged_passwords)).
  induction ops as [|op ops IH]; intros w0 H0; simpl; [exact H0|].
  apply IH. destruct op as [vrf|n]; simpl.
  - now apply add_vrf_keeps_unique.
  - now apply remove_vrf_keeps_unique.
Qed.

Lemma find_remove_first_unique (n : string) (l : list VRF.t) :
  NoDup (List.map VRF.name l) ->
  List.find (vrf_named n) (remove_first (vrf_named n) l) = None.
Proof.
  induction l as [|v l IH]; simpl; [reflexivity|].
  intros H. apply NoDup_cons in H as [Hv Hl].
  destruct (vrf_named n v) eqn:E; simpl.
  - apply find_vrf_named_None. unfold vrf_named in E.
    apply String.eqb_eq in E. subst n.
    intros Hin. apply Hv. now apply list_elem_of_In.
  - rewrite E. now apply IH.
Qed.

(** X8: on a collection with distinct names, [remove_vrf] makes the name
    unknown to [get_vrf] and leaves the answer for every other name; a
    name that the collection does not have changes nothing at all. *)
Theorem remove_vrf_get_vrf (n : string) (w : World) :
  vrf_names_unique w ->
  get_vrf (switch_configuration (world_after (remove_vrf n w))) n = None
  /\ (forall n', n' <> n ->
        get_vrf (switch_configuration (world_after (remove_vrf n w))) n'
        = get_vrf (switch_configuration w) n')
  /\ (get_vrf (switch_configuration w) n = None ->
      world_after (remove_vrf n w) = w).
Proof.
  unfold vrf_names_unique, remove_vrf, modify. simpl. intros H.
  destruct (get_vrf (switch_configuration w) n) as [v|] eqn:E; simpl.
  - split; [now apply find_remove_first_unique|]. split; [|discriminate].
    intros n' Hn'. unfold get_vrf. simpl.
    apply find_remove_first_other. intros x Hx. unfold vrf_named in *.
    apply String.eqb_eq in Hx. apply String.eqb_neq. congruence.
  - repeat split. exact E.
Qed.

Lemma remove_vrf_get_vrf_witness :
  get_vrf (switch_configuration (world_after (remove_vrf "DEFAULT-LAN" new_world)))
    "DEFAULT-LAN" = None
  /\ (forall n', n' <> "DEFAULT-LAN" ->
        get_vrf (switch_configuration (world_after (remove_vrf "DEFAULT-LAN" new_world))) n'
        = get_vrf (switch_configuration new_world) n')
  /\ (get_vrf (switch_configuration new_world) "DEFAULT-LAN" = None ->
      world_after (remove_vrf "DEFAULT-LAN" new_world) = new_world).
Proof.
  apply (remove_vrf_get_vrf "DEFAULT-LAN" new_world).
  unfold vrf_names_unique. simpl. apply NoDup_singleton.
Defined.

(** The objects after the loop of [remove_vrf]: the ports of the list
    are detached, the others are as they were. *)
Lemma detach_vrf_idempotent (n : string) (o : PortObject) :
  detach_vrf n (detach_vrf n o) = detach_vrf n o.
Proof.
  unfold detach_vrf. destruct (Port.vrf (base_of o)) as [v|] eqn:E.
  - destruct (String.eqb (VRF.name v) n) eqn:En.
    + now destruct o.
    + now rewrite E, En.
  - now rewrite E.
Qed.

Lemma detach_vrf_all_lookup (n : string) (ports : list nat)
    (objs : list PortObject) (r : nat) :
  detach_vrf_all n ports objs !! r
  = if existsb (Nat.eqb r) ports then detach_vrf n <$> objs !! r else objs !! r.
Proof.
  revert objs. induction ports as [|q ports IH]; intros objs; simpl; [reflexivity|].
  rewrite IH. clear IH.
  destruct (Nat.eqb r q) eqn:E; simpl.
  - apply Nat.eqb_eq in E. subst q.
    destruct (objs !! r) as [o|] eqn:Hr.
    + rewrite list_lookup_insert_eq by now apply lookup_lt_Some in Hr.
      destruct (existsb (Nat.eqb r) ports); simpl;
        [now rewrite detach_vrf_idempotent|reflexivity].
    + rewrite Hr. now destruct (existsb (Nat.eqb r) ports).
  - apply Nat.eqb_neq in E.
    assert (Hl : (match objs !! q with
                  | Some o => <[q := detach_vrf n o]> objs
                  | None => objs
                  end) !! r = objs !! r).
    { destruct (objs !! q); [|reflexivity].
      now rewrite list_lookup_insert_ne by congruence. }
    now rewrite Hl.
Qed.

(** X9: after [remove_vrf] of a name that the collection has, no port of
    the configuration refers to a VRF of that name: each kept its object
    but for the [vrf] field, cleared where it had that name.  An object
    that the configuration does not list is as it was, whatever VRF it
    refers to. *)
Theorem remove_vrf_detaches (n : string) (w : World) (r : nat) (o' : PortObject) :
  get_vrf (switch_configuration w) n <> None ->
  port_objects (world_after (remove_vrf n w)) !! r = Some o' ->
  (In r (config_ports w) ->
   (exists o, port_objects w !! r = Some o /\ o' = detach_vrf n o)
   /\ forall v, Port.vrf (base_of o') = Some v -> VRF.name v <> n)
  /\ (~ In r (config_ports w) -> port_objects w !! r = Some o').
Proof.
  unfold remove_vrf, modify, config_ports. simpl.
  destruct (get_vrf (switch_configuration w) n) as [v0|]; [|congruence].
  intros _. simpl. rewrite detach_vrf_all_lookup. intros H. split.
  - intros Hin. rewrite (proj2 (existsb_eqb_In r _) Hin) in H.
    destruct (port_objects w !! r) as [o|]; [|discriminate].
    simpl in H. inversion H; subst o'. split; [now exists o|].
    intros v. unfold detach_vrf.
    destruct (Port.vrf (base_of o)) as [v1|] eqn:E.
    + destruct (String.eqb (VRF.name v1) n) eqn:En.
      * destruct o; simpl; discriminate.
      * rewrite E. intros Hv; inversion Hv; subst v1.
        now apply String.eqb_neq.
    + rewrite E. discriminate.
  - intros Hin. now rewrite (existsb_eqb_not_In r _ Hin) in H.
Qed.

Lemma remove_vrf_detaches_witness :
  (In 0%nat (config_ports vrf_world) ->
   (exists o, port_objects vrf_world !! 0%nat = Some o
              /\ PortInstance (Port.set_switch_configuration (Port.init "ethernet 1/1") true)
                 = detach_vrf "SOME-LAN" o)
   /\ forall v,
        Port.vrf (base_of (PortInstance
                             (Port.set_switch_configuration (Port.init "ethernet 1/1") true)))
        = Some v -> VRF.name v <> "SOME-LAN")
  /\ (~ In 0%nat (config_ports vrf_world) ->
      port_objects vrf_world !! 0%nat
      = Some (PortInstance (Port.set_switch_configuration (Port.init "ethernet 1/1") true))).
Proof.
  apply (remove_vrf_detaches "SOME-LAN" vrf_world 0
           (PortInstance (Port.set_switch_configuration (Port.init "ethernet 1/1") true))).
  - discriminate.
  - reflexivity.
Defined.

(** ** [get_port_and_ip_by_ip], continued *)

Lemma find_network_None_iff (a : netaddr.IPAddress) (ips : list netaddr.IPNetwork) :
  find_network a ips = None
  <-> forall x, In x ips -> netaddr.contains_address x a = false.
Proof.
  unfold find_network. induction ips as [|ip ips IH]; simpl.
  - split; [intros _ x []|reflexivity].
  - destruct (netaddr.contains_address ip a) eqn:C.
    + split; [discriminate|]. intros H. rewrite (H ip) in C by now left.
      discriminate.
    + rewrite IH. split.
      * intros H x [<-|Hx]; [exact C|now apply H].
      * intros H x Hx. apply H. now right.
Qed.

Lemma find_network_Some (a : netaddr.IPAddress) (ips : list netaddr.IPNetwork)
    (x : netaddr.IPNetwork) :
  find_network a ips = Some x ->
  In x ips /\ netaddr.contains_address x a = true.
Proof.
  unfold find_network. intros H. now apply List.find_some in H.
Qed.

Lemma scan_ports_None_intro (objs : list PortObject) (a : netaddr.IPAddress)
    (ports : list nat) :
  (forall p b e, In p ports -> objs !! p = Some (VlanPortInstance b e) ->
                 find_network a (VlanPort.ips e) = None) ->
  scan_ports objs a ports = None.
Proof.
  induction ports as [|q ports IH]; intros H; [reflexivity|].
  cbn [scan_ports].
  destruct (objs !! q) as [[b|b e|b e]|] eqn:Hq; simpl;
    try (apply IH; intros p b' e' Hp; apply H; now right).
  rewrite (H q b e) by (try exact Hq; now left).
  apply IH. intros p b' e' Hp. apply H. now right.
Qed.

(** X10: [get_port_and_ip_by_ip] answers nothing exactly when no
    VlanPort of the configuration has a primary network that holds the
    address; a pair it answers is a VlanPort of the configuration with
    one of its primary networks, one that holds the address. *)
Theorem get_port_and_ip_by_ip_spec (w : World) (a : netaddr.IPAddress) :
  (get_port_and_ip_by_ip w a = None
   <-> forall p b e x,
         In p (config_ports w) ->
         port_objects w !! p = Some (VlanPortInstance b e) ->
         In x (VlanPort.ips e) ->
         netaddr.contains_address x a = false)
  /\ (forall p x,
        get_port_and_ip_by_ip w a = Some (p, x) ->
        In p (config_ports w)
        /\ exists b e,
             port_objects w !! p = Some (VlanPortInstance b e)
             /\ In x (VlanPort.ips e)
             /\ netaddr.contains_address x a = true).
Proof.
  unfold get_port_and_ip_by_ip, config_ports. split; [split|].
  - intros H p b e x Hp Ho Hx.
    pose proof (scan_ports_None _ _ _ _ _ _ H Hp Ho) as Hn.
    now apply (proj1 (find_network_None_iff a _) Hn).
  - intros H. apply scan_ports_None_intro. intros p b e Hp Ho.
    apply find_network_None_iff. intros x Hx. now apply (H p b e x).
  - intros p x H. apply scan_ports_Some in H as (Hp & b & e & Ho & Hf).
    split; [exact Hp|]. exists b, e. split; [exact Ho|].
    now apply find_network_Some.
Qed.

Lemma scan_ports_same_ips (objs : list PortObject) (a : netaddr.IPAddress)
    (ports : list nat) (p : nat) (b : Port.t) (e e' : VlanPort.t) :
  objs !! p = Some (VlanPortInstance b e) ->
  VlanPort.ips e' = VlanPort.ips e ->
  scan_ports (<[p := VlanPortInstance b e']> objs) a ports = scan_ports objs a ports.
Proof.
  intros Hp Hi. induction ports as [|q ports IH]; [reflexivity|].
  cbn [scan_ports]. rewrite IH.
  destruct (decide (q = p)) as [->|Hne].
  - rewrite list_lookup_insert_eq by now apply lookup_lt_Some in Hp.
    rewrite Hp. simpl. now rewrite Hi.
  - now rewrite list_lookup_insert_ne by congruence.
Qed.

(** X11: the lookup reads the primaries only: whatever the secondaries
    of a port become, every lookup answers as before, so an address that
    a port has as a secondary only is not found. *)
Theorem secondaries_not_looked_up (w : World) (p : nat) (b : Port.t)
    (e : VlanPort.t) (secondaries : list netaddr.IPNetwork) (a : netaddr.IPAddress) :
  port_objects w !! p = Some (VlanPortInstance b e) ->
  get_port_and_ip_by_ip
    (store_vlan_port w p b (VlanPort.set_secondary_ips e secondaries)) a
  = get_port_and_ip_by_ip w a.
Proof.
  intros Hp. unfold get_port_and_ip_by_ip. simpl.
  now apply scan_ports_same_ips with (e := e).
Qed.

Lemma secondaries_not_looked_up_witness :
  get_port_and_ip_by_ip
    (store_vlan_port two_port_world 0
       (Port.set_switch_configuration (Port.init "ve 1") true)
       (VlanPort.set_secondary_ips (VlanPort.init 1) [netaddr.mkIPNetwork 167772165 24]))
    167772165
  = get_port_and_ip_by_ip two_port_world 167772165.
Proof.
  apply (secondaries_not_looked_up two_port_world 0
           (Port.set_switch_configuration (Port.init "ve 1") true)
           (VlanPort.init 1)).
  reflexivity.
Defined.

(** ** The address lists of a VlanPort *)

Lemma list_index_found {A} (eqb : A -> A -> bool) (x : A) (l : list A) :
  (forall y, eqb y y = true) -> In x l ->
  exists i, list_index eqb x l = Some i /\ (i < length l)%nat.
Proof.
  intros Hrefl. induction l as [|y l IH]; simpl; [intros []|].
  intros Hin. destruct (eqb y x) eqn:E.
  - exists 0%nat. split; [reflexivity|lia].
  - destruct Hin as [->|Hin]; [rewrite Hrefl in E; discriminate|].
    destruct (IH Hin) as (i & -> & Hi). exists (S i). split; [reflexivity|lia].
Qed.

(** X12: [add_ip] never fails; afterwards the network is among the
    primaries, the secondaries are untouched, and the list of primaries
    is one longer exactly when no primary had the address before. *)
Theorem add_ip_total (e : VlanPort.t) (n : netaddr.IPNetwork) :
  exists e',
    VlanPort.add_ip e n = Some e'
    /\ In n (VlanPort.ips e')
    /\ VlanPort.secondary_ips e' = VlanPort.secondary_ips e
    /\ length (VlanPort.ips e')
       = (length (VlanPort.ips e)
          + if existsb (VlanPort.same_address n) (VlanPort.ips e) then 0 else 1)%nat.
Proof.
  unfold VlanPort.add_ip.
  destruct (List.find (VlanPort.same_address n) (VlanPort.ips e)) as [x|] eqn:F.
  - pose proof (List.find_some _ _ F) as [Hx Hs].
    destruct (list_index_found netaddr.network_eqb x (VlanPort.ips e)
                network_eqb_refl Hx) as (i & Hi & Hlt).
    rewrite Hi. eexists. split; [reflexivity|]. simpl.
    split; [|split; [reflexivity|]].
    + apply list_elem_of_In. apply list_elem_of_lookup. exists i.
      now apply list_lookup_insert_eq.
    + rewrite length_insert.
      assert (Hex : existsb (VlanPort.same_address n) (VlanPort.ips e) = true).
      { apply existsb_exists. now exists x. }
      rewrite Hex. lia.
  - eexists. split; [reflexivity|]. simpl.
    split; [|split; [reflexivity|]].
    + apply in_or_app. right. now left.
    + assert (Hex : existsb (VlanPort.same_address n) (VlanPort.ips e) = false).
      { destruct (existsb _ _) eqn:E; [|reflexivity].
        apply existsb_exists in E as (y & Hy & Hs).
        now rewrite (List.find_none _ _ F y Hy) in Hs. }
      rewrite Hex, length_app. simpl. lia.
Qed.

Lemma remove_first_snoc {A} (f : A -> bool) (l : list A) (x : A) :
  existsb f l = false -> f x = true -> remove_first f (l ++ [x]) = l.
Proof.
  intros H Hx. rewrite (remove_first_middle f l [] x H Hx). apply app_nil_r.
Qed.

(** X13: adding a primary whose address no primary has and removing it
    again gives the port back. *)
Theorem add_remove_ip (e : VlanPort.t) (n : netaddr.IPNetwork) :
  existsb (VlanPort.same_address n) (VlanPort.ips e) = false ->
  exists e',
    VlanPort.add_ip e n = Some e'
    /\ VlanPort.ips e' = VlanPort.ips e ++ [n]
    /\ VlanPort.remove_ip e' n = e.
Proof.
  intros H. unfold VlanPort.add_ip.
  assert (F : List.find (VlanPort.same_address n) (VlanPort.ips e) = None).
  { destruct (List.find _ _) as [x|] eqn:F; [|reflexivity].
    apply List.find_some in F as [Hx Hs].
    assert (existsb (VlanPort.same_address n) (VlanPort.ips e) = true)
      by (apply existsb_exists; now exists x).
    congruence. }
  rewrite F. eexists. split; [reflexivity|]. split; [reflexivity|].
  unfold VlanPort.remove_ip. simpl.
  rewrite (remove_first_snoc _ _ n H (same_address_refl n)).
  now destruct e.
Qed.

Lemma add_remove_ip_witness :
  exists e',
    VlanPort.add_ip (VlanPort.init 1) (netaddr.mkIPNetwork 167772161 24) = Some e'
    /\ VlanPort.ips e' = VlanPort.ips (VlanPort.init 1) ++ [netaddr.mkIPNetwork 167772161 24]
    /\ VlanPort.remove_ip e' (netaddr.mkIPNetwork 167772161 24) = VlanPort.init 1.
Proof.
  apply (add_remove_ip (VlanPort.init 1) (netaddr.mkIPNetwork 167772161 24)).
  reflexivity.
Defined.

(** X14: [remove_secondary_ip] never fails: the secondary that has the
    address is in the list that [list.remove] searches.  Without a
    secondary with the address it changes nothing. *)
Theorem remove_secondary_ip_total (e : VlanPort.t) (d : netaddr.IPNetwork) :
  (exists e',
     VlanPort.remove_secondary_ip e d = Some e'
     /\ VlanPort.ips e' = VlanPort.ips e
     /\ (length (VlanPort.secondary_ips e')
         = length (VlanPort.secondary_ips e)
           - if existsb (VlanPort.same_address d) (VlanPort.secondary_ips e)
             then 1 else 0)%nat)
  /\ (existsb (VlanPort.same_address d) (VlanPort.secondary_ips e) = false ->
      VlanPort.remove_secondary_ip e d = Some e).
Proof.
  unfold VlanPort.remove_secondary_ip, list_remove.
  destruct (List.find (VlanPort.same_address d) (VlanPort.secondary_ips e))
    as [x|] eqn:F.
  - pose proof (List.find_some _ _ F) as [Hx Hs].
    assert (Hex : existsb (VlanPort.same_address d) (VlanPort.secondary_ips e) = true)
      by (apply existsb_exists; now exists x).
    assert (Hq : existsb (fun y => netaddr.network_eqb y x) (VlanPort.secondary_ips e)
                 = true).
    { apply existsb_exists. exists x. split; [exact Hx|apply network_eqb_refl]. }
    rewrite Hq, Hex. split; [|discriminate].
    eexists. split; [reflexivity|]. split; [reflexivity|]. simpl.
    clear -Hq. induction (VlanPort.secondary_ips e) as [|y l IH]; simpl in *;
      [discriminate|].
    destruct (netaddr.network_eqb y x); simpl; [lia|].
    simpl in Hq. specialize (IH Hq).
    destruct l; simpl in *; [discriminate|lia].
  - assert (Hex : existsb (VlanPort.same_address d) (VlanPort.secondary_ips e) = false).
    { destruct (existsb _ _) eqn:E; [|reflexivity].
      apply existsb_exists in E as (y & Hy & Hs).
      now rewrite (List.find_none _ _ F y Hy) in Hs. }
    rewrite Hex. split; [|reflexivity].
    exists e. split; [reflexivity|]. split; [reflexivity|lia].
Qed.

(** X15: adding a secondary and removing it again gives the port back,
    when no secondary had its address or its network before. *)
Theorem add_remove_secondary_ip (e : VlanPort.t) (n : netaddr.IPNetwork) :
  existsb (VlanPort.same_address n) (VlanPort.secondary_ips e) = false ->
  existsb (fun ip => netaddr.network_eqb ip n) (VlanPort.secondary_ips e) = false ->
  VlanPort.remove_secondary_ip (VlanPort.add_secondary_ip e n) n = Some e.
Proof.
  intros Hs Hq. unfold VlanPort.remove_secondary_ip, list_remove,
    VlanPort.add_secondary_ip. simpl.
  rewrite (find_middle _ _ [] n Hs (same_address_refl n)).
  rewrite (existsb_middle (fun y => netaddr.network_eqb y n) _ [] n
             (network_eqb_refl n)).
  rewrite (remove_first_snoc (fun y => netaddr.network_eqb y n) _ n Hq
             (network_eqb_refl n)).
  now destruct e.
Qed.

Lemma add_remove_secondary_ip_witness :
  VlanPort.remove_secondary_ip
    (VlanPort.add_secondary_ip (VlanPort.init 1) (netaddr.mkIPNetwork 167772165 24))
    (netaddr.mkIPNetwork 167772165 24)
  = Some (VlanPort.init 1).
Proof.
  apply (add_remove_secondary_ip (VlanPort.init 1) (netaddr.mkIPNetwork 167772165 24));
    reflexivity.
Defined.

(** X16: [remove_secondary_ip] finds the secondary by its address but
    removes by network equality: when an earlier secondary lies in the
    same network, it is that one which goes, and the one with the address
    stays. *)
Theorem remove_secondary_ip_removes_first_of_network (e : VlanPort.t)
    (d x y : netaddr.IPNetwork) (s1 s2 : list netaddr.IPNetwork) :
  VlanPort.secondary_ips e = s1 ++ x :: s2 ->
  List.find (VlanPort.same_address d) (VlanPort.secondary_ips e) = Some y ->
  existsb (fun ip => netaddr.network_eqb ip y) s1 = false ->
  netaddr.network_eqb x y = true ->
  VlanPort.same_address d x = false ->
  VlanPort.remove_secondary_ip e d
  = Some (VlanPort.set_secondary_ips e (s1 ++ s2))
  /\ In y (s1 ++ s2).
Proof.
  intros He Hf Hs1 Hxy Hdx. split.
  - unfold VlanPort.remove_secondary_ip, list_remove. rewrite Hf, He.
    rewrite (existsb_middle (fun ip => netaddr.network_eqb ip y) s1 s2 x Hxy).
    now rewrite (remove_first_middle (fun ip => netaddr.network_eqb ip y) s1 s2 x
                   Hs1 Hxy).
  - apply List.find_some in Hf as [Hy Hdy]. rewrite He in Hy.
    apply in_app_or in Hy as [Hy|[Hy|Hy]].
    + apply in_or_app. now left.
    + subst y. congruence.
    + apply in_or_app. now right.
Qed.

Lemma remove_secondary_ip_removes_first_of_network_witness :
  VlanPort.remove_secondary_ip
    (VlanPort.set_secondary_ips (VlanPort.init 1)
       [netaddr.mkIPNetwork 167772165 24; netaddr.mkIPNetwork 167772166 24])
    (netaddr.mkIPNetwork 167772166 24)
  = Some (VlanPort.set_secondary_ips
            (VlanPort.set_secondary_ips (VlanPort.init 1)
               [netaddr.mkIPNetwork 167772165 24; netaddr.mkIPNetwork 167772166 24])
            ([] ++ [netaddr.mkIPNetwork 167772166 24]))
  /\ In (netaddr.mkIPNetwork 167772166 24) ([] ++ [netaddr.mkIPNetwork 167772166 24]).
Proof.
  apply (remove_secondary_ip_removes_first_of_network
           (VlanPort.set_secondary_ips (VlanPort.init 1)
              [netaddr.mkIPNetwork 167772165 24; netaddr.mkIPNetwork 167772166 24])
           (netaddr.mkIPNetwork 167772166 24)
           (netaddr.mkIPNetwork 167772165 24)
           (netaddr.mkIPNetwork 167772166 24)
           [] [netaddr.mkIPNetwork 167772166 24]);
    reflexivity.
Defined.

(* ===================================================================== *)
(** * Further properties of config_virtual_interface.py *)
(* ===================================================================== *)

(** ** Keywords and missing arguments *)

(** X17: a first argument that abbreviates none of the three keywords is
    ignored without a line, by [do_ip] and by [do_no_ip]. *)
Theorem unknown_keyword_ignored (self : t) (a0 : string) (rest : list string)
    (w : World) :
  PyStr.startswith "address" a0 = false ->
  PyStr.startswith "access-group" a0 = false ->
  PyStr.startswith "vrrp-extended" a0 = false ->
  do_ip self (a0 :: rest) w = Return tt w
  /\ do_no_ip self (a0 :: rest) w = Return tt w.
Proof.
  intros H1 H2 H3. unfold do_ip, do_no_ip, arg, bind, when.
  cbn -[PyStr.startswith]. now rewrite H1, H2, H3.
Qed.

Lemma unknown_keyword_ignored_witness :
  do_ip ve1 ["helper-address"; "10.0.0.1"] two_port_world = Return tt two_port_world
  /\ do_no_ip ve1 ["helper-address"; "10.0.0.1"] two_port_world
     = Return tt two_port_world.
Proof.
  apply (unknown_keyword_ignored ve1 "helper-address" ["10.0.0.1"] two_port_world);
    reflexivity.
Defined.

(** X18: when the argument after a keyword is missing, [do_ip] raises
    [IndexError]: it writes no line and changes nothing.  So does a call
    without any argument, of [do_ip] as of [do_no_ip]. *)
Theorem do_ip_missing_argument (self : t) (w : World) (name : string) :
  do_ip self [] w = Raise IndexError w
  /\ do_no_ip self [] w = Raise IndexError w
  /\ do_ip self ["address"] w = Raise IndexError w
  /\ do_ip self ["access-group"; name] w = Raise IndexError w
  /\ do_ip self ["vrrp-extended"] w = Raise IndexError w
  /\ do_ip self ["vrrp-extended"; "vrid"] w = Raise IndexError w
  /\ do_ip self ["vrrp-extended"; "auth-type"] w = Raise IndexError w
  /\ do_ip self ["vrrp-extended"; "auth-type"; "simple-text-auth"] w
     = Raise IndexError w.
Proof. repeat split. Qed.

(** ** Access groups *)

Lemma do_ip_access_group_only (self : t) (rest : list string) (w : World) :
  do_ip self ("access-group" :: rest) w
  = do_ip_access_group self ("access-group" :: rest) w.
Proof.
  unfold do_ip, arg, when, bind. simpl.
  now destruct (do_ip_access_group self _ w) as [[] ?|? ?].
Qed.

Lemma do_no_ip_access_group_only (self : t) (rest : list string) (w : World) :
  do_no_ip self ("access-group" :: rest) w
  = do_no_ip_access_group self ("access-group" :: rest) w.
Proof.
  unfold do_no_ip, arg, when, bind. simpl.
  now destruct (do_no_ip_access_group self _ w) as [[] ?|? ?].
Qed.

Lemma do_ip_access_group_in (self : t) (name dir : string) (w : World)
    (b : Port.t) (e : VlanPort.t) :
  port_objects w !! port self = Some (VlanPortInstance b e) ->
  PyStr.startswith "in" dir = true ->
  do_ip self ["access-group"; name; dir] w
  = Return tt (store_vlan_port w (port self) b
                 (VlanPort.set_access_group_in e (Some name))).
Proof.
  intros Hp Hd. rewrite do_ip_access_group_only.
  unfold do_ip_access_group, arg, bind. cbn -[PyStr.startswith vlan_port update_vlan_port].
  rewrite Hd. cbn -[PyStr.startswith vlan_port update_vlan_port].
  rewrite (vlan_port_eq _ _ _ _ Hp).
  now apply update_vlan_port_eq with (e := e).
Qed.

Lemma do_ip_access_group_out (self : t) (name dir : string) (w : World)
    (b : Port.t) (e : VlanPort.t) :
  port_objects w !! port self = Some (VlanPortInstance b e) ->
  PyStr.startswith "in" dir = false ->
  PyStr.startswith "out" dir = true ->
  do_ip self ["access-group"; name; dir] w
  = Return tt (store_vlan_port w (port self) b
                 (VlanPort.set_access_group_out e (Some name))).
Proof.
  intros Hp Hi Hd. rewrite do_ip_access_group_only.
  unfold do_ip_access_group, arg, bind. cbn -[PyStr.startswith vlan_port update_vlan_port].
  rewrite Hi, Hd. cbn -[PyStr.startswith vlan_port update_vlan_port].
  rewrite (vlan_port_eq _ _ _ _ Hp).
  now apply update_vlan_port_eq with (e := e).
Qed.

Lemma do_no_ip_access_group_in (self : t) (name dir : string) (w : World)
    (b : Port.t) (e : VlanPort.t) :
  port_objects w !! port self = Some (VlanPortInstance b e) ->
  PyStr.startswith "in" dir = true ->
  do_no_ip self ["access-group"; name; dir] w
  = if bool_decide (VlanPort.access_group_in e = Some name)
    then Return tt (store_vlan_port w (port self) b
                      (VlanPort.set_access_group_in e None))
    else Return tt (wrote w (wrong_access_list_name name)).
Proof.
  intros Hp Hd. rewrite do_no_ip_access_group_only.
  unfold do_no_ip_access_group, arg, bind. cbn -[PyStr.startswith bool_decide vlan_port update_vlan_port].
  rewrite Hd. cbn -[PyStr.startswith bool_decide vlan_port update_vlan_port].
  rewrite (vlan_port_eq _ _ _ _ Hp).
  case_bool_decide; [|reflexivity].
  now apply update_vlan_port_eq with (e := e).
Qed.

Lemma do_no_ip_access_group_out (self : t) (name dir : string) (w : World)
    (b : Port.t) (e : VlanPort.t) :
  port_objects w !! port self = Some (VlanPortInstance b e) ->
  PyStr.startswith "in" dir = false ->
  PyStr.startswith "out" dir = true ->
  do_no_ip self ["access-group"; name; dir] w
  = if bool_decide (VlanPort.access_group_out e = Some name)
    then Return tt (store_vlan_port w (port self) b
                      (VlanPort.set_access_group_out e None))
    else Return tt (wrote w (wrong_access_list_name name)).
Proof.
  intros Hp Hi Hd. rewrite do_no_ip_access_group_only.
  unfold do_no_ip_access_group, arg, bind. cbn -[PyStr.startswith bool_decide vlan_port update_vlan_port].
  rewrite Hi, Hd. cbn -[PyStr.startswith bool_decide vlan_port update_vlan_port].
  rewrite (vlan_port_eq _ _ _ _ Hp).
  case_bool_decide; [|reflexivity].
  now apply update_vlan_port_eq with (e := e).
Qed.

(** X19: [ip access-group NAME in] sets the inbound group and leaves the
    outbound one, and [no ip access-group NAME in] then clears it without
    a line; the same holds for [out] with the two groups exchanged.  The
    direction may be abbreviated. *)
Theorem access_group_set_then_cleared (self : t) (name dir : string) (w : World)
    (b : Port.t) (e : VlanPort.t) :
  port_objects w !! port self = Some (VlanPortInstance b e) ->
  (PyStr.startswith "in" dir = true ->
   exists w1 w2,
     do_ip self ["access-group"; name; dir] w = Return tt w1
     /\ vlan_fields w1 (port self) = Some (VlanPort.set_access_group_in e (Some name))
     /\ do_no_ip self ["access-group"; name; dir] w1 = Return tt w2
     /\ vlan_fields w2 (port self) = Some (VlanPort.set_access_group_in e None)
     /\ written w2 = written w)
  /\ (PyStr.startswith "in" dir = false -> PyStr.startswith "out" dir = true ->
      exists w1 w2,
        do_ip self ["access-group"; name; dir] w = Return tt w1
        /\ vlan_fields w1 (port self) = Some (VlanPort.set_access_group_out e (Some name))
        /\ do_no_ip self ["access-group"; name; dir] w1 = Return tt w2
        /\ vlan_fields w2 (port self) = Some (VlanPort.set_access_group_out e None)
        /\ written w2 = written w).
Proof.
  intros Hp.
  assert (Hlt : (port self < length (port_objects w))%nat)
    by now apply lookup_lt_Some in Hp.
  split.
  - intros Hd.
    pose proof (store_vlan_port_lookup w (port self) b e
                  (VlanPort.set_access_group_in e (Some name)) Hp) as Hp1.
    do 2 eexists.
    split; [exact (do_ip_access_group_in self name dir w b e Hp Hd)|].
    split; [unfold vlan_fields; now rewrite Hp1|].
    split.
    + rewrite (do_no_ip_access_group_in self name dir _ b _ Hp1 Hd). simpl.
      rewrite bool_decide_eq_true_2 by reflexivity. reflexivity.
    + split; [|reflexivity]. unfold vlan_fields, store_vlan_port. simpl.
      rewrite list_lookup_insert_eq by now rewrite length_insert. reflexivity.
  - intros Hi Hd.
    pose proof (store_vlan_port_lookup w (port self) b e
                  (VlanPort.set_access_group_out e (Some name)) Hp) as Hp1.
    do 2 eexists.
    split; [exact (do_ip_access_group_out self name dir w b e Hp Hi Hd)|].
    split; [unfold vlan_fields; now rewrite Hp1|].
    split.
    + rewrite (do_no_ip_access_group_out self name dir _ b _ Hp1 Hi Hd). simpl.
      rewrite bool_decide_eq_true_2 by reflexivity. reflexivity.
    + split; [|reflexivity]. unfold vlan_fields, store_vlan_port. simpl.
      rewrite list_lookup_insert_eq by now rewrite length_insert. reflexivity.
Qed.

Lemma access_group_set_then_cleared_witness :
  (PyStr.startswith "in" "in" = true ->
   exists w1 w2,
     do_ip ve1 ["access-group"; "ACL1"; "in"] two_port_world = Return tt w1
     /\ vlan_fields w1 (port ve1)
        = Some (VlanPort.set_access_group_in (VlanPort.init 1) (Some "ACL1"))
     /\ do_no_ip ve1 ["access-group"; "ACL1"; "in"] w1 = Return tt w2
     /\ vlan_fields w2 (port ve1)
        = Some (VlanPort.set_access_group_in (VlanPort.init 1) None)
     /\ written w2 = written two_port_world)
  /\ (PyStr.startswith "in" "in" = false -> PyStr.startswith "out" "in" = true ->
      exists w1 w2,
        do_ip ve1 ["access-group"; "ACL1"; "in"] two_port_world = Return tt w1
        /\ vlan_fields w1 (port ve1)
           = Some (VlanPort.set_access_group_out (VlanPort.init 1) (Some "ACL1"))
        /\ do_no_ip ve1 ["access-group"; "ACL1"; "in"] w1 = Return tt w2
        /\ vlan_fields w2 (port ve1)
           = Some (VlanPort.set_access_group_out (VlanPort.init 1) None)
        /\ written w2 = written two_port_world).
Proof.
  apply (access_group_set_then_cleared ve1 "ACL1" "in" two_port_world
           (Port.set_switch_configuration (Port.init "ve 1") true) (VlanPort.init 1)).
  reflexivity.
Defined.

(** X20: [no ip access-group NAME in] for a name that is not the inbound
    group of the port writes the wrong-name error with NAME and changes
    no object; the same holds for [out] and the outbound group.  Without
    a direction the error is written whatever the groups are. *)
Theorem no_access_group_wrong_name (self : t) (name dir : string) (w : World)
    (b : Port.t) (e : VlanPort.t) :
  port_objects w !! port self = Some (VlanPortInstance b e) ->
  (PyStr.startswith "in" dir = true ->
   VlanPort.access_group_in e <> Some name ->
   do_no_ip self ["access-group"; name; dir] w
   = Return tt (wrote w ("Error: Wrong Access List Name " +:+ name)))
  /\ (PyStr.startswith "in" dir = false -> PyStr.startswith "out" dir = true ->
      VlanPort.access_group_out e <> Some name ->
      do_no_ip self ["access-group"; name; dir] w
      = Return tt (wrote w ("Error: Wrong Access List Name " +:+ name)))
  /\ do_no_ip self ["access-group"; name] w
     = Return tt (wrote w ("Error: Wrong Access List Name " +:+ name)).
Proof.
  intros Hp. split; [|split].
  - intros Hd Hne. rewrite (do_no_ip_access_group_in self name dir w b e Hp Hd).
    now rewrite bool_decide_eq_false_2 by exact Hne.
  - intros Hi Hd Hne.
    rewrite (do_no_ip_access_group_out self name dir w b e Hp Hi Hd).
    now rewrite bool_decide_eq_false_2 by exact Hne.
  - rewrite do_no_ip_access_group_only. reflexivity.
Qed.

Lemma no_access_group_wrong_name_witness :
  (PyStr.startswith "in" "in" = true ->
   VlanPort.access_group_in (VlanPort.set_access_group_in (VlanPort.init 1) (Some "ACL2"))
   <> Some "ACL1" ->
   do_no_ip ve1 ["access-group"; "ACL1"; "in"]
     (store_vlan_port two_port_world 0
        (Port.set_switch_configuration (Port.init "ve 1") true)
        (VlanPort.set_access_group_in (VlanPort.init 1) (Some "ACL2")))
   = Return tt
       (wrote (store_vlan_port two_port_world 0
                 (Port.set_switch_configuration (Port.init "ve 1") true)
                 (VlanPort.set_access_group_in (VlanPort.init 1) (Some "ACL2")))
          ("Error: Wrong Access List Name " +:+ "ACL1")))
  /\ (PyStr.startswith "in" "in" = false -> PyStr.startswith "out" "in" = true ->
      VlanPort.access_group_out
        (VlanPort.set_access_group_in (VlanPort.init 1) (Some "ACL2")) <> Some "ACL1" ->
      do_no_ip ve1 ["access-group"; "ACL1"; "in"]
        (store_vlan_port two_port_world 0
           (Port.set_switch_configuration (Port.init "ve 1") true)
           (VlanPort.set_access_group_in (VlanPort.init 1) (Some "ACL2")))
      = Return tt
          (wrote (store_vlan_port two_port_world 0
                    (Port.set_switch_configuration (Port.init "ve 1") true)
                    (VlanPort.set_access_group_in (VlanPort.init 1) (Some "ACL2")))
             ("Error: Wrong Access List Name " +:+ "ACL1")))
  /\ do_no_ip ve1 ["access-group"; "ACL1"]
       (store_vlan_port two_port_world 0
          (Port.set_switch_configuration (Port.init "ve 1") true)
          (VlanPort.set_access_group_in (VlanPort.init 1) (Some "ACL2")))
     = Return tt
         (wrote (store_vlan_port two_port_world 0
                   (Port.set_switch_configuration (Port.init "ve 1") true)
                   (VlanPort.set_access_group_in (VlanPort.init 1) (Some "ACL2")))
            ("Error: Wrong Access List Name " +:+ "ACL1")).
Proof.
  apply (no_access_group_wrong_name ve1 "ACL1" "in"
           (store_vlan_port two_port_world 0
              (Port.set_switch_configuration (Port.init "ve 1") true)
              (VlanPort.set_access_group_in (VlanPort.init 1) (Some "ACL2")))
           (Port.set_switch_configuration (Port.init "ve 1") true)
           (VlanPort.set_access_group_in (VlanPort.init 1) (Some "ACL2"))).
  reflexivity.
Defined.

(** ** [ip address], continued *)

Lemma same_address_sym (n ip : netaddr.IPNetwork) :
  netaddr.address_eqb (netaddr.ip n) (netaddr.ip ip) = VlanPort.same_address n ip.
Proof. unfold VlanPort.same_address, netaddr.address_eqb. apply Z.eqb_sym. Qed.

(** Without the [secondary] keyword and without a primary that has the
    address, the loop stops at the first primary that holds the address
    with the one-primary-per-subnet error. *)
Lemma address_loop_one_primary (self : t) (args : list string)
    (n x : netaddr.IPNetwork) (ips : list netaddr.IPNetwork) (w : World) :
  asks_secondary args = false ->
  find_network (netaddr.ip n) ips = Some x ->
  existsb (VlanPort.same_address n) ips = false ->
  address_loop self args n ips w = Return tt (wrote w Errno15).
Proof.
  intros Ha. unfold find_network.
  induction ips as [|ip ips IH]; simpl; [discriminate|].
  intros Hf Hs. apply orb_false_iff in Hs as [Hs1 Hs2].
  rewrite same_address_sym, Hs1.
  destruct (netaddr.contains_address ip (netaddr.ip n)).
  - now rewrite Ha.
  - now apply IH.
Qed.

(** With the [secondary] keyword, without a primary that has the address
    and with a secondary that has it, the loop stops at the first primary
    that holds the address with the duplicate error. *)
Lemma address_loop_secondary_duplicate (self : t) (args : list string)
    (n x : netaddr.IPNetwork) (ips : list netaddr.IPNetwork) (w : World)
    (b : Port.t) (e : VlanPort.t) :
  asks_secondary args = true ->
  find_network (netaddr.ip n) ips = Some x ->
  existsb (VlanPort.same_address n) ips = false ->
  port_objects w !! port self = Some (VlanPortInstance b e) ->
  existsb (VlanPort.same_address n) (VlanPort.secondary_ips e) = true ->
  address_loop self args n ips w = Return tt (wrote w Errno6).
Proof.
  intros Ha Hf Hs Hp Hsec. unfold find_network in Hf.
  induction ips as [|ip ips IH]; simpl in *; [discriminate|].
  apply orb_false_iff in Hs as [Hs1 Hs2].
  rewrite same_address_sym, Hs1.
  destruct (netaddr.contains_address ip (netaddr.ip n)).
  - rewrite Ha. rewrite (bind_Return _ _ _ _ _ (vlan_port_eq _ _ _ _ Hp)).
    now rewrite Hsec.
  - now apply IH.
Qed.

Lemma do_ip_address_own (self : t) (a : string) (rest : list string)
    (n x : netaddr.IPNetwork) (w : World) (b : Port.t) (e : VlanPort.t) :
  netaddr.IPNetwork_of_string a = Some n ->
  port_objects w !! port self = Some (VlanPortInstance b e) ->
  get_port_and_ip_by_ip w (netaddr.ip n) = Some (port self, x) ->
  do_ip self ("address" :: a :: rest) w
  = address_loop self ("address" :: a :: rest) n (VlanPort.ips e) w
  /\ find_network (netaddr.ip n) (VlanPort.ips e) = Some x.
Proof.
  intros Hn Hp Hs. split.
  - rewrite do_ip_address_only.
    unfold do_ip_address, arg, IPNetwork. simpl. unfold bind at 1. simpl.
    rewrite Hn. unfold bind at 1. simpl. unfold bind at 1. simpl.
    rewrite Hs, Nat.eqb_refl.
    now rewrite (bind_Return _ _ _ _ _ (vlan_port_eq _ _ _ _ Hp)).
  - apply scan_ports_Some in Hs as (_ & b' & e' & Hp' & Hf).
    rewrite Hp in Hp'. now inversion Hp'; subst.
Qed.

(** X21: on a port that owns a network holding the address but has no
    primary with the address itself, [ip address A] without [secondary]
    writes the one-primary-per-subnet error and changes no object. *)
Theorem one_primary_per_subnet (self : t) (a : string) (n x : netaddr.IPNetwork)
    (w : World) (b : Port.t) (e : VlanPort.t) :
  netaddr.IPNetwork_of_string a = Some n ->
  port_objects w !! port self = Some (VlanPortInstance b e) ->
  get_port_and_ip_by_ip w (netaddr.ip n) = Some (port self, x) ->
  existsb (VlanPort.same_address n) (VlanPort.ips e) = false ->
  do_ip self ["address"; a] w
  = Return tt
      (wrote w "IP/Port: Errno(15) Can only assign one primary ip address per subnet").
Proof.
  intros Hn Hp Hs Hne.
  destruct (do_ip_address_own self a [] n x w b e Hn Hp Hs) as [-> Hf].
  now apply (address_loop_one_primary self _ n x).
Qed.

Lemma one_primary_per_subnet_witness :
  do_ip ve1 ["address"; "10.0.0.2/24"]
    (world_after (do_ip ve1 ["address"; "10.0.0.1/24"] two_port_world))
  = Return tt
      (wrote (world_after (do_ip ve1 ["address"; "10.0.0.1/24"] two_port_world))
         "IP/Port: Errno(15) Can only assign one primary ip address per subnet").
Proof.
  apply (one_primary_per_subnet ve1 "10.0.0.2/24"
           (netaddr.mkIPNetwork 167772162 24) (netaddr.mkIPNetwork 167772161 24)
           (world_after (do_ip ve1 ["address"; "10.0.0.1/24"] two_port_world))
           (Port.set_switch_configuration (Port.init "ve 1") true)
           (VlanPort.set_ips (VlanPort.init 1) [netaddr.mkIPNetwork 167772161 24]));
    reflexivity.
Defined.

(** X22: on a port that owns a network holding the address and has a
    secondary with the address, [ip address A secondary] writes the
    duplicate error and changes no object. *)
Theorem secondary_duplicate_rejected (self : t) (a : string)
    (n x : netaddr.IPNetwork) (w : World) (b : Port.t) (e : VlanPort.t) :
  netaddr.IPNetwork_of_string a = Some n ->
  port_objects w !! port self = Some (VlanPortInstance b e) ->
  get_port_and_ip_by_ip w (netaddr.ip n) = Some (port self, x) ->
  existsb (VlanPort.same_address n) (VlanPort.ips e) = false ->
  existsb (VlanPort.same_address n) (VlanPort.secondary_ips e) = true ->
  do_ip self ["address"; a; "secondary"] w
  = Return tt (wrote w "IP/Port: Errno(6) Duplicate ip address").
Proof.
  intros Hn Hp Hs Hne Hsec.
  destruct (do_ip_address_own self a ["secondary"] n x w b e Hn Hp Hs) as [-> Hf].
  now apply (address_loop_secondary_duplicate self _ n x _ w b e).
Qed.

Lemma secondary_duplicate_rejected_witness :
  do_ip ve1 ["address"; "10.0.0.5/24"; "secondary"] one_secondary_world
  = Return tt (wrote one_secondary_world "IP/Port: Errno(6) Duplicate ip address").
Proof.
  apply (secondary_duplicate_rejected ve1 "10.0.0.5/24"
           (netaddr.mkIPNetwork 167772165 24) (netaddr.mkIPNetwork 167772161 24)
           one_secondary_world
           (Port.set_switch_configuration (Port.init "ve 1") true)
           (VlanPort.set_secondary_ips
              (VlanPort.set_ips (VlanPort.init 1) [netaddr.mkIPNetwork 167772161 24])
              [netaddr.mkIPNetwork 167772165 24]));
    reflexivity.
Defined.

(** ** [no ip address], continued *)

Lemma remove_first_none {A} (f : A -> bool) (l : list A) :
  existsb f l = false -> remove_first f l = l.
Proof.
  induction l as [|x l IH]; simpl; [reflexivity|].
  intros H. apply orb_false_iff in H as [Hx H]. rewrite Hx. now rewrite IH.
Qed.

Lemma store_vlan_port_same (w : World) (p : nat) (b : Port.t) (e : VlanPort.t) :
  port_objects w !! p = Some (VlanPortInstance b e) ->
  store_vlan_port w p b e = w.
Proof.
  intros H. unfold store_vlan_port, set_port_objects.
  rewrite list_insert_id by exact H. now destruct w.
Qed.

(** X23: [no ip address A] for an address that the port has neither as
    a primary nor as a secondary, with no secondary inside the network of
    A, does nothing: no line, no change. *)
Theorem no_ip_address_absent (self : t) (a : string) (n : netaddr.IPNetwork)
    (w : World) (b : Port.t) (e : VlanPort.t) :
  netaddr.IPNetwork_of_string a = Some n ->
  port_objects w !! port self = Some (VlanPortInstance b e) ->
  existsb (VlanPort.same_address n) (VlanPort.ips e) = false ->
  existsb (VlanPort.same_address n) (VlanPort.secondary_ips e) = false ->
  existsb (fun ip => netaddr.contains_network n ip) (VlanPort.secondary_ips e) = false ->
  do_no_ip self ["address"; a] w = Return tt w.
Proof.
  intros Hn Hp Hi Hs Hc.
  rewrite (do_no_ip_primary_removed self a n w b e Hn Hp Hs Hc).
  unfold VlanPort.remove_ip. rewrite remove_first_none by exact Hi.
  replace (VlanPort.set_ips e (VlanPort.ips e)) with e by now destruct e.
  now rewrite store_vlan_port_same.
Qed.

Lemma no_ip_address_absent_witness :
  do_no_ip ve1 ["address"; "10.0.0.1/24"] two_port_world = Return tt two_port_world.
Proof.
  apply (no_ip_address_absent ve1 "10.0.0.1/24" (netaddr.mkIPNetwork 167772161 24)
           two_port_world
           (Port.set_switch_configuration (Port.init "ve 1") true) (VlanPort.init 1));
    reflexivity.
Defined.

(** ** VRRP groups and authentication, continued *)

Lemma do_no_ip_vrid_only (self : t) (g : string) (w : World) :
  do_no_ip self ["vrrp-extended"; "vrid"; g] w
  = do_no_ip_vrid self ["vrrp-extended"; "vrid"; g] w.
Proof.
  unfold do_no_ip, do_no_ip_vrrp_extended, arg, when, bind. simpl.
  now destruct (do_no_ip_vrid self _ w) as [[] ?|? ?].
Qed.

Lemma do_no_ip_vrid_eq (self : t) (g : string) (w : World) (b : Port.t)
    (e : VlanPort.t) :
  port_objects w !! port self = Some (VlanPortInstance b e) ->
  do_no_ip self ["vrrp-extended"; "vrid"; g] w
  = match VlanPort.get_vrrp_group (vrrp_objects w) e g with
    | Some vrrp =>
        Return tt
          (store_vlan_port w (port self) b
             (VlanPort.set_vrrps e (remove_first (Nat.eqb vrrp) (VlanPort.vrrps e))))
    | None => Return tt w
    end.
Proof.
  intros Hp. rewrite do_no_ip_vrid_only.
  unfold do_no_ip_vrid, arg. simpl. unfold bind at 1. simpl.
  rewrite (bind_Return _ _ _ _ _ (vlan_port_eq _ _ _ _ Hp)).
  unfold bind at 1. simpl.
  destruct (VlanPort.get_vrrp_group (vrrp_objects w) e g); [|reflexivity].
  now apply update_vlan_port_eq with (e := e).
Qed.

(** X24: on a port without group g, [no ip vrrp-extended vrid g] does
    nothing.  After [ip vrrp-extended vrid g] it takes the new group out
    of the VRRP list of the port, which is then as before; the object
    stays in the store and the session stays in the sub-mode entered. *)
Theorem vrid_created_then_removed (self : t) (g : string) (w : World)
    (b : Port.t) (e : VlanPort.t) :
  port_objects w !! port self = Some (VlanPortInstance b e) ->
  Forall (fun r => (r < length (vrrp_objects w))%nat) (VlanPort.vrrps e) ->
  VlanPort.get_vrrp_group (vrrp_objects w) e g = None ->
  do_no_ip self ["vrrp-extended"; "vrid"; g] w = Return tt w
  /\ exists w1 w2,
       do_ip self ["vrrp-extended"; "vrid"; g] w = Return tt w1
       /\ do_no_ip self ["vrrp-extended"; "vrid"; g] w1 = Return tt w2
       /\ vlan_fields w2 (port self) = Some e
       /\ vrrp_objects w2 = vrrp_objects w ++ [VRRP.init g]
       /\ sub_processor w2
          = Some (ConfigVirtualInterfaceVrrpCommandProcessor (port self)
                    (length (vrrp_objects w)))
       /\ written w2 = written w.
Proof.
  intros Hp Hv Hg. split.
  - rewrite (do_no_ip_vrid_eq self g w b e Hp). now rewrite Hg.
  - set (e1 := VlanPort.set_vrrps e (VlanPort.vrrps e ++ [length (vrrp_objects w)])).
    set (w1 := set_sub_processor
                 (store_vlan_port
                    (set_vrrp_objects w (vrrp_objects w ++ [VRRP.init g]))
                    (port self) b e1)
                 (Some (ConfigVirtualInterfaceVrrpCommandProcessor (port self)
                          (length (vrrp_objects w))))).
    assert (Hlt : (port self < length (port_objects w))%nat)
      by now apply lookup_lt_Some in Hp.
    assert (Hp1 : port_objects w1 !! port self = Some (VlanPortInstance b e1)).
    { simpl. now apply list_lookup_insert_eq. }
    assert (Hg1 : VlanPort.get_vrrp_group (vrrp_objects w1) e1 g
                  = Some (length (vrrp_objects w))).
    { unfold VlanPort.get_vrrp_group. simpl.
      rewrite find_app_None.
      - simpl. now rewrite has_group_id_new.
      - rewrite find_alloc by exact Hv. exact Hg. }
    assert (Hfresh : existsb (Nat.eqb (length (vrrp_objects w))) (VlanPort.vrrps e)
                     = false).
    { apply existsb_eqb_not_In. intros Hin.
      rewrite Forall_forall in Hv. apply list_elem_of_In in Hin.
      specialize (Hv _ Hin). simpl in Hv. lia. }
    exists w1. eexists.
    split; [exact (do_ip_vrid_created self g w b e Hp Hg)|].
    split; [rewrite (do_no_ip_vrid_eq self g w1 b e1 Hp1), Hg1; reflexivity|].
    simpl. split; [|repeat split].
    unfold vlan_fields. simpl.
    rewrite list_lookup_insert_eq by now rewrite length_insert.
    simpl. rewrite (remove_first_snoc _ _ _ Hfresh (Nat.eqb_refl _)).
    now destruct e.
Qed.

Lemma vrid_created_then_removed_witness :
  do_no_ip ve1 ["vrrp-extended"; "vrid"; "3"] two_port_world = Return tt two_port_world
  /\ exists w1 w2,
       do_ip ve1 ["vrrp-extended"; "vrid"; "3"] two_port_world = Return tt w1
       /\ do_no_ip ve1 ["vrrp-extended"; "vrid"; "3"] w1 = Return tt w2
       /\ vlan_fields w2 (port ve1) = Some (VlanPort.init 1)
       /\ vrrp_objects w2 = vrrp_objects two_port_world ++ [VRRP.init "3"]
       /\ sub_processor w2
          = Some (ConfigVirtualInterfaceVrrpCommandProcessor (port ve1)
                    (length (vrrp_objects two_port_world)))
       /\ written w2 = written two_port_world.
Proof.
  apply (vrid_created_then_removed ve1 "3" two_port_world
           (Port.set_switch_configuration (Port.init "ve 1") true) (VlanPort.init 1)).
  - reflexivity.
  - constructor.
  - reflexivity.
Defined.

Lemma do_ip_auth_type_only (self : t) (rest : list string) (w : World) :
  do_ip self ("vrrp-extended" :: "auth-type" :: rest) w
  = do_ip_auth_type self ("vrrp-extended" :: "auth-type" :: rest) w.
Proof.
  unfold do_ip, do_ip_vrrp_extended, arg, when, bind. simpl.
  now destruct (do_ip_auth_type self _ w) as [[] ?|? ?].
Qed.

(** X25: [ip vrrp-extended auth-type simple-text-auth SECRET] stores the
    secret as the shared VRRP authentication of the port, whatever it was
    before, and the negated command with four arguments clears it again;
    neither writes a line.  The keyword [simple-text-auth] may be
    abbreviated. *)
Theorem auth_type_set_then_cleared (self : t) (a2 secret other : string)
    (w : World) (b : Port.t) (e : VlanPort.t) :
  port_objects w !! port self = Some (VlanPortInstance b e) ->
  PyStr.startswith "simple-text-auth" a2 = true ->
  exists w1 w2,
    do_ip self ["vrrp-extended"; "auth-type"; a2; secret] w = Return tt w1
    /\ vlan_fields w1 (port self)
       = Some (VlanPort.set_vrrp_common_authentication e (Some secret))
    /\ do_no_ip self ["vrrp-extended"; "auth-type"; a2; other] w1 = Return tt w2
    /\ vlan_fields w2 (port self)
       = Some (VlanPort.set_vrrp_common_authentication e None)
    /\ written w2 = written w.
Proof.
  intros Hp Ha.
  assert (Hlt : (port self < length (port_objects w))%nat)
    by now apply lookup_lt_Some in Hp.
  pose proof (store_vlan_port_lookup w (port self) b e
                (VlanPort.set_vrrp_common_authentication e (Some secret)) Hp) as Hp1.
  do 2 eexists. split.
  - rewrite do_ip_auth_type_only.
    unfold do_ip_auth_type, arg, bind.
    cbn -[PyStr.startswith vlan_port update_vlan_port].
    rewrite Ha. cbn -[PyStr.startswith vlan_port update_vlan_port].
    rewrite (vlan_port_eq _ _ _ _ Hp).
    exact (update_vlan_port_eq _ _ _ _ _ Hp).
  - split; [unfold vlan_fields; now rewrite Hp1|].
    split; [exact (no_auth_type_accepted self a2 other _ b _ Ha Hp1)|].
    split; [|reflexivity].
    unfold vlan_fields, store_vlan_port. simpl.
    rewrite list_lookup_insert_eq by now rewrite length_insert. reflexivity.
Qed.

Lemma auth_type_set_then_cleared_witness :
  exists w1 w2,
    do_ip ve1 ["vrrp-extended"; "auth-type"; "simple-text-auth"; "secret"] two_port_world
    = Return tt w1
    /\ vlan_fields w1 (port ve1)
       = Some (VlanPort.set_vrrp_common_authentication (VlanPort.init 1) (Some "secret"))
    /\ do_no_ip ve1 ["vrrp-extended"; "auth-type"; "simple-text-auth"; "secret"] w1
       = Return tt w2
    /\ vlan_fields w2 (port ve1)
       = Some (VlanPort.set_vrrp_common_authentication (VlanPort.init 1) None)
    /\ written w2 = written two_port_world.
Proof.
  apply (auth_type_set_then_cleared ve1 "simple-text-auth" "secret" "secret"
           two_port_world
           (Port.set_switch_configuration (Port.init "ve 1") true) (VlanPort.init 1));
    reflexivity.
Defined.

(** ** Partial port names, continued *)

Lemma is_space_lower_char (c : ascii) :
  PyStr.is_space (PyStr.lower_char c) = PyStr.is_space c.
Proof. destruct c as [[] [] [] [] [] [] [] []]; reflexivity. Qed.

Lemma digit_not_space (c : ascii) :
  PyStr.is_digit c = true -> PyStr.is_space c = false.
Proof.
  destruct c as [[] [] [] [] [] [] [] []]; intros H;
    try reflexivity; discriminate H.
Qed.

Lemma list_ascii_lower (s : string) :
  list_ascii_of_string (PyStr.lower s)
  = List.map PyStr.lower_char (list_ascii_of_string s).
Proof. induction s as [|c r IH]; simpl; [reflexivity|now rewrite IH]. Qed.

Lemma string_of_map_lower (l : list ascii) :
  string_of_list_ascii (List.map PyStr.lower_char l)
  = PyStr.lower (string_of_list_ascii l).
Proof. induction l as [|c l IH]; simpl; [reflexivity|now rewrite IH]. Qed.

Lemma rev_lower (s : string) : PyStr.rev (PyStr.lower s) = PyStr.lower (PyStr.rev s).
Proof.
  unfold PyStr.rev. rewrite list_ascii_lower, <- List.map_rev.
  apply string_of_map_lower.
Qed.

Lemma lstrip_lower (s : string) :
  PyStr.lstrip (PyStr.lower s) = PyStr.lower (PyStr.lstrip s).
Proof.
  induction s as [|c r IH]; simpl; [reflexivity|].
  rewrite is_space_lower_char. now destruct (PyStr.is_space c).
Qed.

Lemma trimmed_lower (s : string) : trimmed s -> trimmed (PyStr.lower s).
Proof.
  intros [H1 H2]. split.
  - now rewrite lstrip_lower, H1.
  - now rewrite rev_lower, lstrip_lower, H2.
Qed.

Lemma list_ascii_app (a b : string) :
  list_ascii_of_string (a +:+ b) = list_ascii_of_string a ++ list_ascii_of_string b.
Proof.
  induction a as [|c a IH]; [reflexivity|].
  change (c :: list_ascii_of_string (a +:+ b)
          = c :: (list_ascii_of_string a ++ list_ascii_of_string b)).
  now rewrite IH.
Qed.

Lemma string_of_app (l l' : list ascii) :
  string_of_list_ascii (l ++ l') = string_of_list_ascii l +:+ string_of_list_ascii l'.
Proof.
  induction l as [|c l IH]; [reflexivity|].
  change (String c (string_of_list_ascii (l ++ l'))
          = String c (string_of_list_ascii l +:+ string_of_list_ascii l')).
  now rewrite IH.
Qed.

Lemma rev_append (a b : string) : PyStr.rev (a +:+ b) = PyStr.rev b +:+ PyStr.rev a.
Proof.
  unfold PyStr.rev. rewrite list_ascii_app, List.rev_app_distr.
  apply string_of_app.
Qed.

Lemma rev_rev (s : string) : PyStr.rev (PyStr.rev s) = s.
Proof.
  unfold PyStr.rev. rewrite list_ascii_of_string_of_list_ascii, List.rev_involutive.
  apply string_of_list_ascii_of_string.
Qed.

Lemma append_assoc (a b c : string) : (a +:+ b) +:+ c = a +:+ (b +:+ c).
Proof.
  induction a as [|x a IH]; [reflexivity|].
  change (String x ((a +:+ b) +:+ c) = String x (a +:+ (b +:+ c))).
  now rewrite IH.
Qed.

Lemma startswith_append (p t : string) : PyStr.startswith (p +:+ t) p = true.
Proof.
  induction p as [|c p IH].
  { change (PyStr.startswith t "" = true). now destruct t. }
  change (Ascii.eqb c c && PyStr.startswith (p +:+ t) p = true).
  now rewrite Ascii.eqb_refl, IH.
Qed.

Lemma lstrip_length (s : string) :
  (String.length (PyStr.lstrip s) <= String.length s)%nat.
Proof.
  induction s as [|c r IH]; simpl; [lia|].
  destruct (PyStr.is_space c); simpl; lia.
Qed.

(** A string that [lstrip] leaves alone starts with no white space. *)
Lemma lstrip_fixed_head (c : ascii) (r : string) :
  PyStr.lstrip (String c r) = String c r -> PyStr.is_space c = false.
Proof.
  simpl. destruct (PyStr.is_space c); [|reflexivity].
  intros H. pose proof (lstrip_length r) as Hl. rewrite H in Hl. simpl in Hl. lia.
Qed.

Lemma lstrip_head (c : ascii) (r : string) :
  PyStr.is_space c = false -> PyStr.lstrip (String c r) = String c r.
Proof. simpl. now intros ->. Qed.

(** What [lstrip] drops is a prefix. *)
Lemma lstrip_suffix (s : string) : exists ws, s = ws +:+ PyStr.lstrip s.
Proof.
  induction s as [|c r [ws IH]]; [now exists ""|].
  simpl. destruct (PyStr.is_space c).
  - exists (String c ws).
    change (String c r = String c (ws +:+ PyStr.lstrip r)). now rewrite <- IH.
  - now exists "".
Qed.

(** A string without white space at its start begins with what [strip]
    makes of it. *)
Lemma strip_prefix (x : string) :
  PyStr.lstrip x = x -> exists t, x = PyStr.strip x +:+ t.
Proof.
  intros H. unfold PyStr.strip. rewrite H.
  destruct (lstrip_suffix (PyStr.rev x)) as [ws Hws].
  exists (PyStr.rev ws).
  rewrite <- rev_append, <- Hws. symmetry. apply rev_rev.
Qed.

Lemma take_lstrip (k : nat) (s : string) :
  PyStr.lstrip s = s -> PyStr.lstrip (PyStr.take k s) = PyStr.take k s.
Proof.
  intros H. destruct k as [|k]; [now destruct s|].
  destruct s as [|c r]; [reflexivity|].
  apply lstrip_fixed_head in H.
  change (PyStr.take (S k) (String c r)) with (String c (PyStr.take k r)).
  now apply lstrip_head.
Qed.

Lemma rev_cons (c : ascii) (r : string) :
  PyStr.rev (String c r) = PyStr.rev r +:+ String c "".
Proof.
  change (String c r) with (String c "" +:+ r). now rewrite rev_append.
Qed.

Lemma append_head (a b : string) (c : ascii) (r : string) :
  a = String c r -> exists r', a +:+ b = String c r'.
Proof. intros ->. now exists (r +:+ b). Qed.

Lemma rev_nonempty (c : ascii) (r : string) :
  exists d t, PyStr.rev (String c r) = String d t.
Proof.
  rewrite rev_cons. destruct (PyStr.rev r) as [|d t].
  - now exists c, "".
  - now exists d, (t +:+ String c "").
Qed.

(** The part of a trimmed name from its first digit on is left alone by
    [strip]. *)
Lemma strip_number (s : string) (k : nat) :
  trimmed s -> PyStr.search_digit s = Some k ->
  PyStr.strip (PyStr.drop k s) = PyStr.drop k s.
Proof.
  intros [_ Hr] Hk.
  destruct (search_digit_drop s k Hk) as (c & r & Hd & Hc).
  unfold PyStr.strip. rewrite Hd.
  rewrite (lstrip_head c r (digit_not_space c Hc)).
  destruct (rev_nonempty c r) as (d & t & Hrev).
  assert (Hs : PyStr.rev s = PyStr.rev (String c r) +:+ PyStr.rev (PyStr.take k s)).
  { rewrite <- rev_append, <- Hd. now rewrite take_drop. }
  rewrite Hrev in Hs.
  change (String d t +:+ PyStr.rev (PyStr.take k s))
    with (String d (t +:+ PyStr.rev (PyStr.take k s))) in Hs.
  rewrite Hs in Hr. apply lstrip_fixed_head in Hr.
  rewrite Hrev, (lstrip_head d t Hr), <- Hrev. apply rev_rev.
Qed.

(** A trimmed name with a digit matches its own two parts. *)
Lemma own_name_matches (s : string) (k : nat) :
  trimmed s -> PyStr.search_digit s = Some k ->
  PyStr.startswith s (PyStr.strip (PyStr.take k s)) = true
  /\ PyStr.endswith s (PyStr.strip (PyStr.drop k s)) = true.
Proof.
  intros Ht Hk. split.
  - destruct (strip_prefix (PyStr.take k s)) as [t Ht'].
    { apply take_lstrip. apply Ht. }
    rewrite <- (take_drop k s) at 1. rewrite Ht' at 1.
    rewrite append_assoc. apply startswith_append.
  - rewrite (strip_number s k Ht Hk). unfold PyStr.endswith.
    rewrite <- (take_drop k s) at 1. rewrite rev_append.
    apply startswith_append.
Qed.

Lemma find_split {A} (f : A -> bool) (l : list A) (x : A) :
  List.find f l = Some x ->
  exists l1 l2, l = l1 ++ x :: l2 /\ existsb f l1 = false /\ f x = true.
Proof.
  induction l as [|y l IH]; simpl; [discriminate|].
  destruct (f y) eqn:E.
  - intros H; inversion H; subst. now exists [], l.
  - intros H. destruct (IH H) as (l1 & l2 & -> & H1 & H2).
    exists (y :: l1), l2. simpl. now rewrite E.
Qed.

Lemma find_exists {A} (f : A -> bool) (l : list A) (x : A) :
  In x l -> f x = true -> exists y, List.find f l = Some y.
Proof.
  intros Hin Hx. destruct (List.find f l) as [y|] eqn:F; [now exists y|].
  rewrite (List.find_none _ _ F x Hin) in Hx. discriminate.
Qed.

(** X26: a port of the configuration whose name has a digit and no white
    space around it is found under its own name, in whatever letter case
    the name is asked: [get_port_by_partial_name] answers that port or a
    port listed before it that matches as well, never nothing. *)
Theorem full_name_resolves (w : World) (q : string) (r : nat) (o : PortObject) :
  In r (config_ports w) ->
  port_objects w !! r = Some o ->
  PyStr.lower (Port.name (base_of o)) = PyStr.lower q ->
  PyStr.has_digit q = true ->
  trimmed q ->
  exists r' l1 l2,
    get_port_by_partial_name q w = Return (Some r') w
    /\ config_ports w = l1 ++ r' :: l2
    /\ (r' = r \/ In r l2).
Proof.
  intros Hin Ho Hname Hd Ht. unfold get_port_by_partial_name.
  destruct (split_port_name_digit (PyStr.lower q)) as (k & Hk & ->).
  { now rewrite has_digit_lower. }
  set (f := partial_name_matches w (PyStr.take k (PyStr.lower q))
              (PyStr.drop k (PyStr.lower q))).
  assert (Hr : f r = true).
  { unfold f, partial_name_matches. rewrite Ho, Hname.
    destruct (own_name_matches (PyStr.lower q) k (trimmed_lower q Ht) Hk) as [-> ->].
    reflexivity. }
  destruct (find_exists f _ r Hin Hr) as [r' Hf].
  unfold config_ports in *. rewrite Hf.
  destruct (find_split f _ r' Hf) as (l1 & l2 & Hl & H1 & H2).
  exists r', l1, l2. split; [reflexivity|]. split; [exact Hl|].
  rewrite Hl in Hin. apply in_app_or in Hin as [Hin|[Hin|Hin]]; auto.
  exfalso. assert (existsb f l1 = true) by (apply existsb_exists; now exists r).
  congruence.
Qed.

Lemma full_name_resolves_witness :
  exists r' l1 l2,
    get_port_by_partial_name "GIGABITETHERNET0/3" gigabit_world
    = Return (Some r') gigabit_world
    /\ config_ports gigabit_world = l1 ++ r' :: l2
    /\ (r' = 0%nat \/ In 0%nat l2).
Proof.
  apply (full_name_resolves gigabit_world "GIGABITETHERNET0/3" 0
           (PortInstance (Port.set_switch_configuration
                            (Port.init "GigabitEthernet0/3") true))).
  - simpl. tauto.
  - reflexivity.
  - reflexivity.
  - reflexivity.
  - split; reflexivity.
Defined.

(** ** VLANs *)

(** X27: [add_vlan] does not look at numbers or names.  A VLAN added
    under a number that no VLAN of the configuration has is what
    [get_vlan] answers for that number afterwards, with its
    back-reference set; every answer that [get_vlan] and
    [get_vlan_by_name] gave before is kept, also for the number and the
    name of the VLAN added. *)
Theorem add_vlan_get_vlan (w : World) (vlan : Vlan.t) (number : Z) :
  Vlan.number vlan = Some number ->
  (get_vlan w number = None ->
   get_vlan (world_after (add_vlan vlan w)) number
   = Some (Vlan.mk (Vlan.number vlan) (Vlan.name vlan) (Vlan.description vlan) true))
  /\ (forall m v0, get_vlan w m = Some v0 ->
                   get_vlan (world_after (add_vlan vlan w)) m = Some v0)
  /\ (forall n v0, get_vlan_by_name w n = Some v0 ->
                   get_vlan_by_name (world_after (add_vlan vlan w)) n = Some v0).
Proof.
  intros Hn. unfold get_vlan, get_vlan_by_name, add_vlan, modify. simpl.
  split; [|split].
  - intros H. rewrite find_app_None by exact H. simpl.
    now rewrite Hn, Z.eqb_refl.
  - intros m v0 H. now apply find_app_Some.
  - intros n v0 H. now apply find_app_Some.
Qed.

Lemma add_vlan_get_vlan_witness :
  (get_vlan new_world 123 = None ->
   get_vlan (world_after (add_vlan (Vlan.init (Some 123) (Some "vlan123") None false)
                            new_world)) 123
   = Some (Vlan.mk (Some 123) (Some "vlan123") None true))
  /\ (forall m v0, get_vlan new_world m = Some v0 ->
                   get_vlan (world_after
                               (add_vlan (Vlan.init (Some 123) (Some "vlan123") None false)
                                  new_world)) m = Some v0)
  /\ (forall n v0, get_vlan_by_name new_world n = Some v0 ->
                   get_vlan_by_name
                     (world_after
                        (add_vlan (Vlan.init (Some 123) (Some "vlan123") None false)
                           new_world)) n = Some v0).
Proof.
  apply (add_vlan_get_vlan new_world
           (Vlan.init (Some 123) (Some "vlan123") None false) 123).
  reflexivity.
Defined.
